(** * Multi-agent proposal analysis: orchestration and statistics

    A shallow embedding of the orchestration core of the framework
    (src/App.tsx, the generation service, the summary panel and the median
    iteration of the PDF report) together with the properties stated about
    it.

    Conventions of the model.
    - A JavaScript string is a [string]; each character stands for one
      UTF-16 code unit, so [String.length] is the [.length] of the source.
    - String lengths, token counts and iteration counts are [nat].
    - Numbers are modelled twice.  Scores, durations and statistics are
      first exact rationals ([Q]), with [NaN] where the code can produce it
      (division of 0 by the length of an empty list, arithmetic on
      [undefined]) and the real square root: these are the values that the
      code approximates, and they are the code's own values where its
      arithmetic is exact (integers, halves, comparisons, [Math.round]).
      The statistics are then given again in module [Binary64], on IEEE 754
      binary64 numbers with every operation rounded, as the engine computes
      them; what is decided by comparing computed values (the label of
      confidence, the representative assessment) is stated there.
    - A [Record<string, T>] is a [gmap string T].
    - Asynchronous code is sequential code in a state-and-exception monad;
      the state is the log of generation requests and the clock. *)

From Stdlib Require Import Floats.
From Stdlib Require Import QArith Qround Qabs Reals Qreals Lqa Lra Lia.
From Stdlib Require Import String Ascii List DecimalString.
From Stdlib Require Import Sorting.Permutation Sorting.Sorted.
From stdpp Require Import base gmap strings.
Import ListNotations.
Local Open Scope string_scope.
#[local] Set Warnings "-register-all,-abstract-large-number,-inexact-float".

(* ===================================================================== *)
(** * Part I: the program                                                 *)
(* ===================================================================== *)

(** ** Strings *)

Definition LF : ascii := "010"%char.
Definition newline : string := String LF EmptyString.
Definition dquote : string := String "034"%char EmptyString.

(** [s.substring(start)]: the suffix from index [start]; empty when
    [start] is at or past the end. *)
Fixpoint substringFrom (start : nat) (s : string) : string :=
  match start, s with
  | O, _ => s
  | S _, EmptyString => EmptyString
  | S n, String _ rest => substringFrom n rest
  end.

(** [s.startsWith(p)]. *)
Definition startsWith (p s : string) : bool := String.prefix p s.

(** [Math.ceil(a / b)] on non-negative integers, [b > 0]. *)
Definition Math_ceil_div (a b : nat) : nat :=
  if (a mod b =? 0)%nat then (a / b)%nat else S (a / b).

(** ** Token/length guard (App.tsx, lines 107-141) *)

Definition MAX_CONTEXT_TOKENS : nat := 12000.

Definition countTokens (text : string) : nat :=
  Math_ceil_div (String.length text) 4.

Definition truncationMarker : string :=
  "[... previous content truncated to fit token limit ...]" ++ newline ++ newline.

(** The loop [while (splitIndex < prompt.length && prompt[splitIndex] !== '\n')
    splitIndex++].  [rest] is the prompt from [splitIndex] on, so its head is
    [prompt[splitIndex]] and it is empty exactly when
    [splitIndex >= prompt.length]. *)
Fixpoint advanceToLineStart (rest : string) (splitIndex : nat) : nat :=
  match rest with
  | EmptyString => splitIndex
  | String c rest' =>
      if Ascii.eqb c LF then splitIndex
      else advanceToLineStart rest' (S splitIndex)
  end.

Definition truncatePromptIfNeeded (prompt : string) (maxTokens : nat) : string :=
  let currentTokens := countTokens prompt in
  if (currentTokens <=? maxTokens)%nat then prompt
  else
    let excessTokens := (currentTokens - maxTokens)%nat in
    let charsToRemove := (excessTokens * 4)%nat in
    let splitIndex :=
      advanceToLineStart (substringFrom charsToRemove prompt) charsToRemove in
    let truncatedPrompt := substringFrom splitIndex prompt in
    truncationMarker ++ truncatedPrompt.

(** ** Numbers

    A JavaScript number is [NaN] or an exact rational: the arithmetic of
    this section does not round.  The arithmetic of the engine, which
    does, is that of module [Binary64] below. *)

Inductive number : Type :=
| NaN
| Num (q : Q).

Definition nadd (a b : number) : number :=
  match a, b with Num x, Num y => Num (x + y)%Q | _, _ => NaN end.

Definition nsub (a b : number) : number :=
  match a, b with Num x, Num y => Num (x - y)%Q | _, _ => NaN end.

(** [a / b].  [0 / 0] is [NaN].  A non-zero dividend over zero is an
    infinity in JavaScript; the model has none, and the code below divides
    only by 2 and by the length of a list whose sum is the dividend, so a
    zero divisor always comes with a zero dividend. *)
Definition ndiv (a b : number) : number :=
  match a, b with
  | Num x, Num y => if Qeq_bool y 0 then NaN else Num (x / y)%Q
  | _, _ => NaN
  end.

(** [Math.pow(a, 2)]. *)
Definition Math_pow2 (a : number) : number :=
  match a with Num x => Num (x * x)%Q | NaN => NaN end.

(** [a <= b] and [a >= b]; every comparison with [NaN] is false. *)
Definition nle (a b : number) : bool :=
  match a, b with Num x, Num y => Qle_bool x y | _, _ => false end.

Definition nge (a b : number) : bool := nle b a.

Definition ofNat (n : nat) : number := Num (inject_Z (Z.of_nat n)).

(** [arr[i]] used as an operand of arithmetic: an index out of range gives
    [undefined], which arithmetic turns into [NaN]. *)
Definition arrayAt (arr : list Q) (i : Z) : number :=
  if (i <? 0)%Z then NaN
  else match nth_error arr (Z.to_nat i) with
       | Some x => Num x
       | None => NaN
       end.

(** [Math.round(x)]: the nearest integer, halves upwards. *)
Definition Math_round (x : Q) : Z := Qfloor (x + (1 # 2))%Q.

(** The result of [Math.sqrt]: [NaN] or a real number. *)
Inductive rnumber : Type :=
| RNaN
| RNum (r : R).

Definition Math_sqrt (v : number) : rnumber :=
  match v with
  | NaN => RNaN
  | Num q => if Qle_bool 0 q then RNum (sqrt (Q2R q)) else RNaN
  end.

(** [x <= c] for a square root [x] and a rational constant [c]. *)
Definition rle (x : rnumber) (c : Q) : bool :=
  match x with
  | RNaN => false
  | RNum r => if Rle_dec r (Q2R c) then true else false
  end.

(** [[...scores].sort((a, b) => a - b)]: ascending, stable. *)
Fixpoint insertAscending (x : Q) (sorted : list Q) : list Q :=
  match sorted with
  | [] => [x]
  | y :: rest =>
      if Qle_bool x y then x :: sorted else y :: insertAscending x rest
  end.

Definition sortAscending (scores : list Q) : list Q :=
  fold_right insertAscending [] scores.

(** ** Statistics and decision (App.tsx, lines 417-436)

    The formulas of the code on exact numbers.  The mean, the variance and
    the standard deviation that the code computes are roundings of these;
    the median and the decision are these whenever the scores are integers
    or halves of integers. *)

Definition meanOf (scores : list Q) : number :=
  ndiv (Num (fold_left (fun sum score => (sum + score)%Q) scores 0%Q))
       (ofNat (length scores)).

Definition medianOf (scores : list Q) : number :=
  let sortedScores := sortAscending scores in
  let mid := (length sortedScores / 2)%nat in
  if Nat.even (length sortedScores)
  then ndiv (nadd (arrayAt sortedScores (Z.of_nat mid - 1))
                  (arrayAt sortedScores (Z.of_nat mid)))
            (Num 2)
  else arrayAt sortedScores (Z.of_nat mid).

Definition varianceOf (scores : list Q) : number :=
  let mean := meanOf scores in
  ndiv (fold_left
          (fun sum score => nadd sum (Math_pow2 (nsub (Num score) mean)))
          scores (Num 0))
       (ofNat (length scores)).

Definition standardDeviationOf (scores : list Q) : rnumber :=
  Math_sqrt (varianceOf scores).

(** Lines 428-431. *)
Definition confidenceLevelOf (standardDeviation : rnumber) : string :=
  if rle standardDeviation 5 then "High"
  else if rle standardDeviation 15 then "Medium"
  else "Low".

(** Lines 433-436. *)
Definition decisionOf (median : number) : string :=
  if nge median (Num 70) then "Proceed"
  else if nge median (Num 50) then "Proceed with Caution"
  else "Do not proceed".

Record Statistics : Type := mkStatistics {
  mean : number;
  median : number;
  standardDeviation : rnumber;
  confidenceLevel : string
}.

Definition statisticsOf (scores : list Q) : Statistics :=
  {| mean := meanOf scores;
     median := medianOf scores;
     standardDeviation := standardDeviationOf scores;
     confidenceLevel := confidenceLevelOf (standardDeviationOf scores) |}.

(** ** The rendering of the decision (App.tsx, lines 853-877)

    [parsed.statistics.median] has gone through [JSON.stringify] and
    [JSON.parse]: a rational comes back unchanged, [NaN] comes back as
    [null], which [Math.round] turns into 0. *)
Definition renderedMedianScore (median : number) : Z :=
  match median with
  | NaN => 0%Z
  | Num q => Math_round q
  end.

Definition renderRecommendation (median : number) : string :=
  let medianScore := renderedMedianScore median in
  if (80 <? medianScore)%Z then "Proceed"
  else if (50 <=? medianScore)%Z then "Proceed with Caution"
  else if (30 <=? medianScore)%Z then "Not Recommended"
  else "Do Not Proceed".

(** ** The median of the summary panel (SummaryPanel, lines 7-14) *)

Definition calculateMedian (scores : list Q) : number :=
  if (length scores =? 0)%nat then Num 0
  else
    let sorted := sortAscending scores in
    let mid := (length sorted / 2)%nat in
    if Nat.even (length sorted)
    then ndiv (nadd (arrayAt sorted (Z.of_nat mid - 1))
                    (arrayAt sorted (Z.of_nat mid)))
              (Num 2)
    else arrayAt sorted (Z.of_nat mid).

(** ** More strings *)

(** White space of [trim] and of the class [\s], within the first 256 code
    units: tab, line feed, vertical tab, form feed, carriage return, space
    and no-break space. *)
Definition isWhitespace (c : ascii) : bool :=
  let n := nat_of_ascii c in
  ((9 <=? n) && (n <=? 13) || (n =? 32) || (n =? 160))%nat.

(** The class [\w]: letters, digits and the underscore. *)
Definition isWordChar (c : ascii) : bool :=
  let n := nat_of_ascii c in
  ((48 <=? n) && (n <=? 57) || (65 <=? n) && (n <=? 90)
   || (97 <=? n) && (n <=? 122) || (n =? 95))%nat.

Fixpoint dropWhile (p : ascii -> bool) (s : string) : string :=
  match s with
  | EmptyString => EmptyString
  | String c rest => if p c then dropWhile p rest else s
  end.

Definition trimStart (s : string) : string := dropWhile isWhitespace s.

Fixpoint trimEnd (s : string) : string :=
  match s with
  | EmptyString => EmptyString
  | String c rest =>
      let rest' := trimEnd rest in
      if isWhitespace c && String.eqb rest' EmptyString then EmptyString
      else String c rest'
  end.

(** [s.trim()]. *)
Definition trim (s : string) : string := trimEnd (trimStart s).

(** [s.endsWith(suffix)]. *)
Definition endsWith (suffix s : string) : bool :=
  (String.length suffix <=? String.length s)%nat
  && String.eqb (substringFrom (String.length s - String.length suffix) s) suffix.

(** [parts.join(separator)]. *)
Fixpoint join (separator : string) (parts : list string) : string :=
  match parts with
  | [] => EmptyString
  | [p] => p
  | p :: rest => p ++ separator ++ join separator rest
  end.

(** [s.split(separator)] for a one-character separator. *)
Fixpoint split (separator : ascii) (s : string) : list string :=
  match s with
  | EmptyString => [EmptyString]
  | String c rest =>
      if Ascii.eqb c separator then EmptyString :: split separator rest
      else match split separator rest with
           | [] => [String c EmptyString]
           | first :: others => String c first :: others
           end
  end.

(** The text before and after the first occurrence of [pattern] in [s]. *)
Fixpoint splitAtFirst (pattern s : string) : option (string * string) :=
  if String.prefix pattern s
  then Some (EmptyString, substringFrom (String.length pattern) s)
  else match s with
       | EmptyString => None
       | String c rest =>
           match splitAtFirst pattern rest with
           | Some (before, after) => Some (String c before, after)
           | None => None
           end
       end.

(** The replacement text of [String.prototype.replace] for a string
    pattern: [$$] is a dollar sign, [$&] the match, [$`] the text before it
    and [$'] the text after it; every other character stands for itself. *)
Fixpoint expandReplacement (replacement matched before after : string) : string :=
  match replacement with
  | EmptyString => EmptyString
  | String "$"%char ((String c rest) as tail) =>
      if Ascii.eqb c "$"%char then String "$"%char (expandReplacement rest matched before after)
      else if Ascii.eqb c "&"%char then matched ++ expandReplacement rest matched before after
      else if Ascii.eqb c "`"%char then before ++ expandReplacement rest matched before after
      else if Ascii.eqb c "'"%char then after ++ expandReplacement rest matched before after
      else String "$"%char (expandReplacement tail matched before after)
  | String c rest => String c (expandReplacement rest matched before after)
  end.

(** [s.replace(pattern, replacement)] for a string pattern: the first
    occurrence only. *)
Definition replace (pattern replacement s : string) : string :=
  match splitAtFirst pattern s with
  | Some (before, after) =>
      before ++ expandReplacement replacement pattern before after ++ after
  | None => s
  end.

(** A number inside a template literal. *)
Definition showNat (n : nat) : string := NilZero.string_of_uint (Nat.to_uint n).

(** ** JSON values *)

Inductive jsval : Type :=
| JUndefined
| JNull
| JBool (b : bool)
| JNum (q : Q)
| JStr (s : string)
| JArr (items : list jsval)
| JObj (fields : list (string * jsval)).

(** Truthiness, as [||] and [if] test it. *)
Definition truthy (v : jsval) : bool :=
  match v with
  | JUndefined | JNull => false
  | JBool b => b
  | JNum q => negb (Qeq_bool q 0)
  | JStr s => negb (String.eqb s EmptyString)
  | JArr _ | JObj _ => true
  end.

Fixpoint lookupField (key : string) (fields : list (string * jsval)) : option jsval :=
  match fields with
  | [] => None
  | (k, v) :: rest => if String.eqb k key then Some v else lookupField key rest
  end.

Inductive Access : Type :=
| Value (v : jsval)
| TypeError (message : string).

(** [v.key] for the keys the code reads ([feasibilityScore], [rationale],
    [keyFactors]), none of which is a property of an array, a string, a
    number or a boolean.  Reading a property of [null] or [undefined]
    throws. *)
Definition getProperty (v : jsval) (key : string) : Access :=
  match v with
  | JNull =>
      TypeError ("Cannot read properties of null (reading '" ++ key ++ "')")
  | JUndefined =>
      TypeError ("Cannot read properties of undefined (reading '" ++ key ++ "')")
  | JObj fields =>
      match lookupField key fields with
      | Some x => Value x
      | None => Value JUndefined
      end
  | JBool _ | JNum _ | JStr _ | JArr _ => Value JUndefined
  end.

(** What [JSON.parse] does with a text: a value, or a [SyntaxError]. *)
Inductive ParseOutcome : Type :=
| Parsed (v : jsval)
| SyntaxError (message : string).

(** ** Data model (types.ts; App.tsx, lines 13-47) *)

Inductive MimeType : Type :=
| application_json
| text_plain.

Module AgentConfig.
Record t : Type := mk {
  id : string;
  name : string;
  description : string;
  model : string;
  prompt : string;
  systemInstruction : option string;
  responseMimeType : option MimeType;
  responseSchema : option jsval;
  maxOutputTokens : option nat;
  thinkingConfig : option nat   (* thinkingBudget *)
}.
End AgentConfig.

Module FrameworkConfig.
Record t : Type := mk {
  iterations : nat;
  seed : option Z;              (* absent, or null: no seed *)
  temperature : option Q;
  description : string
}.
End FrameworkConfig.

Record Source : Type := mkSource {
  title : option string;
  uri : option string;
  snippet : option string
}.

(** [GoogleSearchMetadata]; the provider's raw metadata object, which the
    code only carries along, is left out. *)
Record GoogleSearchMetadata : Type := mkGoogleSearchMetadata {
  used : bool;
  queriesCount : nat;
  sourcesCount : nat;
  queries : option (list string);
  sources : option (list Source)
}.

Record TokenUsage : Type := mkTokenUsage {
  inputTokens : nat;
  outputTokens : nat
}.

Record AgentMetrics : Type := mkAgentMetrics {
  duration : Q;
  tokenUsage : TokenUsage;
  googleSearchUsage : option GoogleSearchMetadata
}.

Record GoogleSearchSummary : Type := mkGoogleSearchSummary {
  totalUsageCount : nat;
  totalQueries : nat;
  totalSources : nat;
  agentsUsed : list string
}.

Record FrameworkMetrics : Type := mkFrameworkMetrics {
  totalDuration : Q;
  totalInputTokens : nat;
  totalOutputTokens : nat;
  agentBreakdown : gmap string AgentMetrics;
  googleSearchSummary : GoogleSearchSummary
}.

Record UserChatMessage : Type := mkUserChatMessage {
  msgType : string;             (* the field [type] *)
  agentId : string;
  agentName : string;
  message : string
}.

Record ProposalData : Type := mkProposalData {
  proposal_info : string;
  date : string;
  url : string
}.

(** ** The host: the generation service, the clock, the network and the
    JSON functions of the runtime

    These are outside the repository; the model takes them as given and
    every theorem holds for all of them. *)

Inductive Tool : Type := googleSearch.

(** The argument of [ai.models.generateContent]. *)
Module Request.
Record t : Type := mk {
  model : string;
  contents : string;
  temperature : Q;
  seed : option Z;
  tools : list Tool;            (* the key is absent when the list is empty *)
  systemInstruction : option string;
  responseMimeType : option MimeType;
  responseSchema : option jsval;
  maxOutputTokens : option nat;
  thinkingConfig : option nat
}.
End Request.

(** [candidates[0].groundingMetadata].  A grounding chunk is read through
    [chunk.web?.title], [chunk.web?.uri] and [chunk.web?.snippet] only. *)
Record GroundingMetadata : Type := mkGroundingMetadata {
  webSearchQueries : option (list string);
  groundingChunks : option (list Source)
}.

Record GenerateContentResponse : Type := mkResponse {
  text : string;
  groundingMetadata : option GroundingMetadata
}.

Inductive GenerateOutcome : Type :=
| Responds (response : GenerateContentResponse)
| Rejects.

Inductive FetchOutcome : Type :=
| FetchResponds (ok : bool) (status : nat) (body : string)
| FetchRejects (message : string).

Record Host : Type := mkHost {
  (** [process.env.GEMINI_API_KEY] is set. *)
  GEMINI_API_KEY : bool;
  (** The reply to the n-th request of the run. *)
  generateContent : nat -> Request.t -> GenerateOutcome;
  (** The n-th reading of [performance.now()]. *)
  performance_now : nat -> Q;
  fetch : string -> FetchOutcome;
  JSON_parse : string -> ParseOutcome;
  (** [JSON.stringify(value, null, 2)]. *)
  JSON_stringify : jsval -> string;
  JSON_stringify_metrics : FrameworkMetrics -> string
}.

(** ** Asynchronous code

    An [async] function is a function of the world that returns or throws.
    The world is the log of the requests sent to the generation service,
    each with the participant it was sent for, and the number of clock
    readings taken. *)

Record Invocation : Type := mkInvocation {
  participant : string;
  request : Request.t
}.

Record World : Type := mkWorld {
  requests : list Invocation;
  clockReadings : nat
}.

Inductive Outcome (A : Type) : Type :=
| Returns (a : A)
| Throws (message : string).
Arguments Returns {A} a.
Arguments Throws {A} message.

Definition Async (A : Type) : Type := World -> Outcome A * World.

Definition ret {A : Type} (a : A) : Async A := fun w => (Returns a, w).

Definition throw {A : Type} (message : string) : Async A :=
  fun w => (Throws message, w).

Definition bind {A B : Type} (m : Async A) (k : A -> Async B) : Async B :=
  fun w =>
    match m w with
    | (Returns a, w') => k a w'
    | (Throws e, w') => (Throws e, w')
    end.

(** [try { m } catch (e) { handler(e.message) }]. *)
Definition tryCatch {A : Type} (m : Async A) (handler : string -> Async A) : Async A :=
  fun w =>
    match m w with
    | (Returns a, w') => (Returns a, w')
    | (Throws e, w') => handler e w'
    end.

Declare Scope async_scope.
Delimit Scope async_scope with async.
Notation "'let*' x ':=' m 'in' k" := (bind m (fun x => k))
  (at level 10, x name, m at level 100, k at level 200, only parsing)
  : async_scope.
Notation "'let*' ' pat ':=' m 'in' k" :=
  (bind m (fun x => match x with pat => k end))
  (at level 10, pat pattern, m at level 100, k at level 200, only parsing)
  : async_scope.
Local Open Scope async_scope.

(** A loop over a list, with the state of the loop passed along. *)
Fixpoint forEach {A S : Type} (body : S -> A -> Async S) (items : list A) (s : S) : Async S :=
  match items with
  | [] => ret s
  | item :: rest => let* s' := body s item in forEach body rest s'
  end.

Definition performanceNow (host : Host) : Async Q :=
  fun w =>
    (Returns (performance_now host (clockReadings w)),
     mkWorld (requests w) (S (clockReadings w))).

(** [await ai.models.generateContent(request)], issued for [agent]. *)
Definition callGenerateContent (host : Host) (agent : string) (req : Request.t) : Async GenerateOutcome :=
  fun w =>
    (Returns (generateContent host (length (requests w)) req),
     mkWorld (requests w ++ [mkInvocation agent req])%list (clockReadings w)).

(** ** The generation service wrapper ([runAgentQuery]) *)

Definition noSearch : GoogleSearchMetadata :=
  mkGoogleSearchMetadata false 0 0 None None.

Definition lengthOrZero {A : Type} (l : option (list A)) : nat :=
  match l with Some items => length items | None => 0%nat end.

Definition searchMetadataOf (response : GenerateContentResponse) : GoogleSearchMetadata :=
  match groundingMetadata response with
  | None => noSearch
  | Some metadata =>
      mkGoogleSearchMetadata true
        (lengthOrZero (webSearchQueries metadata))
        (lengthOrZero (groundingChunks metadata))
        (webSearchQueries metadata)
        (groundingChunks metadata)
  end.

Definition fence : string := "```".

(** The cleanup of a JSON answer: [content.match(fenceRegex)], then
    [match[2].trim()] when the second group is not empty.  The pattern
    (flag [s]) is anchored at both ends: a fence, an optional greedy run of
    word characters (group 1), greedy white space, an optional line feed,
    a lazy run of any characters (group 2), an optional line feed, white
    space, a fence.  So the text must start and end with a fence; the
    greedy parts take the tag and the white space after the opening fence,
    and the lazy group takes the rest up to the white space before the
    closing fence. *)
Definition stripJsonFence (content : string) : string :=
  if startsWith fence content && endsWith fence content
     && (6 <=? String.length content)%nat
  then
    let inner := String.substring 3 (String.length content - 6) content in
    let group2 := trimEnd (dropWhile isWhitespace (dropWhile isWordChar inner)) in
    if String.eqb group2 EmptyString then content else trim group2
  else content.

(** [x && { key: x }] inside the request: the key is present when [x] is
    truthy. *)
Definition nonEmpty (s : option string) : option string :=
  match s with
  | Some t => if String.eqb t EmptyString then None else Some t
  | None => None
  end.

Definition nonZero (n : option nat) : option nat :=
  match n with
  | Some k => if (k =? 0)%nat then None else Some k
  | None => None
  end.

(** [runAgentQuery({...config, prompt, useGoogleSearch, seed, temperature})].
    [agent] names the participant in the log and has no other use. *)
Definition runAgentQuery (host : Host) (agent : string) (config : AgentConfig.t)
    (prompt : string) (useGoogleSearch : bool) (seed : option Z) (temperature : option Q)
  : Async (string * GoogleSearchMetadata) :=
  if negb (GEMINI_API_KEY host) then
    ret ("Error: GEMINI_API_KEY is not configured. Please set the GEMINI_API_KEY environment variable.",
         noSearch)
  else
    let temperature' := match temperature with Some t => t | None => 0%Q end in
    let tools := if useGoogleSearch then [googleSearch] else [] in
    let* outcome :=
      callGenerateContent host agent
        (Request.mk (AgentConfig.model config) prompt temperature' seed tools
           (nonEmpty (AgentConfig.systemInstruction config))
           (AgentConfig.responseMimeType config)
           (AgentConfig.responseSchema config)
           (nonZero (AgentConfig.maxOutputTokens config))
           (AgentConfig.thinkingConfig config)) in
    match outcome with
    | Rejects =>
        ret ("Error: Could not get response from agent " ++ AgentConfig.name config
             ++ ". Check console for details.",
             noSearch)
    | Responds response =>
        let googleSearchMetadata := searchMetadataOf response in
        let content :=
          match AgentConfig.responseMimeType config with
          | Some application_json => stripJsonFence (text response)
          | _ => text response
          end in
        ret (content, googleSearchMetadata)
    end.

(** ** The agent invoker ([runAgent], App.tsx, lines 58-105) *)

Definition zeroMetrics : AgentMetrics :=
  mkAgentMetrics 0 (mkTokenUsage 0 0) None.

Definition forceZeroTempAgents : list string :=
  ["proposal_classification_agent"; "proposal_information_summarize_agent"].

Definition includes (items : list string) (x : string) : bool :=
  existsb (String.eqb x) items.

Definition runAgent (host : Host) (agentId : string)
    (configs : option (gmap string AgentConfig.t)) (dynamicPrompt : option string)
    (useGoogleSearch : bool) (seed : option Z) (temperature : option Q)
  : Async (string * AgentMetrics) :=
  match configs with
  | None => ret ("Error: Agent configs not provided.", zeroMetrics)
  | Some configs =>
      match configs !! agentId with
      | None => ret ("Error: Config not found for " ++ agentId, zeroMetrics)
      | Some config =>
          let prompt :=
            match nonEmpty dynamicPrompt with
            | Some p => p
            | None => AgentConfig.prompt config
            end in
          let* startTime := performanceNow host in
          let finalTemperature :=
            if includes forceZeroTempAgents agentId then Some 0%Q else temperature in
          let inputTokens := Math_ceil_div (String.length prompt) 4 in
          let* '(result, googleSearchMetadata) :=
            runAgentQuery host agentId config prompt useGoogleSearch seed finalTemperature in
          let* endTime := performanceNow host in
          let duration := (endTime - startTime)%Q in
          let outputTokens := Math_ceil_div (String.length result) 4 in
          ret (result,
               mkAgentMetrics duration (mkTokenUsage inputTokens outputTokens)
                 (Some googleSearchMetadata))
      end
  end.

(** ** The iteration runner ([runSingleIteration], App.tsx, lines 212-354) *)

Record EvaluationResult : Type := mkEvaluationResult {
  iteration : nat;
  feasibilityScore : jsval;
  rationale : jsval;
  keyFactors : jsval
}.

(** The [catch] branch (lines 341-353).  Whatever [JSON.parse] or a
    property read throws is an [Error], so the message is [e.message]. *)
Definition parseFailure (iterationNumber : nat) (message : string) : EvaluationResult :=
  mkEvaluationResult iterationNumber (JNum 50)
    (JStr ("Evaluation " ++ showNat iterationNumber ++ " failed to parse: " ++ message))
    (JArr [JStr "Parsing error occurred"]).

(** The [try] block (lines 328-340) applied to the value [JSON.parse]
    returned.  The first property read is the one of the [console.log]. *)
Definition evaluationOfParsed (iterationNumber : nat) (parsedEval : jsval) : EvaluationResult :=
  match getProperty parsedEval "feasibilityScore",
        getProperty parsedEval "rationale",
        getProperty parsedEval "keyFactors" with
  | Value score, Value reason, Value factors =>
      mkEvaluationResult iterationNumber score reason
        (if truthy factors then factors else JArr [])
  | TypeError message, _, _ => parseFailure iterationNumber message
  | _, TypeError message, _ => parseFailure iterationNumber message
  | _, _, TypeError message => parseFailure iterationNumber message
  end.

(** Lines 328-353. *)
Definition evaluationResultOf (host : Host) (iterationNumber : nat) (evaluationContent : string)
  : EvaluationResult :=
  match JSON_parse host evaluationContent with
  | Parsed parsedEval => evaluationOfParsed iterationNumber parsedEval
  | SyntaxError message => parseFailure iterationNumber message
  end.

Definition expertAgentIds : list string := ["expert_1"; "expert_2"; "expert_3"].
Definition discussionTurns : nat := 2.
Definition finalAgentId : string := "final_decision_agent".

(** [configs[id].property] where the entry may be missing. *)
Definition readConfig (configs : gmap string AgentConfig.t) (id property : string)
  : Async AgentConfig.t :=
  match configs !! id with
  | Some config => ret config
  | None => throw ("Cannot read properties of undefined (reading '" ++ property ++ "')")
  end.

(** [name.split(':')[1]?.trim() || name]. *)
Definition displayName (name : string) : string :=
  match split ":"%char name with
  | _ :: second :: _ =>
      let trimmed := trim second in
      if String.eqb trimmed EmptyString then name else trimmed
  | _ => name
  end.

Definition transcriptLine (m : UserChatMessage) : string :=
  agentName m ++ ": " ++ message m.

Definition transcriptText (discussionHistory : list UserChatMessage) : string :=
  join (newline ++ newline) (map transcriptLine discussionHistory).

Definition historyTextOf (discussionHistory : list UserChatMessage) : string :=
  let joined := transcriptText discussionHistory in
  if String.eqb joined EmptyString
  then "(No history yet. You are the first to speak.)"
  else joined.

(** The fixed end of the expert prompt (lines 231-238). *)
Definition conversationRules : string :=
  newline ++ "                Here is the main conversation rules prompt :"
  ++ newline
  ++ "                Communicate as a domain expert would, using professional terminology and drawing from established knowledge in your field. Express appropriate confidence levels and acknowledge areas of uncertainty."
  ++ newline
  ++ "                Before making claims, mentally verify information against your knowledge base. When uncertain, explicitly state your level of confidence (e.g., "
  ++ dquote ++ "Based on available evidence," ++ dquote ++ " " ++ dquote
  ++ "In my experience," ++ dquote ++ " or " ++ dquote
  ++ "This requires further verification" ++ dquote ++ ")." ++ newline
  ++ "                Ask probing questions that real experts would ask: What evidence supports this? What are the potential risks or limitations? Have similar approaches been tried before? What are the implementation challenges?"
  ++ newline
  ++ "                When your assigned concerns have been adequately addressed with evidence or reasoning, acknowledge this clearly: "
  ++ dquote
  ++ "My concerns about [specific issue] have been resolved based on [specific reasoning/evidence provided]."
  ++ dquote ++ newline
  ++ "                Provide constructive criticism by identifying specific weaknesses and suggesting improvements rather than blanket rejections. Frame objections around evidence, feasibility, or potential consequences."
  ++ newline
  ++ "                While maintaining openness to well-reasoned proposals, maintain your professional standards. Accept proposals that demonstrate sound reasoning and evidence, but don't hesitate to reject those that are fundamentally flawed, unsafe, or lack sufficient justification."
  ++ newline
  ++ "                If a proposal is truly unacceptable due to serious flaws (safety issues, ethical concerns, technical impossibility), clearly articulate why and maintain your rejection while offering alternative directions when possible.".

(** The template literal of lines 224-238; an absent instruction prints as
    [undefined]. *)
Definition dynamicPromptOf (context historyText : string) (systemInstruction : option string)
  : string :=
  (newline ++ "                ")
  ++ context
  ++ (newline ++ "                " ++ newline
   ++ "                Conversation History:" ++ newline
   ++ "                ")
  ++ historyText
  ++ (newline ++ "                " ++ newline
   ++ "                Your instruction: ")
  ++ match systemInstruction with Some s => s | None => "undefined" end
  ++ conversationRules.

(** The entry an expert gets in [agentBreakdown] when it has none
    (lines 247-251). *)
Definition freshExpertEntry : AgentMetrics :=
  mkAgentMetrics 0 (mkTokenUsage 0 0)
    (Some (mkGoogleSearchMetadata false 0 0 (Some []) (Some []))).

Definition orEmpty {A : Type} (l : option (list A)) : list A :=
  match l with Some items => items | None => [] end.

(** Lines 259-272. *)
Definition mergeSearchUsage (current usage : GoogleSearchMetadata) : GoogleSearchMetadata :=
  mkGoogleSearchMetadata
    (used current || used usage)
    (queriesCount current + queriesCount usage)
    (sourcesCount current + sourcesCount usage)
    (match queries usage with
     | Some qs => Some (orEmpty (queries current) ++ qs)%list
     | None => queries current
     end)
    (match sources usage with
     | Some ss => Some (orEmpty (sources current) ++ ss)%list
     | None => sources current
     end).

(** Lines 275-282. *)
Definition updateSearchSummary (summary : GoogleSearchSummary) (id : string)
    (usage : GoogleSearchMetadata) : GoogleSearchSummary :=
  if used usage then
    mkGoogleSearchSummary
      (totalUsageCount summary + 1)
      (totalQueries summary + queriesCount usage)
      (totalSources summary + sourcesCount usage)
      (if includes (agentsUsed summary) id then agentsUsed summary
       else (agentsUsed summary ++ [id])%list)
  else summary.

Definition addUsage (entry agentMetrics : AgentMetrics)
    (usage : option GoogleSearchMetadata) : AgentMetrics :=
  mkAgentMetrics
    (duration entry + duration agentMetrics)%Q
    (mkTokenUsage
       (inputTokens (tokenUsage entry) + inputTokens (tokenUsage agentMetrics))
       (outputTokens (tokenUsage entry) + outputTokens (tokenUsage agentMetrics)))
    usage.

(** Lines 246-286: the metrics of one expert call are added to the run's
    metrics.  Reading [used] of a missing [googleSearchUsage] throws. *)
Definition trackExpertMetrics (metrics : FrameworkMetrics) (id : string)
    (agentMetrics : AgentMetrics) : Async FrameworkMetrics :=
  let entry :=
    match agentBreakdown metrics !! id with
    | Some existing => existing
    | None => freshExpertEntry
    end in
  let totalIn := (totalInputTokens metrics + inputTokens (tokenUsage agentMetrics))%nat in
  let totalOut := (totalOutputTokens metrics + outputTokens (tokenUsage agentMetrics))%nat in
  match googleSearchUsage agentMetrics with
  | None =>
      ret (mkFrameworkMetrics (totalDuration metrics) totalIn totalOut
             (<[id := addUsage entry agentMetrics (googleSearchUsage entry)]>
                (agentBreakdown metrics))
             (googleSearchSummary metrics))
  | Some usage =>
      match googleSearchUsage entry with
      | None => throw "Cannot read properties of undefined (reading 'used')"
      | Some current =>
          ret (mkFrameworkMetrics (totalDuration metrics) totalIn totalOut
                 (<[id := addUsage entry agentMetrics
                            (Some (mergeSearchUsage current usage))]>
                    (agentBreakdown metrics))
                 (updateSearchSummary (googleSearchSummary metrics) id usage))
      end
  end.

(** Lines 317-325. *)
Definition trackFinalMetrics (metrics : FrameworkMetrics) (evalMetrics : AgentMetrics)
  : FrameworkMetrics :=
  let entry :=
    match agentBreakdown metrics !! finalAgentId with
    | Some existing => existing
    | None => zeroMetrics
    end in
  mkFrameworkMetrics (totalDuration metrics)
    (totalInputTokens metrics + inputTokens (tokenUsage evalMetrics))
    (totalOutputTokens metrics + outputTokens (tokenUsage evalMetrics))
    (<[finalAgentId := addUsage entry evalMetrics (googleSearchUsage entry)]>
       (agentBreakdown metrics))
    (googleSearchSummary metrics).

(** One pass of the inner loop (lines 221-297): one expert speaks.  The
    updates of the displayed messages and the pause of 200 ms are left
    out. *)
Definition expertSpeaks (host : Host) (frameworkConfig : FrameworkConfig.t)
    (context : string) (configsForRun : gmap string AgentConfig.t)
    (googleSearchEnabled : bool)
    (state : list UserChatMessage * FrameworkMetrics) (id : string)
  : Async (list UserChatMessage * FrameworkMetrics) :=
  let '(discussionHistory, metrics) := state in
  let* agentConfig := readConfig configsForRun id "systemInstruction" in
  let historyText := historyTextOf discussionHistory in
  let dynamicPrompt :=
    truncatePromptIfNeeded
      (dynamicPromptOf context historyText (AgentConfig.systemInstruction agentConfig))
      MAX_CONTEXT_TOKENS in
  let isExpertAgent := startsWith "expert_" id in
  let useSearchForThisAgent := googleSearchEnabled && isExpertAgent in
  let* '(content, agentMetrics) :=
    runAgent host id (Some configsForRun) (Some dynamicPrompt) useSearchForThisAgent
      (FrameworkConfig.seed frameworkConfig)
      (FrameworkConfig.temperature frameworkConfig) in
  let* metrics' := trackExpertMetrics metrics id agentMetrics in
  let message :=
    mkUserChatMessage "agent" id (displayName (AgentConfig.name agentConfig)) content in
  ret ((discussionHistory ++ [message])%list, metrics').

(** Phase 3 (lines 213-298): [discussionTurns] rounds over the experts. *)
Definition expertDiscussion (host : Host) (frameworkConfig : FrameworkConfig.t)
    (context : string) (configsForRun : gmap string AgentConfig.t)
    (metrics : FrameworkMetrics) (googleSearchEnabled : bool)
  : Async (list UserChatMessage * FrameworkMetrics) :=
  forEach
    (fun state (turn : nat) =>
       forEach (expertSpeaks host frameworkConfig context configsForRun googleSearchEnabled)
         expertAgentIds state)
    (seq 0 discussionTurns) ([], metrics).

(** What one iteration returns.  [evaluationContent], the raw answer of the
    scoring call, is kept next to the record built from it so that
    statements can refer to it; the source returns the first two fields. *)
Record IterationOutput : Type := mkIterationOutput {
  discussionHistory : list UserChatMessage;
  evaluationResult : EvaluationResult;
  evaluationContent : string
}.

Definition independenceNote (iterationNumber : nat) : string :=
  newline ++ newline ++ "**Independent Assessment #" ++ showNat iterationNumber
  ++ "**: Provide your fresh, independent evaluation without being influenced by any previous assessments.".

Definition runSingleIteration (host : Host) (frameworkConfig : FrameworkConfig.t)
    (context : string) (configsForRun : gmap string AgentConfig.t)
    (metrics : FrameworkMetrics) (googleSearchEnabled : bool) (iterationNumber : nat)
  : Async (IterationOutput * FrameworkMetrics) :=
  let* '(history, metrics1) :=
    expertDiscussion host frameworkConfig context configsForRun metrics googleSearchEnabled in
  let* finalAgentConfig := readConfig configsForRun finalAgentId "prompt" in
  let discussionTranscriptText := transcriptText history in
  let basePrompt :=
    replace "{expert_discussion_transcript}" discussionTranscriptText
      (AgentConfig.prompt finalAgentConfig) in
  let finalPrompt :=
    truncatePromptIfNeeded (basePrompt ++ independenceNote iterationNumber)
      MAX_CONTEXT_TOKENS in
  let* '(content, evalMetrics) :=
    runAgent host finalAgentId (Some configsForRun) (Some finalPrompt) false
      (FrameworkConfig.seed frameworkConfig)
      (FrameworkConfig.temperature frameworkConfig) in
  let metrics2 := trackFinalMetrics metrics1 evalMetrics in
  ret (mkIterationOutput history (evaluationResultOf host iterationNumber content) content,
       metrics2).

(** ** The orchestrator ([runDiscussionAndDecision], App.tsx, lines 356-484) *)

(** [{...evaluationResult, discussionHistory: [...discussionHistory]}]. *)
Record IterationRecord : Type := mkIterationRecord {
  evaluation : EvaluationResult;
  recordedHistory : list UserChatMessage
}.

Module ExpertOpinion.
Record t : Type := mk {
  name : string;
  summary : jsval;
  feasibilityScore : jsval;
  discussionHistory : list UserChatMessage;
  iteration : nat
}.
End ExpertOpinion.

(** The aggregated result (lines 439-450).  [justification], a sentence
    that prints the median and the standard deviation with [toFixed(1)], is
    left out. *)
Record FinalResult : Type := mkFinalResult {
  decision : string;
  medianScore : number;
  iterations : list IterationRecord;
  statistics : Statistics
}.

(** The statistics are typed on numbers ([feasibilityScore: number]).  When
    some record holds a score that is not a number, the arithmetic of the
    source goes through the coercions of JavaScript, which the model does
    not cover: the outcome is then [ScoresNotNumeric]. *)
Inductive FinalDecision : Type :=
| Aggregated (finalResult : FinalResult) (expertOpinions : list ExpertOpinion.t)
| ScoresNotNumeric.

Fixpoint numericScores (values : list jsval) : option (list Q) :=
  match values with
  | [] => Some []
  | JNum q :: rest =>
      match numericScores rest with
      | Some qs => Some (q :: qs)
      | None => None
      end
  | _ :: _ => None
  end.

(** Lines 455-462; the time stamp is left out. *)
Definition feasibilityOpinionOf (record : IterationRecord) : ExpertOpinion.t :=
  ExpertOpinion.mk
    ("Feasibility Assessment " ++ showNat (iteration (evaluation record)))
    (rationale (evaluation record))
    (feasibilityScore (evaluation record))
    (recordedHistory record)
    (iteration (evaluation record)).

(** Lines 416-472. *)
Definition aggregate (independentEvaluations : list IterationRecord) : FinalDecision :=
  match numericScores (map (fun iter => feasibilityScore (evaluation iter))
                           independentEvaluations) with
  | None => ScoresNotNumeric
  | Some scores =>
      let stats := statisticsOf scores in
      Aggregated
        (mkFinalResult (decisionOf (median stats)) (median stats)
           independentEvaluations stats)
        (map feasibilityOpinionOf independentEvaluations)
  end.

(** The state of the loop of lines 371-407.  [scoringOutputs] collects the
    raw answers of the scoring calls, one per iteration (see
    [IterationOutput]). *)
Record LoopState : Type := mkLoopState {
  independentEvaluations : list IterationRecord;
  allIterationsDialogue : list (nat * list UserChatMessage);
  lastDiscussionHistory : list UserChatMessage;
  scoringOutputs : list string;
  loopMetrics : FrameworkMetrics
}.

(** The body of the loop, for iteration [i]. *)
Definition completeIteration (host : Host) (frameworkConfig : FrameworkConfig.t)
    (context : string) (configsForRun : gmap string AgentConfig.t)
    (googleSearchEnabled : bool) (numberOfIterations : nat)
    (state : LoopState) (i : nat) : Async LoopState :=
  let* _ := readConfig configsForRun finalAgentId "name" in
  let* '(output, metrics') :=
    runSingleIteration host frameworkConfig context configsForRun
      (loopMetrics state) googleSearchEnabled i in
  ret (mkLoopState
         (independentEvaluations state
          ++ [mkIterationRecord (evaluationResult output) (discussionHistory output)])%list
         (allIterationsDialogue state ++ [(i, discussionHistory output)])%list
         (if (i =? numberOfIterations)%nat then discussionHistory output
          else lastDiscussionHistory state)
         (scoringOutputs state ++ [evaluationContent output])%list
         metrics').

(** What the run leaves behind: the records, the decision shown, the last
    discussion, and the metrics it returns. *)
Record RunOutcome : Type := mkRunOutcome {
  runEvaluations : list IterationRecord;
  runScoringOutputs : list string;
  runDiscussion : list UserChatMessage;
  runFinalDecision : FinalDecision;
  runMetrics : FrameworkMetrics
}.

Definition runDiscussionAndDecision (host : Host) (frameworkConfig : FrameworkConfig.t)
    (context : string) (configsForRun : gmap string AgentConfig.t)
    (metrics : FrameworkMetrics) (googleSearchEnabled : bool) : Async RunOutcome :=
  let* _ := readConfig configsForRun finalAgentId "name" in
  let numberOfIterations := FrameworkConfig.iterations frameworkConfig in
  let* final :=
    forEach
      (completeIteration host frameworkConfig context configsForRun
         googleSearchEnabled numberOfIterations)
      (seq 1 numberOfIterations)
      (mkLoopState [] [] [] [] metrics) in
  ret (mkRunOutcome (independentEvaluations final) (scoringOutputs final)
         (lastDiscussionHistory final)
         (aggregate (independentEvaluations final))
         (loopMetrics final)).

(** ** The whole simulation ([runSimulation], App.tsx, lines 486-615) *)

Definition emptyMetrics : FrameworkMetrics :=
  mkFrameworkMetrics 0 0 0 ∅ (mkGoogleSearchSummary 0 0 0 []).

Definition classificationAgentId : string := "proposal_classification_agent".
Definition summarizeAgentId : string := "proposal_information_summarize_agent".
Definition trackerAgentId : string := "framework_tracker_agent".

(** Lines 577-583. *)
Definition fullContextOf (proposalInfo classContent summaryForContext : string) : string :=
  (newline ++ "        Proposal: ") ++ proposalInfo
  ++ (newline ++ "        " ++ newline ++ "        Analysis Context:" ++ newline ++ "        - Classification: ") ++ classContent
  ++ (newline ++ "        - URL Content Summary: ") ++ summaryForContext
  ++ (newline ++ "        ").

(** [resetState] reads the names of three participants (lines 195-201). *)
Definition resetState (configs : gmap string AgentConfig.t) : Async unit :=
  let* _ := readConfig configs classificationAgentId "name" in
  let* _ := readConfig configs summarizeAgentId "name" in
  let* _ := readConfig configs finalAgentId "name" in
  ret tt.

(** Lines 514-551: the summary of the proposal, from the page behind its
    URL or from its text.  Every failure inside ends in an error text with
    zero metrics. *)
Definition summarize (host : Host) (frameworkConfig : FrameworkConfig.t)
    (configsForRun : gmap string AgentConfig.t) (currentProposal : ProposalData)
  : Async (string * AgentMetrics) :=
  let summarizeWith (content : string) : Async (string * AgentMetrics) :=
    let* summarizeConfig := readConfig configsForRun summarizeAgentId "prompt" in
    let summaryPrompt :=
      truncatePromptIfNeeded
        (replace "{url_content}" content (AgentConfig.prompt summarizeConfig))
        MAX_CONTEXT_TOKENS in
    runAgent host summarizeAgentId (Some configsForRun) (Some summaryPrompt) false
      (FrameworkConfig.seed frameworkConfig)
      (FrameworkConfig.temperature frameworkConfig) in
  if negb (String.eqb (trim (url currentProposal)) EmptyString) then
    tryCatch
      (match fetch host ("https://r.jina.ai/" ++ url currentProposal) with
       | FetchRejects message => throw message
       | FetchResponds ok status urlContent =>
           if ok then summarizeWith urlContent
           else throw ("Jina Reader API returned status " ++ showNat status)
       end)
      (fun message =>
         ret ("Error: Could not retrieve or summarize content from URL. " ++ message,
              zeroMetrics))
  else
    tryCatch
      (summarizeWith (proposal_info currentProposal))
      (fun message =>
         ret ("Error: Could not process plain text content. " ++ message, zeroMetrics)).

(** Phase 5 (lines 595-611); a failure inside is swallowed. *)
Definition trackPerformance (host : Host) (frameworkConfig : FrameworkConfig.t)
    (configsForRun : gmap string AgentConfig.t) (finalMetrics : FrameworkMetrics)
  : Async (option string) :=
  tryCatch
    (let* trackerConfig := readConfig configsForRun trackerAgentId "prompt" in
     let executionData := JSON_stringify_metrics host finalMetrics in
     let trackerPrompt :=
       truncatePromptIfNeeded
         (replace "{execution_data}" executionData (AgentConfig.prompt trackerConfig))
         MAX_CONTEXT_TOKENS in
     let* '(trackingContent, _) :=
       runAgent host trackerAgentId (Some configsForRun) (Some trackerPrompt) false
         (FrameworkConfig.seed frameworkConfig)
         (FrameworkConfig.temperature frameworkConfig) in
     ret (Some trackingContent))
    (fun _ => ret None).

Record SimulationOutcome : Type := mkSimulationOutcome {
  classification : string;
  contentSummary : string;
  initialContext : string;
  discussionOutcome : RunOutcome;
  frameworkMetrics : FrameworkMetrics;
  performanceTracking : option string
}.

(** [runSimulation].  The code starts the classification call (line 512),
    works on the summary and then awaits the classification (line 553): the
    two calls are in flight together, and the clock reading that ends each
    of them is taken when its answer arrives.  The model sends the two
    requests in the order of the code and runs one schedule, the one in
    which the classification is answered before the summary call starts.
    In the other schedules the same four readings are taken in another
    order, so the two durations recorded for the initial analysis are
    those of the model for a clock with these readings permuted; the host's
    clock is any function, and no statement below is about these durations.
    [None]: no configuration is loaded and the function returns at once. *)
Definition runSimulation (host : Host) (frameworkConfig : FrameworkConfig.t)
    (originalAgentConfigs : option (gmap string AgentConfig.t))
    (useGoogleSearch : bool) (currentProposal : ProposalData)
  : Async (option SimulationOutcome) :=
  match originalAgentConfigs with
  | None => ret None
  | Some configsForRun =>
      let* _ := resetState configsForRun in
      let* startTime := performanceNow host in
      let metrics := emptyMetrics in
      let* classificationConfig :=
        readConfig configsForRun classificationAgentId "prompt" in
      let classPrompt :=
        truncatePromptIfNeeded
          (replace "{proposal_info}" (proposal_info currentProposal)
             (AgentConfig.prompt classificationConfig))
          MAX_CONTEXT_TOKENS in
      let* '(classContent, classMetrics) :=
        runAgent host classificationAgentId (Some configsForRun) (Some classPrompt) false
          (FrameworkConfig.seed frameworkConfig)
          (FrameworkConfig.temperature frameworkConfig) in
      let* '(summaryText, summaryMetrics) :=
        summarize host frameworkConfig configsForRun currentProposal in
      let metrics1 :=
        mkFrameworkMetrics (totalDuration metrics)
          (totalInputTokens metrics
           + (inputTokens (tokenUsage classMetrics)
              + inputTokens (tokenUsage summaryMetrics)))
          (totalOutputTokens metrics
           + (outputTokens (tokenUsage classMetrics)
              + outputTokens (tokenUsage summaryMetrics)))
          (<[summarizeAgentId := summaryMetrics]>
             (<[classificationAgentId := classMetrics]> (agentBreakdown metrics)))
          (googleSearchSummary metrics) in
      let summaryForContext :=
        match JSON_parse host summaryText with
        | Parsed parsed => JSON_stringify host parsed
        | SyntaxError _ => summaryText
        end in
      let fullContext :=
        fullContextOf (proposal_info currentProposal) classContent summaryForContext in
      let* outcome :=
        runDiscussionAndDecision host frameworkConfig fullContext configsForRun
          metrics1 useGoogleSearch in
      let* endTime := performanceNow host in
      let finalMetrics :=
        mkFrameworkMetrics (endTime - startTime)%Q
          (totalInputTokens (runMetrics outcome))
          (totalOutputTokens (runMetrics outcome))
          (agentBreakdown (runMetrics outcome))
          (googleSearchSummary (runMetrics outcome)) in
      let* tracking := trackPerformance host frameworkConfig configsForRun finalMetrics in
      ret (Some (mkSimulationOutcome classContent summaryText fullContext outcome
                   finalMetrics tracking))
  end.

(** ** The restart of the discussion ([handleRestartDiscussion], App.tsx,
    lines 617-636)

    [None]: the guard of line 618 returns at once. *)
Definition handleRestartDiscussion (host : Host) (frameworkConfig : FrameworkConfig.t)
    (initialContext : string) (agentConfigs : option (gmap string AgentConfig.t))
    (useGoogleSearch : bool) : Async (option RunOutcome) :=
  if String.eqb initialContext EmptyString then ret None
  else
    match agentConfigs with
    | None => ret None
    | Some configs =>
        let metrics := emptyMetrics in
        let* outcome :=
          runDiscussionAndDecision host frameworkConfig initialContext configs
            metrics useGoogleSearch in
        ret (Some outcome)
    end.

(** ** Questions to the experts ([handleAskQuestion], App.tsx, lines 651-770) *)

(** [ChatMessage]: a message of a user or an agent, or a system message. *)
Inductive ChatMessage : Type :=
| Said (m : UserChatMessage)
| SystemNote (text : string).

(** [AgentOutput]; [outputData] is [undefined] when the key is absent. *)
Record AgentOutput : Type := mkAgentOutput {
  outputAgentName : string;
  outputContent : string;
  outputData : jsval
}.

(** [messages.filter(isUserChatMessage)]: the messages whose type is not
    [system]. *)
Definition userChatMessages (messages : list ChatMessage) : list UserChatMessage :=
  flat_map
    (fun chatMessage =>
       match chatMessage with
       | Said m => if String.eqb (msgType m) "system" then [] else [m]
       | SystemNote _ => []
       end)
    messages.

(** Lines 659-661. *)
Definition initialAnalysisContextOf (host : Host)
    (section1Outputs : list (option AgentOutput)) : string :=
  join (newline ++ newline)
    (map
       (fun o =>
          match o with
          | Some output =>
              outputAgentName output ++ ":" ++ newline
              ++ (if truthy (outputData output)
                  then JSON_stringify host (outputData output)
                  else outputContent output)
          | None => EmptyString
          end)
       section1Outputs).

(** The template literal of lines 674-690. *)
Definition qaContextOf (proposalInfo initialAnalysisContext expertDiscussionTranscript
    finalDecisionContent previousQaHistory : string) : string :=
  newline ++ "            Here is the full context of the original analysis:"
  ++ newline ++ "            **Original Proposal:**" ++ newline
  ++ "            " ++ proposalInfo ++ newline ++ newline
  ++ "            **Initial Analysis & Summary:**" ++ newline
  ++ "            " ++ initialAnalysisContext ++ newline ++ newline
  ++ "            **Expert Discussion Transcript:**" ++ newline
  ++ "            " ++ expertDiscussionTranscript ++ newline ++ newline
  ++ "            **Final Decision:**" ++ newline ++ "            "
  ++ finalDecisionContent ++ newline ++ "            " ++ newline
  ++ "            --- PREVIOUS Q&A HISTORY ---" ++ newline ++ "            "
  ++ (if String.eqb previousQaHistory EmptyString then "No Q&A history yet."
      else previousQaHistory)
  ++ newline ++ "            ".

(** [buildContext] (lines 658-691). *)
Definition buildContext (host : Host) (proposal : ProposalData)
    (section1Outputs : list (option AgentOutput))
    (discussionMessages qaMessages : list ChatMessage) (finalDecision : AgentOutput)
  : string :=
  let initialAnalysisContext := initialAnalysisContextOf host section1Outputs in
  let expertDiscussionTranscript :=
    join newline (map transcriptLine (userChatMessages discussionMessages)) in
  let previousQaHistory :=
    join newline (map transcriptLine (userChatMessages qaMessages)) in
  qaContextOf (proposal_info proposal) initialAnalysisContext
    expertDiscussionTranscript (outputContent finalDecision) previousQaHistory.

(** The template literal of line 699; an absent instruction prints as
    [undefined]. *)
Definition qaPromptOf (context question : string) (agentConfig : AgentConfig.t) : string :=
  context ++ newline ++ newline ++ "--- NEW QUESTION FROM USER ---"
  ++ newline ++ question ++ newline ++ newline ++ "--- YOUR TASK ---"
  ++ newline ++ "As " ++ AgentConfig.name agentConfig
  ++ ", your core instruction is: " ++ dquote
  ++ (match AgentConfig.systemInstruction agentConfig with
      | Some s => s
      | None => "undefined"
      end)
  ++ dquote ++ "." ++ newline ++ newline
  ++ "Based on this instruction and all provided context, formulate your response to the user's question. **If the user's point convinces you or resolves one of your previous concerns, explicitly state that in your response (e.g., 'That's a valid point, my concerns about X are addressed.').** Keep your answer concise and focused on your area of expertise.".

(** [await Promise.all(items.map(callback))] for callbacks that are
    [async] functions: every callback is started, in the order of the
    items, and runs up to its request before the next one starts; so the
    requests are sent in the order of the items, also when a callback
    fails, and the first failure is the one thrown.  The order in which the
    answers arrive only affects the readings of the clock, which the
    callers of this model discard. *)
Fixpoint promiseAll {A B : Type} (callback : A -> Async B) (items : list A)
  : Async (list B) :=
  match items with
  | [] => ret []
  | item :: rest =>
      fun w =>
        match callback item w with
        | (Returns b, w1) =>
            match promiseAll callback rest w1 with
            | (Returns bs, w2) => (Returns (b :: bs), w2)
            | (Throws e, w2) => (Throws e, w2)
            end
        | (Throws e, w1) => (Throws e, snd (promiseAll callback rest w1))
        end
  end.

Record ExpertResponse : Type := mkExpertResponse {
  responseId : string;
  responseName : string;
  response : string
}.

(** The callback of lines 696-709: one expert answers the question. *)
Definition askExpert (host : Host) (frameworkConfig : FrameworkConfig.t)
    (agentConfigs : gmap string AgentConfig.t) (useGoogleSearch : bool)
    (context question : string) (id : string) : Async ExpertResponse :=
  let* agentConfig := readConfig agentConfigs id "name" in
  let prompt :=
    truncatePromptIfNeeded (qaPromptOf context question agentConfig)
      MAX_CONTEXT_TOKENS in
  let isExpertAgent := startsWith "expert_" id in
  let useSearchForQA := useGoogleSearch && isExpertAgent in
  let* '(responseMessage, _) :=
    runAgent host id (Some agentConfigs) (Some prompt) useSearchForQA
      (FrameworkConfig.seed frameworkConfig)
      (FrameworkConfig.temperature frameworkConfig) in
  ret (mkExpertResponse id (AgentConfig.name agentConfig) responseMessage).

Definition updateAgentId : string := "prompt_update_agent".

(** The [try] block of lines 731-766, up to the test of line 733: the new
    instruction when the answer of the update agent asks for one.  [update]
    and [newInstruction] are no properties of an array, a string, a number
    or a boolean; a failure of [JSON.parse] or of a property read is caught
    and only logged. *)
Definition requestedInstruction (host : Host) (updateResultStr : string) : option jsval :=
  match JSON_parse host updateResultStr with
  | SyntaxError _ => None
  | Parsed updateResult =>
      match getProperty updateResult "update" with
      | Value (JBool true) =>
          match getProperty updateResult "newInstruction" with
          | Value newInstruction =>
              if truthy newInstruction then Some newInstruction else None
          | TypeError _ => None
          end
      | _ => None
      end
  end.

Definition withInstruction (config : AgentConfig.t) (instruction : string)
  : AgentConfig.t :=
  AgentConfig.mk (AgentConfig.id config) (AgentConfig.name config)
    (AgentConfig.description config) (AgentConfig.model config)
    (AgentConfig.prompt config) (Some instruction)
    (AgentConfig.responseMimeType config) (AgentConfig.responseSchema config)
    (AgentConfig.maxOutputTokens config) (AgentConfig.thinkingConfig config).

(** The configurations after the updates of a question.  An instruction is
    typed as a string; when the update agent asks for a new instruction that
    is not a string, the configurations leave what [AgentConfig] describes:
    [NotText]. *)
Inductive Instructions : Type :=
| AllText (configs : gmap string AgentConfig.t)
| NotText.

(** [setAgentConfigs(prev => ({...prev, [expertId]: {...prev[expertId],
    systemInstruction: newInstruction}}))] (lines 752-755). *)
Definition applyUpdate (prev : Instructions) (expertId : string) (newInstruction : jsval)
  : Instructions :=
  match prev, newInstruction with
  | AllText configs, JStr instruction =>
      match configs !! expertId with
      | Some config => AllText (<[expertId := withInstruction config instruction]> configs)
      | None => NotText
      end
  | _, _ => NotText
  end.

(** The body of the loop of lines 719-767, for the answer of one expert. *)
Definition considerUpdate (host : Host) (frameworkConfig : FrameworkConfig.t)
    (agentConfigs : gmap string AgentConfig.t) (question : string)
    (state : list ChatMessage * Instructions) (expertResponse : ExpertResponse)
  : Async (list ChatMessage * Instructions) :=
  let '(messages, current) := state in
  let expertId := responseId expertResponse in
  let* updateAgentConfig := readConfig agentConfigs updateAgentId "prompt" in
  let* expertConfig := readConfig agentConfigs expertId "systemInstruction" in
  let prompt :=
    truncatePromptIfNeeded
      (replace "{expert_response}" (response expertResponse)
         (replace "{user_question}" question
            (replace "{expert_instruction}"
               (match AgentConfig.systemInstruction expertConfig with
                | Some s => s
                | None => EmptyString
                end)
               (AgentConfig.prompt updateAgentConfig))))
      MAX_CONTEXT_TOKENS in
  let* '(updateResultStr, _) :=
    runAgent host updateAgentId (Some agentConfigs) (Some prompt) false
      (FrameworkConfig.seed frameworkConfig)
      (FrameworkConfig.temperature frameworkConfig) in
  match requestedInstruction host updateResultStr with
  | Some newInstruction =>
      let expertName := displayName (AgentConfig.name expertConfig) in
      let systemMessage :=
        SystemNote ("Perspective updated for " ++ expertName
                    ++ ". A restart of the discussion will use this new perspective.") in
      ret ((messages ++ [systemMessage])%list,
           applyUpdate current expertId newInstruction)
  | None => ret (messages, current)
  end.

(** What a question leaves behind: the messages of the panel and the
    configurations. *)
Record QaResult : Type := mkQaResult {
  qaMessagesAfter : list ChatMessage;
  agentConfigsAfter : Instructions
}.

(** [handleAskQuestion].  [None]: the guard of line 652 returns at once. *)
Definition handleAskQuestion (host : Host) (frameworkConfig : FrameworkConfig.t)
    (agentConfigs : option (gmap string AgentConfig.t)) (proposal : option ProposalData)
    (section1Outputs : list (option AgentOutput))
    (discussionMessages : list ChatMessage) (finalDecision : option AgentOutput)
    (qaMessages : list ChatMessage) (useGoogleSearch : bool) (question : string)
  : Async (option QaResult) :=
  match agentConfigs, proposal, finalDecision with
  | Some configs, Some proposalData, Some decision =>
      if String.eqb (outputContent decision) EmptyString
         || startsWith "Error:" (outputContent decision)
      then ret None
      else
        let userMessage := mkUserChatMessage "user" "user" "You" question in
        let context :=
          buildContext host proposalData section1Outputs discussionMessages
            qaMessages decision in
        let* expertResponses :=
          promiseAll
            (askExpert host frameworkConfig configs useGoogleSearch context question)
            expertAgentIds in
        let expertMessages :=
          map (fun r =>
                 Said (mkUserChatMessage "agent" (responseId r)
                         (displayName (responseName r)) (response r)))
              expertResponses in
        let* '(messages, instructions) :=
          forEach (considerUpdate host frameworkConfig configs question)
            expertResponses
            (((qaMessages ++ [Said userMessage]) ++ expertMessages)%list,
             AllText configs) in
        ret (Some (mkQaResult messages instructions))
  | _, _, _ => ret None
  end.

(** ** The model switch ([updateAgentModels], App.tsx, lines 170-181) *)

Definition withModel (config : AgentConfig.t) (model : string) : AgentConfig.t :=
  AgentConfig.mk (AgentConfig.id config) (AgentConfig.name config)
    (AgentConfig.description config) model (AgentConfig.prompt config)
    (AgentConfig.systemInstruction config) (AgentConfig.responseMimeType config)
    (AgentConfig.responseSchema config) (AgentConfig.maxOutputTokens config)
    (AgentConfig.thinkingConfig config).

(** The model a key gets: experts follow the switch, every other agent
    runs on Flash. *)
Definition modelFor (key : string) (usePro : bool) : string :=
  if startsWith "expert_" key
  then (if usePro then "gemini-2.5-pro" else "gemini-2.5-flash")
  else "gemini-2.5-flash".

Definition updateAgentModels (configs : gmap string AgentConfig.t) (usePro : bool)
  : gmap string AgentConfig.t :=
  map_imap (fun key config => Some (withModel config (modelFor key usePro))) configs.

(** ** The representative assessment (SummaryPanel, lines 132-140)

    On exact numbers.  The panel compares computed distances, which can
    order two scores otherwise than their exact distances do: the index it
    shows is [Binary64.medianIndexOf] below. *)

(** [Math.min(...values)]; [None] stands for the [Infinity] of no value. *)
Fixpoint Math_min (values : list Q) : option Q :=
  match values with
  | [] => None
  | x :: rest =>
      match Math_min rest with
      | None => Some x
      | Some y => Some (if Qle_bool x y then x else y)
      end
  end.

(** [items.findIndex(p)], counted from [start]; [None] stands for -1. *)
Fixpoint findIndexFrom {A : Type} (p : A -> bool) (items : list A) (start : nat)
  : option nat :=
  match items with
  | [] => None
  | x :: rest => if p x then Some start else findIndexFrom p rest (S start)
  end.

Definition findIndex {A : Type} (p : A -> bool) (items : list A) : option nat :=
  findIndexFrom p items 0.

(** The index of the first score whose exact distance to the exact median
    is the least. *)
Definition medianIndexOf (scores : list Q) : option nat :=
  match calculateMedian scores with
  | NaN => None
  | Num medianScore =>
      match Math_min (map (fun s => Qabs (s - medianScore)) scores) with
      | None => None
      | Some least =>
          findIndex (fun score => Qeq_bool (Qabs (score - medianScore)) least) scores
      end
  end.

(** ** The median iteration of the PDF report (PdfGenerator, lines 162-173)

    On exact numbers, like the representative assessment; the iteration the
    report singles out is [Binary64.medianIterationOf] below.  [score] reads
    the [feasibilityScore] of an opinion.  [None]: no opinion, or [find]
    finds none. *)
Definition medianIterationOf {A : Type} (score : A -> Q) (expertOpinions : list A)
  : option A :=
  if (0 <? length expertOpinions)%nat then
    let scores := map score expertOpinions in
    let sortedScores := sortAscending scores in
    let mid := (length sortedScores / 2)%nat in
    let medianScore :=
      if Nat.even (length sortedScores)
      then ndiv (nadd (arrayAt sortedScores (Z.of_nat mid - 1))
                      (arrayAt sortedScores (Z.of_nat mid)))
                (Num 2)
      else arrayAt sortedScores (Z.of_nat mid) in
    match medianScore with
    | NaN => None
    | Num median =>
        match Math_min (map (fun s => Qabs (s - median)) scores) with
        | None => None
        | Some least =>
            List.find (fun o => Qeq_bool (Qabs (score o - median)) least) expertOpinions
        end
    end
  else None.

(** ** The statistics in binary64 (App.tsx, lines 417-431; SummaryPanel,
    lines 7-26 and 132-140; PdfGenerator, lines 162-173)

    The statistics once more, as the engine computes them: a JavaScript
    number is an IEEE 754 binary64 number ([float], the binary64 type of
    the kernel) and every operation rounds to nearest, ties to even.  The
    label of confidence and the representative assessment compare computed
    values, so they are stated on these definitions.  The scores are
    numbers, as [feasibilityScore: number] types them.  [Math.sqrt] and
    [Math.abs] are taken as the operations of the standard
    ([PrimFloat.sqrt], the correctly rounded square root, and
    [PrimFloat.abs]); [===] on numbers is its equality, which [NaN] does
    not satisfy and for which the two zeros are equal. *)

Module Binary64.
Local Open Scope float_scope.

(** [items.length] as a number. *)
Definition lengthOf {A : Type} (items : list A) : float :=
  SF2Prim (binary_normalize prec emax (Z.of_nat (length items)) 0 false).

(** [Math.pow(x, 2)].  The language leaves the precision of [Math.pow] to
    the engine; the model takes the correctly rounded square.  The general
    statements below hold whatever the computed variance is, and in the
    computed examples the squares are exact (squares of integers and of a
    power of two). *)
Definition Math_pow2 (x : float) : float := x * x.

(** [arr[i]] as an operand of arithmetic: [undefined] out of range, which
    arithmetic turns into [NaN]. *)
Definition arrayAt (arr : list float) (i : Z) : float :=
  if (i <? 0)%Z then PrimFloat.nan else nth (Z.to_nat i) arr PrimFloat.nan.

(** [[...scores].sort((a, b) => a - b)]: [x] goes behind [y] when the
    comparator [x - y] is positive, and stays in front of it otherwise (the
    sort is stable, and reads a comparator result of [NaN] as 0).  Scores
    come out of [JSON.parse], which gives no [NaN]; on such numbers the
    comparator is consistent and the result is the one of every stable
    sort. *)
Fixpoint insertAscending (x : float) (sorted : list float) : list float :=
  match sorted with
  | [] => [x]
  | y :: rest =>
      if 0 <? x - y then y :: insertAscending x rest else x :: sorted
  end.

Definition sortAscending (scores : list float) : list float :=
  fold_right insertAscending [] scores.

(** Lines 418-426 of App.tsx. *)
Definition meanOf (scores : list float) : float :=
  fold_left (fun sum score => sum + score) scores 0 / lengthOf scores.

Definition medianOf (scores : list float) : float :=
  let sortedScores := sortAscending scores in
  let mid := (length sortedScores / 2)%nat in
  if Nat.even (length sortedScores)
  then (arrayAt sortedScores (Z.of_nat mid - 1)
        + arrayAt sortedScores (Z.of_nat mid)) / 2
  else arrayAt sortedScores (Z.of_nat mid).

Definition varianceOf (scores : list float) : float :=
  let mean := meanOf scores in
  fold_left (fun sum score => sum + Math_pow2 (score - mean)) scores 0
  / lengthOf scores.

Definition standardDeviationOf (scores : list float) : float :=
  PrimFloat.sqrt (varianceOf scores).

(** Lines 428-431. *)
Definition confidenceLevelOf (standardDeviation : float) : string :=
  if standardDeviation <=? 5 then "High"
  else if standardDeviation <=? 15 then "Medium"
  else "Low".

(** The summary panel (SummaryPanel, lines 7-26). *)
Definition calculateMedian (scores : list float) : float :=
  if (length scores =? 0)%nat then 0
  else
    let sorted := sortAscending scores in
    let mid := (length sorted / 2)%nat in
    if Nat.even (length sorted)
    then (arrayAt sorted (Z.of_nat mid - 1)
          + arrayAt sorted (Z.of_nat mid)) / 2
    else arrayAt sorted (Z.of_nat mid).

Definition calculateConfidenceLevel (scores : list float) : string :=
  if (length scores =? 0)%nat then "Low"
  else
    let mean :=
      fold_left (fun sum score => sum + score) scores 0 / lengthOf scores in
    let variance :=
      fold_left (fun sum score => sum + Math_pow2 (score - mean)) scores 0
      / lengthOf scores in
    let standardDeviation := PrimFloat.sqrt variance in
    if standardDeviation <=? 5 then "High"
    else if standardDeviation <=? 15 then "Medium"
    else "Low".

(** [Math.min(...values)]: [Infinity] for no value, [NaN] as soon as a
    value is [NaN], and -0 below +0. *)
Definition lower (lowest number : float) : float :=
  if PrimFloat.is_nan lowest || PrimFloat.is_nan number then PrimFloat.nan
  else if number <? lowest then number
  else if PrimFloat.is_zero number && PrimFloat.is_zero lowest
          && PrimFloat.get_sign number then number
  else lowest.

Definition Math_min (values : list float) : float :=
  fold_left lower values PrimFloat.infinity.

(** The representative assessment (SummaryPanel, lines 132-137): the index
    of the first score whose computed distance to the median is the least
    computed distance; [None] stands for -1. *)
Definition medianIndexOf (scores : list float) : option nat :=
  let medianScore := calculateMedian scores in
  findIndex
    (fun score =>
       PrimFloat.abs (score - medianScore)
       =? Math_min (map (fun s => PrimFloat.abs (s - medianScore)) scores))
    scores.

(** The median iteration of the PDF report (PdfGenerator, lines 162-173);
    [score] reads the [feasibilityScore] of an opinion. *)
Definition medianIterationOf {A : Type} (score : A -> float) (expertOpinions : list A)
  : option A :=
  if (0 <? length expertOpinions)%nat then
    let scores := map score expertOpinions in
    let sortedScores := sortAscending scores in
    let mid := (length sortedScores / 2)%nat in
    let medianScore :=
      if Nat.even (length sortedScores)
      then (arrayAt sortedScores (Z.of_nat mid - 1)
            + arrayAt sortedScores (Z.of_nat mid)) / 2
      else arrayAt sortedScores (Z.of_nat mid) in
    List.find
      (fun o =>
         PrimFloat.abs (score o - medianScore)
         =? Math_min (map (fun s => PrimFloat.abs (s - medianScore)) scores))
      expertOpinions
  else None.

(** The rational that a number is; [None] for [NaN] and the infinities. *)
Definition exactValue (x : float) : option Q :=
  match Prim2SF x with
  | S754_zero _ => Some 0%Q
  | S754_finite s m e =>
      Some ((if s then - inject_Z (Z.pos m) else inject_Z (Z.pos m)) * 2 ^ e)%Q
  | S754_infinity _ | S754_nan => None
  end.

End Binary64.

(** ** The statements of the specification, in its own words *)

Inductive Decision : Type :=
| Proceed
| ProceedWithCaution
| NotRecommended
| DoNotProceed.

(** The category a label of the code stands for.  The aggregation writes
    its last label in lower case. *)
Definition categoryOfLabel (label : string) : option Decision :=
  if String.eqb label "Proceed" then Some Proceed
  else if String.eqb label "Proceed with Caution" then Some ProceedWithCaution
  else if String.eqb label "Not Recommended" then Some NotRecommended
  else if String.eqb label "Do Not Proceed" then Some DoNotProceed
  else if String.eqb label "Do not proceed" then Some DoNotProceed
  else None.

(** The thresholds as the specification words them, on the median itself. *)
Definition specDecision (median : Q) : Decision :=
  if Qle_bool median 80 then
    if Qle_bool 50 median then ProceedWithCaution
    else if Qle_bool 30 median then NotRecommended
    else DoNotProceed
  else Proceed.

(** The sum of a list, the way the specification words mean and variance. *)
Fixpoint Qsum (l : list Q) : Q :=
  match l with
  | [] => 0%Q
  | x :: rest => (x + Qsum rest)%Q
  end.

(** "[x] is the rational [q]" and "[x] lies strictly between [lo] and [hi]". *)
Definition isNum (x : number) (q : Q) : Prop :=
  match x with Num y => (y == q)%Q | NaN => False end.

Definition rBetween (x : rnumber) (lo hi : Q) : Prop :=
  match x with RNum r => (Q2R lo < r < Q2R hi)%R | RNaN => False end.

Definition rAbove (x : rnumber) (c : Q) : Prop :=
  match x with RNum r => (Q2R c < r)%R | RNaN => False end.

(** The executable reading of the confidence thresholds: on the variance,
    against the squares 25 and 225. *)
Definition confidenceOfVariance (variance : number) : string :=
  if nle variance (Num 25) && nle (Num 0) variance then "High"
  else if nle variance (Num 225) && nle (Num 0) variance then "Medium"
  else "Low".

(** The scores of property P4. *)
Definition scoresP4 : list Q := [75; 82; 73; 90; 40]%Q.

Definition sixtyLetters : string :=
  "aaaaaaaaaaaaaaaaaaaaaaaaaaaaaaaaaaaaaaaaaaaaaaaaaaaaaaaaaaaa".

(** ** Predicates on runs *)

(** [m] returns, in every world, a value that satisfies [post]. *)
Definition returnsWith {A : Type} (m : Async A) (post : A -> Prop) : Prop :=
  forall w, exists a w', m w = (Returns a, w') /\ post a.

(** [m] keeps [good] true of every request in the log, whether it returns
    or throws. *)
Definition logs {A : Type} (good : Invocation -> Prop) (m : Async A) : Prop :=
  forall w, Forall good (requests w) -> Forall good (requests (snd (m w))).

(** The participants an iteration reads are configured. *)
Definition participantsConfigured (configs : gmap string AgentConfig.t) : Prop :=
  forall id, In id (finalAgentId :: expertAgentIds) -> is_Some (configs !! id).

(** Every entry an expert already has in the metrics carries its search
    usage, as the entries made by the iteration runner do. *)
Definition expertEntriesReady (metrics : FrameworkMetrics) : Prop :=
  forall id entry,
    In id expertAgentIds ->
    agentBreakdown metrics !! id = Some entry ->
    is_Some (googleSearchUsage entry).

(** The records that the scoring outputs of iterations 1, 2, ... give. *)
Definition recordsOf (host : Host) (outputs : list string) : list EvaluationResult :=
  map (fun '(i, content) => evaluationResultOf host i content)
      (combine (seq 1 (length outputs)) outputs).

(** Web search is attached to a request. *)
Definition searchAttached (inv : Invocation) : Prop :=
  In googleSearch (Request.tools (request inv)).

Definition isExpert (id : string) : bool := startsWith "expert_" id.

(** [0 <= v <= 100] for a stored score. *)
Definition scoreInRange (v : jsval) : Prop :=
  match v with
  | JNum q => (0 <= q)%Q /\ (q <= 100)%Q
  | _ => False
  end.

(** [obj.key] of a parsed object: the field, or [undefined]. *)
Definition fieldOf (fields : list (string * jsval)) (key : string) : jsval :=
  match lookupField key fields with Some v => v | None => JUndefined end.

(** The invariant of the loop over the iterations, after [n] of them. *)
Definition loopInvariant (host : Host) (n : nat) (state : LoopState) : Prop :=
  expertEntriesReady (loopMetrics state) /\
  length (scoringOutputs state) = n /\
  length (independentEvaluations state) = n /\
  map evaluation (independentEvaluations state)
  = recordsOf host (scoringOutputs state).

(** The search policy of a run whose toggle is [enabled]. *)
Definition searchPolicy (enabled : bool) (inv : Invocation) : Prop :=
  searchAttached inv <-> enabled = true /\ isExpert (participant inv) = true.

(** A text that is empty or begins with a line feed. *)
Definition startsAtLine (s : string) : Prop :=
  s = EmptyString \/ exists rest, s = String LF rest.

(** Every character of [s] satisfies [p]. *)
Fixpoint allChars (p : ascii -> bool) (s : string) : bool :=
  match s with
  | EmptyString => true
  | String c rest => p c && allChars p rest
  end.

(** *** What a run sends

    The request that the invoker has the service wrapper send for a
    participant: the prompt, the run's seed, temperature 0 for the two
    agents of the initial analysis and the run's temperature (0 when it is
    not set) for the others, and the other keys from the participant's
    configuration. *)
Definition requestOf (frameworkConfig : FrameworkConfig.t) (agentId : string)
    (config : AgentConfig.t) (prompt : string) (useGoogleSearch : bool) : Request.t :=
  Request.mk (AgentConfig.model config) prompt
    (if includes forceZeroTempAgents agentId then 0%Q
     else match FrameworkConfig.temperature frameworkConfig with
          | Some t => t
          | None => 0%Q
          end)
    (FrameworkConfig.seed frameworkConfig)
    (if useGoogleSearch then [googleSearch] else [])
    (nonEmpty (AgentConfig.systemInstruction config))
    (AgentConfig.responseMimeType config)
    (AgentConfig.responseSchema config)
    (nonZero (AgentConfig.maxOutputTokens config))
    (AgentConfig.thinkingConfig config).

(** The prompt of an expert who speaks after the messages [before]. *)
Definition expertPromptOf (context : string) (before : list UserChatMessage)
    (config : AgentConfig.t) : string :=
  truncatePromptIfNeeded
    (dynamicPromptOf context (historyTextOf before) (AgentConfig.systemInstruction config))
    MAX_CONTEXT_TOKENS.

(** The prompt of the scoring call of iteration [i] on the transcript
    [history]. *)
Definition scoringPromptOf (config : AgentConfig.t) (history : list UserChatMessage)
    (i : nat) : string :=
  truncatePromptIfNeeded
    (replace "{expert_discussion_transcript}" (transcriptText history)
       (AgentConfig.prompt config)
     ++ independenceNote i)
    MAX_CONTEXT_TOKENS.

Definition expertCall (frameworkConfig : FrameworkConfig.t) (context : string)
    (configs : gmap string AgentConfig.t) (enabled : bool)
    (before : list UserChatMessage) (id : string) : list Invocation :=
  match configs !! id with
  | Some config =>
      [mkInvocation id
         (requestOf frameworkConfig id config (expertPromptOf context before config)
            (enabled && startsWith "expert_" id))]
  | None => []
  end.

Definition scoringCall (frameworkConfig : FrameworkConfig.t)
    (configs : gmap string AgentConfig.t) (history : list UserChatMessage) (i : nat)
  : list Invocation :=
  match configs !! finalAgentId with
  | Some config =>
      [mkInvocation finalAgentId
         (requestOf frameworkConfig finalAgentId config
            (scoringPromptOf config history i) false)]
  | None => []
  end.

(** The calls of the [speakers], who say the messages [said] one after the
    other, the first of them after the messages [before]. *)
Fixpoint spokenCalls (frameworkConfig : FrameworkConfig.t) (context : string)
    (configs : gmap string AgentConfig.t) (enabled : bool)
    (speakers : list string) (said before : list UserChatMessage) : list Invocation :=
  match speakers, said with
  | id :: speakers', m :: said' =>
      (expertCall frameworkConfig context configs enabled before id
       ++ spokenCalls frameworkConfig context configs enabled speakers' said'
            (before ++ [m]))%list
  | _, _ => []
  end.

(** The calls of the iteration [i] whose transcript is [history]. *)
Definition iterationCalls (frameworkConfig : FrameworkConfig.t) (context : string)
    (configs : gmap string AgentConfig.t) (enabled : bool)
    (history : list UserChatMessage) (i : nat) : list Invocation :=
  (spokenCalls frameworkConfig context configs enabled
     (expertAgentIds ++ expertAgentIds) history []
   ++ scoringCall frameworkConfig configs history i)%list.

(** The calls of the iterations that left the [records]. *)
Definition runCalls (frameworkConfig : FrameworkConfig.t) (context : string)
    (configs : gmap string AgentConfig.t) (enabled : bool)
    (records : list IterationRecord) : list Invocation :=
  flat_map
    (fun record =>
       iterationCalls frameworkConfig context configs enabled
         (recordedHistory record) (iteration (evaluation record)))
    records.

(** A call reaches the generation service when the API key is set. *)
Definition sentBy (host : Host) (calls : list Invocation) : list Invocation :=
  if GEMINI_API_KEY host then calls else [].

Definition promptTokens (calls : list Invocation) : nat :=
  list_sum (map (fun inv => countTokens (Request.contents (request inv))) calls).

(** A message of the transcript is of type [agent] and shows the display
    name of the participant who wrote it. *)
Definition agentMessage (configs : gmap string AgentConfig.t) (m : UserChatMessage) : Prop :=
  msgType m = "agent" /\
  exists config,
    configs !! agentId m = Some config /\
    agentName m = displayName (AgentConfig.name config).

(** A transcript of an iteration: the experts in their order, twice. *)
Definition transcriptOf (configs : gmap string AgentConfig.t)
    (history : list UserChatMessage) : Prop :=
  map agentId history = (expertAgentIds ++ expertAgentIds)%list /\
  Forall (agentMessage configs) history.

(** A search usage as the service wrapper builds it: the counts are the
    numbers of queries and sources it lists, and a usage that is not marked
    [used] is the empty one. *)
Definition usageFromService (usage : GoogleSearchMetadata) : Prop :=
  (used usage = false -> usage = noSearch) /\
  queriesCount usage = lengthOrZero (queries usage) /\
  sourcesCount usage = lengthOrZero (sources usage).

(** The metrics of a call as the invoker returns them for a configured
    participant. *)
Definition metricsFromInvoker (agentMetrics : AgentMetrics) : Prop :=
  exists usage,
    googleSearchUsage agentMetrics = Some usage /\ usageFromService usage.

(** The code moves from the world [w] and the metrics [metrics] to [w'] and
    [metrics'] by making [calls]: the metrics keep [Inv] and the search
    usage of the expert entries, the input tokens grow by the estimates of
    the prompts, the calls that reach the service are appended to the log,
    and the clock is read before and after each call. *)
Definition advancesBy (host : Host) (Inv : FrameworkMetrics -> Prop)
    (w : World) (metrics : FrameworkMetrics) (calls : list Invocation)
    (w' : World) (metrics' : FrameworkMetrics) : Prop :=
  expertEntriesReady metrics' /\
  Inv metrics' /\
  totalInputTokens metrics' = (totalInputTokens metrics + promptTokens calls)%nat /\
  requests w' = (requests w ++ sentBy host calls)%list /\
  clockReadings w' = (clockReadings w + 2 * length calls)%nat.

(** The state of the loop over the iterations after [n] of [total], in a
    run that started in the world [w0] with the metrics [metrics0]. *)
Definition runInvariant (host : Host) (Inv : FrameworkMetrics -> Prop)
    (frameworkConfig : FrameworkConfig.t) (context : string)
    (configs : gmap string AgentConfig.t) (enabled : bool)
    (total : nat) (w0 : World) (metrics0 : FrameworkMetrics)
    (n : nat) (state : LoopState) (w : World) : Prop :=
  loopInvariant host n state /\
  Forall (fun record => transcriptOf configs (recordedHistory record))
    (independentEvaluations state) /\
  lastDiscussionHistory state
  = match nth_error (independentEvaluations state) (total - 1) with
    | Some record => recordedHistory record
    | None => []
    end /\
  advancesBy host Inv w0 metrics0
    (runCalls frameworkConfig context configs enabled (independentEvaluations state))
    w (loopMetrics state).

(** The participants of one iteration, in the order of their calls. *)
Definition iterationSchedule : list string :=
  (expertAgentIds ++ expertAgentIds ++ [finalAgentId])%list.

(** *** The policy of the requests

    A logged request follows the configuration of its participant and the
    settings of the run. *)
Definition followsConfiguration (frameworkConfig : FrameworkConfig.t)
    (configs : gmap string AgentConfig.t) (inv : Invocation) : Prop :=
  exists config,
    configs !! participant inv = Some config /\
    Request.model (request inv) = AgentConfig.model config /\
    Request.systemInstruction (request inv)
    = nonEmpty (AgentConfig.systemInstruction config) /\
    Request.responseMimeType (request inv) = AgentConfig.responseMimeType config /\
    Request.responseSchema (request inv) = AgentConfig.responseSchema config /\
    Request.maxOutputTokens (request inv)
    = nonZero (AgentConfig.maxOutputTokens config) /\
    Request.thinkingConfig (request inv) = AgentConfig.thinkingConfig config /\
    Request.seed (request inv) = FrameworkConfig.seed frameworkConfig /\
    Request.temperature (request inv)
    = if includes [classificationAgentId; summarizeAgentId] (participant inv)
      then 0%Q
      else match FrameworkConfig.temperature frameworkConfig with
           | Some t => t
           | None => 0%Q
           end.

(** *** A whole simulation

    The participants a simulation reads: those of an iteration and the two
    agents of the initial analysis. *)
Definition simulationConfigured (configs : gmap string AgentConfig.t) : Prop :=
  participantsConfigured configs /\
  is_Some (configs !! classificationAgentId) /\
  is_Some (configs !! summarizeAgentId).

(** The metrics after the initial analysis (App.tsx, lines 553-567). *)
Definition initialAnalysisMetrics (classMetrics summaryMetrics : AgentMetrics)
  : FrameworkMetrics :=
  mkFrameworkMetrics (totalDuration emptyMetrics)
    (totalInputTokens emptyMetrics
     + (inputTokens (tokenUsage classMetrics)
        + inputTokens (tokenUsage summaryMetrics)))
    (totalOutputTokens emptyMetrics
     + (outputTokens (tokenUsage classMetrics)
        + outputTokens (tokenUsage summaryMetrics)))
    (<[summarizeAgentId := summaryMetrics]>
       (<[classificationAgentId := classMetrics]> (agentBreakdown emptyMetrics)))
    (googleSearchSummary emptyMetrics).

(** The summary as it enters the context (lines 569-575). *)
Definition summaryForContextOf (host : Host) (summaryText : string) : string :=
  match JSON_parse host summaryText with
  | Parsed parsed => JSON_stringify host parsed
  | SyntaxError _ => summaryText
  end.

(** The sum of a token count over the entries of the breakdown. *)
Definition breakdownTotal (count : TokenUsage -> nat)
    (breakdown : gmap string AgentMetrics) : nat :=
  map_fold (fun _ entry total => (count (tokenUsage entry) + total)%nat) 0%nat breakdown.

(** The token totals are the sums over the breakdown. *)
Definition totalsMatchBreakdown (metrics : FrameworkMetrics) : Prop :=
  totalInputTokens metrics = breakdownTotal inputTokens (agentBreakdown metrics) /\
  totalOutputTokens metrics = breakdownTotal outputTokens (agentBreakdown metrics).

(** Why the page of a proposal could not be read: the request failed, or
    the reader answered with a status that is not OK. *)
Definition fetchFailure (outcome : FetchOutcome) : option string :=
  match outcome with
  | FetchRejects message => Some message
  | FetchResponds false status _ =>
      Some ("Jina Reader API returned status " ++ showNat status)
  | FetchResponds true _ _ => None
  end.

(** The character [c] does not occur in [s]. *)
Definition without (c : ascii) (s : string) : bool :=
  allChars (fun x => negb (Ascii.eqb x c)) s.

(** How favourable a category is. *)
Definition rankOf (d : Decision) : nat :=
  match d with
  | Proceed => 3
  | ProceedWithCaution => 2
  | NotRecommended => 1
  | DoNotProceed => 0
  end.

Definition labelRank (label : string) : option nat :=
  option_map rankOf (categoryOfLabel label).

(** The search usage recorded for a participant in the breakdown, the empty
    one when there is none. *)
Definition searchUsageOf (metrics : FrameworkMetrics) (id : string) : GoogleSearchMetadata :=
  match agentBreakdown metrics !! id with
  | Some entry =>
      match googleSearchUsage entry with
      | Some usage => usage
      | None => noSearch
      end
  | None => noSearch
  end.

(** The search summary agrees with the breakdown: the agents it lists are,
    without repetition, the experts whose entry is marked [used]; its
    numbers of queries and sources are the sums over the experts' entries;
    it counts at least one use for every agent it lists; and each expert
    entry counts the queries and sources it lists. *)
Definition searchSummaryMatches (metrics : FrameworkMetrics) : Prop :=
  let summary := googleSearchSummary metrics in
  List.NoDup (agentsUsed summary) /\
  (forall id,
      In id (agentsUsed summary)
      <-> In id expertAgentIds /\ used (searchUsageOf metrics id) = true) /\
  totalQueries summary
  = list_sum (map (fun id => queriesCount (searchUsageOf metrics id)) expertAgentIds) /\
  totalSources summary
  = list_sum (map (fun id => sourcesCount (searchUsageOf metrics id)) expertAgentIds) /\
  (length (agentsUsed summary) <= totalUsageCount summary)%nat /\
  (forall id,
      In id expertAgentIds ->
      queriesCount (searchUsageOf metrics id)
      = lengthOrZero (queries (searchUsageOf metrics id)) /\
      sourcesCount (searchUsageOf metrics id)
      = lengthOrZero (sources (searchUsageOf metrics id))).

(** *** Questions to the experts

    The participants a question reads: the three experts and the update
    agent. *)
Definition qaConfigured (configs : gmap string AgentConfig.t) : Prop :=
  (forall id, In id expertAgentIds -> is_Some (configs !! id)) /\
  is_Some (configs !! updateAgentId).

(** Two configurations that differ at most in the system instruction. *)
Definition sameButInstruction (config config' : AgentConfig.t) : Prop :=
  AgentConfig.id config' = AgentConfig.id config /\
  AgentConfig.name config' = AgentConfig.name config /\
  AgentConfig.description config' = AgentConfig.description config /\
  AgentConfig.model config' = AgentConfig.model config /\
  AgentConfig.prompt config' = AgentConfig.prompt config /\
  AgentConfig.responseMimeType config' = AgentConfig.responseMimeType config /\
  AgentConfig.responseSchema config' = AgentConfig.responseSchema config /\
  AgentConfig.maxOutputTokens config' = AgentConfig.maxOutputTokens config /\
  AgentConfig.thinkingConfig config' = AgentConfig.thinkingConfig config.

(** The configurations [configs'] have the keys of [configs]; the entries
    of the experts differ at most in the system instruction, and every
    other entry is the same. *)
Definition onlyInstructionsChanged (configs configs' : gmap string AgentConfig.t) : Prop :=
  forall key,
    match configs !! key, configs' !! key with
    | Some config, Some config' =>
        sameButInstruction config config' /\
        (~ In key expertAgentIds -> config' = config)
    | None, None => True
    | _, _ => False
    end.

(** The request of an expert for a question. *)
Definition questionCall (frameworkConfig : FrameworkConfig.t)
    (configs : gmap string AgentConfig.t) (enabled : bool)
    (context question : string) (id : string) : list Invocation :=
  match configs !! id with
  | Some config =>
      [mkInvocation id
         (requestOf frameworkConfig id config
            (truncatePromptIfNeeded (qaPromptOf context question config)
               MAX_CONTEXT_TOKENS)
            (enabled && startsWith "expert_" id))]
  | None => []
  end.

(** The configurations after the updates, when they are still described by
    [AgentConfig], differ from [configs] in instructions of experts only. *)
Definition instructionsKept (configs : gmap string AgentConfig.t)
    (instructions : Instructions) : Prop :=
  match instructions with
  | AllText configs' => onlyInstructionsChanged configs configs'
  | NotText => True
  end.

(** *** The context budget

    The prompt of a request fits the budget and the marker of a
    truncation. *)
Definition withinBudget (inv : Invocation) : Prop :=
  (countTokens (Request.contents (request inv))
   <= MAX_CONTEXT_TOKENS + countTokens truncationMarker)%nat.

(** *** The calls of [fetch]

    The host [host] with [reader] in the place of its [fetch]. *)
Definition withFetch (host : Host) (reader : string -> FetchOutcome) : Host :=
  mkHost (GEMINI_API_KEY host) (generateContent host) (performance_now host)
    reader (JSON_parse host) (JSON_stringify host) (JSON_stringify_metrics host).

(** ** Concrete inputs for the examples *)

(** Scores at the boundary of the label High, and the rationals that these
    two numbers are. *)
Definition boundaryScores : list float := [0.4; 10.4]%float.

Definition boundaryValues : list Q :=
  [7205759403792794 # 18014398509481984; 5854679515581645 # 562949953421312]%Q.

(** Two scores at the same exact distance from their median. *)
Definition tiedScores : list float := [46; 48.9]%float.

(** The scores of property P4 as the engine holds them, and three equal
    scores that are not sums of powers of two. *)
Definition scoresP4InBinary64 : list float := [75; 82; 73; 90; 40]%float.

Definition tenths : list float := [0.1; 0.1; 0.1]%float.

(** The binary64 statistics of [n] scores of 50 are those of the exact
    arithmetic: mean and median 50, standard deviation 0, label High. *)
Definition unanimousInBinary64 (n : nat) : bool :=
  let scores := repeat 50%float n in
  (Binary64.meanOf scores =? 50)%float
  && (Binary64.medianOf scores =? 50)%float
  && (Binary64.standardDeviationOf scores =? 0)%float
  && String.eqb (Binary64.confidenceLevelOf (Binary64.standardDeviationOf scores))
       "High".

Definition demoAgent (id name prompt : string) (mime : MimeType) : AgentConfig.t :=
  AgentConfig.mk id name (name ++ " of the demonstration") "gemini-2.5-flash" prompt
    (Some ("You are " ++ name ++ ".")) (Some mime) None None None.

Definition demoConfigs : gmap string AgentConfig.t :=
  list_to_map
    [ (classificationAgentId,
       demoAgent classificationAgentId "Proposal Classification Agent"
         "Classify: {proposal_info}" application_json);
      (summarizeAgentId,
       demoAgent summarizeAgentId "Proposal Information Summarize Agent"
         "Summarize: {url_content}" application_json);
      ("expert_1", demoAgent "expert_1" "Expert 1: Dr. Anya Sharma (Finance)"
                     "Discuss." text_plain);
      ("expert_2", demoAgent "expert_2" "Expert 2: Ben Carter (Technology)"
                     "Discuss." text_plain);
      ("expert_3", demoAgent "expert_3" "Expert 3: Chloe Davis (Governance)"
                     "Discuss." text_plain);
      (finalAgentId,
       demoAgent finalAgentId "Feasibility Scoring Agent"
         "Score this discussion: {expert_discussion_transcript}" application_json);
      (trackerAgentId,
       demoAgent trackerAgentId "Framework Tracker Agent"
         "Report: {execution_data}" text_plain) ].

Definition demoFramework (n : nat) : FrameworkConfig.t :=
  FrameworkConfig.mk n None (Some 0%Q) "demonstration".

Definition demoProposal : ProposalData :=
  mkProposalData "Fund the grant programme for one more season." "2025-01-01" EmptyString.

Definition startOfRun : World := mkWorld [] 0.

(** The answer [{"feasibilityScore":150,"rationale":"Certain"}] and the
    value [JSON.parse] gives for it. *)
Definition answer150 : string :=
  "{" ++ dquote ++ "feasibilityScore" ++ dquote ++ ":150,"
  ++ dquote ++ "rationale" ++ dquote ++ ":" ++ dquote ++ "Certain" ++ dquote ++ "}".

Definition parsed150 : jsval :=
  JObj [("feasibilityScore", JNum 150); ("rationale", JStr "Certain")].

(** A parser that knows this one text and rejects every other one the way
    [JSON.parse] rejects plain prose. *)
Definition demoParse (s : string) : ParseOutcome :=
  if String.eqb s answer150 then Parsed parsed150
  else SyntaxError "Unexpected token in JSON at position 0".

(** A host whose generation service answers every request with
    [answer150]; the clock advances by 5 ms per reading. *)
Definition host150 : Host :=
  mkHost true
    (fun _ _ => Responds (mkResponse answer150 None))
    (fun n => inject_Z (5 * Z.of_nat n))
    (fun _ => FetchRejects "Failed to fetch")
    demoParse
    (fun _ => "{}")
    (fun _ => "{}").

(** A host whose generation service fails on every request. *)
Definition failingHost : Host :=
  mkHost true
    (fun _ _ => Rejects)
    (fun n => inject_Z (5 * Z.of_nat n))
    (fun _ => FetchRejects "Failed to fetch")
    demoParse
    (fun _ => "{}")
    (fun _ => "{}").

(** A host without an API key. *)
Definition keylessHost : Host :=
  mkHost false
    (fun _ _ => Rejects)
    (fun n => inject_Z (5 * Z.of_nat n))
    (fun _ => FetchRejects "Failed to fetch")
    demoParse
    (fun _ => "{}")
    (fun _ => "{}").

(** The configurations of the demonstration with an update agent, and a
    final decision on display. *)
Definition qaConfigs : gmap string AgentConfig.t :=
  <[updateAgentId :=
      demoAgent updateAgentId "Prompt Update Agent"
        "Instruction: {expert_instruction} Question: {user_question} Answer: {expert_response}"
        application_json]> demoConfigs.

Definition demoDecision : AgentOutput :=
  mkAgentOutput "Feasibility Scoring Agent" "{}" JUndefined.

(* ===================================================================== *)
(** * Part II: verification                                               *)
(* ===================================================================== *)

(** ** Facts about strings and the ceiling *)

Lemma Math_ceil_div_4_spec (n : nat) :
  (n <= 4 * Math_ceil_div n 4 < n + 4)%nat.
Proof.
  unfold Math_ceil_div.
  pose proof (Nat.div_mod_eq n 4) as E.
  pose proof (Nat.mod_upper_bound n 4 ltac:(lia)) as B.
  destruct (Nat.eqb_spec (n mod 4) 0); lia.
Qed.

Lemma countTokens_spec (s : string) :
  (String.length s <= 4 * countTokens s < String.length s + 4)%nat.
Proof. apply Math_ceil_div_4_spec. Qed.

Lemma countTokens_mono (s t : string) :
  (String.length s <= String.length t)%nat -> (countTokens s <= countTokens t)%nat.
Proof.
  intros H. pose proof (countTokens_spec s). pose proof (countTokens_spec t). lia.
Qed.

Lemma length_append (s t : string) :
  String.length (s ++ t) = (String.length s + String.length t)%nat.
Proof. induction s as [|c s IH]; simpl; [reflexivity | now rewrite IH]. Qed.

Lemma length_substringFrom (n : nat) (s : string) :
  String.length (substringFrom n s) = (String.length s - n)%nat.
Proof.
  revert s; induction n as [|n IH]; intros s.
  - simpl. lia.
  - destruct s as [|c s]; simpl; [reflexivity | apply IH].
Qed.

Lemma substringFrom_all (n : nat) (s : string) :
  (String.length s <= n)%nat -> substringFrom n s = EmptyString.
Proof.
  intros H. pose proof (length_substringFrom n s) as L.
  destruct (substringFrom n s); [reflexivity | simpl in L; lia].
Qed.

Lemma substringFrom_append (n : nat) (s t : string) :
  (n <= String.length s)%nat ->
  substringFrom n (s ++ t) = substringFrom n s ++ t.
Proof.
  revert s; induction n as [|n IH]; intros s H; [reflexivity|].
  destruct s as [|c s]; simpl in *; [lia | apply IH; lia].
Qed.

Lemma advanceToLineStart_bounds (rest : string) (i : nat) :
  (i <= advanceToLineStart rest i <= i + String.length rest)%nat.
Proof.
  revert i; induction rest as [|c rest IH]; intros i; simpl; [lia|].
  destruct (Ascii.eqb c LF); [lia | specialize (IH (S i)); lia].
Qed.

Lemma truncationMarker_length : String.length truncationMarker = 57%nat.
Proof. reflexivity. Qed.

Lemma truncationMarker_tokens : countTokens truncationMarker = 15%nat.
Proof. reflexivity. Qed.

(** ** The token/length guard *)

Lemma truncate_under_budget (s : string) (k : nat) :
  (countTokens s <= k)%nat -> truncatePromptIfNeeded s k = s.
Proof.
  intros H. unfold truncatePromptIfNeeded.
  destruct (Nat.leb_spec (countTokens s) k); [reflexivity | lia].
Qed.

(** Over budget, the result is the marker followed by a suffix of the
    prompt of at most [4 * k] characters. *)
Lemma truncate_over_budget (s : string) (k : nat) :
  (k < countTokens s)%nat ->
  exists suffix,
    truncatePromptIfNeeded s k = truncationMarker ++ suffix /\
    (String.length suffix <= 4 * k)%nat.
Proof.
  intros H. unfold truncatePromptIfNeeded.
  destruct (Nat.leb_spec (countTokens s) k) as [L|_]; [lia|].
  eexists; split; [reflexivity|].
  rewrite length_substringFrom.
  pose proof (advanceToLineStart_bounds
                (substringFrom ((countTokens s - k) * 4) s)
                ((countTokens s - k) * 4)) as B.
  pose proof (countTokens_spec s). lia.
Qed.

(** Where the second pass cuts when it starts inside the marker: at the
    first of the two line feeds that end it, or at the second one. *)
Lemma advance_inside_marker (c : nat) (suffix : string) :
  (c <= 56)%nat ->
  let split := advanceToLineStart
                 (substringFrom c (truncationMarker ++ suffix)) c in
  (split <= 56)%nat.
Proof.
  intros H.
  do 57 (destruct c as [|c]; [cbv; lia|]). lia.
Qed.

(** C6: the estimate is the ceiling of length/4; under budget the prompt is
    returned unchanged; over budget the estimate of the result is at most the
    budget plus the estimate of the marker. *)
Theorem truncate_token_bound (s : string) (k : nat) :
  (String.length s <= 4 * countTokens s < String.length s + 4)%nat /\
  ((countTokens s <= k)%nat -> truncatePromptIfNeeded s k = s) /\
  ((k < countTokens s)%nat ->
   (countTokens (truncatePromptIfNeeded s k)
    <= k + countTokens truncationMarker)%nat).
Proof.
  split; [apply countTokens_spec|].
  split; [apply truncate_under_budget|].
  intros H. destruct (truncate_over_budget s k H) as (suffix & -> & L).
  pose proof (countTokens_spec (truncationMarker ++ suffix)) as B.
  rewrite length_append, truncationMarker_length in B.
  rewrite truncationMarker_tokens. lia.
Qed.

Lemma truncate_token_bound_witness :
  truncatePromptIfNeeded "Proposal: fund the grant" 6 = "Proposal: fund the grant" /\
  (countTokens (truncatePromptIfNeeded "Proposal: fund the grant" 5) <= 5 + 15)%nat.
Proof.
  split.
  - apply (proj1 (proj2 (truncate_token_bound "Proposal: fund the grant" 6))).
    vm_compute. lia.
  - apply (proj2 (proj2 (truncate_token_bound "Proposal: fund the grant" 5))).
    vm_compute. lia.
Defined.

(** C7 as stated fails: a prompt of sixty letters and budget 13.  The first
    pass leaves only the marker (15 tokens, still over 13); the second pass
    cuts inside the marker and prepends a second one. *)
Lemma truncate_not_idempotent :
  (13 <= countTokens sixtyLetters)%nat /\
  truncatePromptIfNeeded (truncatePromptIfNeeded sixtyLetters 13) 13
  <> truncatePromptIfNeeded sixtyLetters 13.
Proof.
  split; [vm_compute; lia|].
  vm_compute. discriminate.
Qed.

(** C7, amended: a second pass changes nothing exactly when the first result
    fits the budget or the budget is zero. *)
Theorem truncate_idempotent_iff (s : string) (k : nat) :
  truncatePromptIfNeeded (truncatePromptIfNeeded s k) k
  = truncatePromptIfNeeded s k
  <-> (countTokens (truncatePromptIfNeeded s k) <= k)%nat \/ k = 0%nat.
Proof.
  split.
  - intros Idem.
    destruct (Nat.le_gt_cases (countTokens (truncatePromptIfNeeded s k)) k)
      as [Fit|Over]; [now left | right].
    destruct (Nat.le_gt_cases (countTokens s) k) as [Ls|Gs].
    { rewrite (truncate_under_budget s k Ls) in Over. lia. }
    destruct (truncate_over_budget s k Gs) as (suffix & E & L).
    rewrite E in Idem, Over.
    set (t := truncationMarker ++ suffix) in *.
    assert (Lt : String.length t = (57 + String.length suffix)%nat)
      by (unfold t; now rewrite length_append, truncationMarker_length).
    pose proof (countTokens_spec t) as B. rewrite Lt in B.
    apply (f_equal String.length) in Idem.
    unfold truncatePromptIfNeeded in Idem.
    destruct (Nat.leb_spec (countTokens t) k) as [?|_]; [lia|].
    rewrite length_append, truncationMarker_length, length_substringFrom, Lt
      in Idem.
    set (c := ((countTokens t - k) * 4)%nat) in *.
    pose proof (advanceToLineStart_bounds (substringFrom c t) c) as A.
    destruct (Nat.le_gt_cases c 56) as [In|Out].
    + pose proof (advance_inside_marker c suffix In) as S56.
      cbv zeta in S56. fold t in S56. lia.
    + lia.
  - intros [Fit | ->].
    + now apply truncate_under_budget.
    + destruct (Nat.le_gt_cases (countTokens s) 0) as [Ls|Gs].
      * rewrite (truncate_under_budget s 0 Ls).
        now apply truncate_under_budget.
      * destruct (truncate_over_budget s 0 Gs) as (suffix & -> & L).
        destruct suffix as [|a suffix]; [reflexivity | simpl in L; lia].
Qed.

(** ** Facts about numbers *)

Lemma Qle_bool_false (x y : Q) : Qle_bool x y = false -> (y < x)%Q.
Proof.
  intros H. apply Qnot_le_lt. intros L.
  apply Qle_bool_iff in L. congruence.
Qed.

Lemma ofNat_nonzero (n : nat) :
  n <> 0%nat -> Qeq_bool (inject_Z (Z.of_nat n)) 0 = false.
Proof.
  intros H. destruct (Qeq_bool (inject_Z (Z.of_nat n)) 0) eqn:E; [|reflexivity].
  apply Qeq_bool_iff in E. unfold Qeq in E. simpl in E. lia.
Qed.

Lemma fold_left_sum (l : list Q) (a : Q) :
  (fold_left (fun sum score => sum + score) l a == a + Qsum l)%Q.
Proof.
  revert a; induction l as [|x l IH]; intros a; simpl.
  - Lqa.lra.
  - rewrite IH. Lqa.lra.
Qed.

Lemma fold_left_squares (l : list Q) (m a : Q) :
  exists v : Q,
    fold_left (fun sum score => nadd sum (Math_pow2 (nsub (Num score) (Num m))))
              l (Num a) = Num v /\
    (v == a + Qsum (map (fun x => (x - m) * (x - m)) l))%Q.
Proof.
  revert a; induction l as [|x l IH]; intros a; simpl.
  - exists a. split; [reflexivity | Lqa.lra].
  - destruct (IH (a + (x - m) * (x - m))%Q) as (v & E & Hv).
    exists v. split; [exact E | rewrite Hv; Lqa.lra].
Qed.

Lemma Qsquare_nonneg (q : Q) : (0 <= q * q)%Q.
Proof. unfold Qle, Qmult; simpl. nia. Qed.

Lemma Qsum_squares_nonneg (l : list Q) (m : Q) :
  (0 <= Qsum (map (fun x => (x - m) * (x - m)) l))%Q.
Proof.
  induction l as [|x l IH]; simpl; [Lqa.lra|].
  pose proof (Qsquare_nonneg (x - m)). Lqa.lra.
Qed.

(** ** Facts about the sort *)

Lemma insertAscending_perm (x : Q) (l : list Q) :
  Permutation (insertAscending x l) (x :: l).
Proof.
  induction l as [|y l IH]; simpl; [reflexivity|].
  destruct (Qle_bool x y); [reflexivity|].
  rewrite IH. apply perm_swap.
Qed.

Lemma sortAscending_perm (l : list Q) : Permutation (sortAscending l) l.
Proof.
  induction l as [|x l IH]; simpl; [reflexivity|].
  rewrite insertAscending_perm. now constructor.
Qed.

Lemma sortAscending_length (l : list Q) :
  length (sortAscending l) = length l.
Proof. apply Permutation_length, sortAscending_perm. Qed.

Lemma insertAscending_sorted (x : Q) (l : list Q) :
  Sorted Qle l -> Sorted Qle (insertAscending x l).
Proof.
  induction 1 as [|y l Hs IH Hd]; simpl.
  - repeat constructor.
  - destruct (Qle_bool x y) eqn:E.
    + constructor; [now constructor|]. constructor. now apply Qle_bool_iff.
    + constructor; [exact IH|].
      apply Qle_bool_false, Qlt_le_weak in E.
      destruct Hd as [|z l' Hz]; simpl.
      * now constructor.
      * destruct (Qle_bool x z); now constructor.
Qed.

Lemma sortAscending_sorted (l : list Q) : Sorted Qle (sortAscending l).
Proof.
  induction l as [|x l IH]; simpl; [constructor|].
  now apply insertAscending_sorted.
Qed.

Lemma arrayAt_nth (l : list Q) (i : nat) :
  (i < length l)%nat -> arrayAt l (Z.of_nat i) = Num (nth i l 0%Q).
Proof.
  intros H. unfold arrayAt.
  destruct (Z.ltb_spec (Z.of_nat i) 0); [lia|].
  rewrite Nat2Z.id.
  destruct (nth_error l i) as [x|] eqn:E.
  - now rewrite (nth_error_nth _ _ _ E).
  - apply nth_error_None in E. lia.
Qed.

(** ** Facts about the square root *)

Lemma sqrt_le_iff (x c : R) :
  (0 <= x)%R -> (0 <= c)%R -> (sqrt x <= c <-> x <= c * c)%R.
Proof.
  intros Hx Hc. split; intros H.
  - rewrite <- (sqrt_sqrt x Hx). pose proof (sqrt_pos x). nra.
  - rewrite <- (sqrt_square c Hc). now apply sqrt_le_1_alt.
Qed.

Lemma sqrt_lt_iff (x c : R) :
  (0 <= x)%R -> (0 <= c)%R -> (c < sqrt x <-> c * c < x)%R.
Proof.
  intros Hx Hc. pose proof (sqrt_le_iff x c Hx Hc) as S.
  split; intros H; lra.
Qed.

Lemma rle_sqrt (v c : Q) :
  (0 <= v)%Q -> (0 <= c)%Q ->
  rle (Math_sqrt (Num v)) c = Qle_bool v (c * c).
Proof.
  intros Hv Hc. unfold Math_sqrt, rle.
  destruct (Qle_bool 0 v) eqn:E0;
    [|apply Qle_bool_false in E0; Lqa.lra].
  pose proof (Qle_Rle _ _ Hv) as Rv. pose proof (Qle_Rle _ _ Hc) as Rc.
  replace (Q2R 0) with 0%R in Rv, Rc by (unfold Q2R; simpl; lra).
  pose proof (sqrt_le_iff (Q2R v) (Q2R c) Rv Rc) as S.
  rewrite <- Q2R_mult in S.
  destruct (Rle_dec (sqrt (Q2R v)) (Q2R c)) as [L|L];
    destruct (Qle_bool v (c * c)) eqn:E; try reflexivity.
  - apply Qle_bool_false, Qlt_Rlt in E. apply S in L. lra.
  - apply Qle_bool_iff, Qle_Rle in E. apply S in E. contradiction.
Qed.

(** The thresholds on the standard deviation are thresholds on the
    variance. *)
Lemma confidenceLevelOf_variance (v : number) :
  confidenceLevelOf (Math_sqrt v) = confidenceOfVariance v.
Proof.
  unfold confidenceLevelOf, confidenceOfVariance.
  destruct v as [|v]; [reflexivity|].
  unfold nle at 2 4.
  destruct (Qle_bool 0 v) eqn:E0.
  - apply Qle_bool_iff in E0.
    rewrite !rle_sqrt by (assumption || (unfold Qle; simpl; lia)).
    unfold nle. rewrite !andb_true_r. reflexivity.
  - unfold Math_sqrt. rewrite E0. simpl. now rewrite !andb_false_r.
Qed.

(** ** Statistics *)

Lemma meanOf_nonempty (scores : list Q) :
  scores <> [] ->
  exists m : Q,
    meanOf scores = Num m /\
    (m == Qsum scores / inject_Z (Z.of_nat (length scores)))%Q.
Proof.
  intros NE. unfold meanOf, ndiv, ofNat.
  rewrite ofNat_nonzero by (destruct scores; simpl; congruence).
  eexists; split; [reflexivity|].
  rewrite fold_left_sum. now rewrite Qplus_0_l.
Qed.

Lemma varianceOf_nonempty (scores : list Q) (m : Q) :
  scores <> [] -> meanOf scores = Num m ->
  exists v : Q,
    varianceOf scores = Num v /\
    (v == Qsum (map (fun x => (x - m) * (x - m)) scores)
          / inject_Z (Z.of_nat (length scores)))%Q /\
    (0 <= v)%Q.
Proof.
  intros NE Hm. unfold varianceOf. rewrite Hm.
  destruct (fold_left_squares scores m 0) as (v0 & -> & Hv0).
  unfold ndiv, ofNat.
  rewrite ofNat_nonzero by (destruct scores; simpl; congruence).
  rewrite Qplus_0_l in Hv0.
  eexists; split; [reflexivity|]. split; [now rewrite Hv0|].
  rewrite Hv0. apply Qle_shift_div_l.
  - unfold Qlt; simpl. destruct scores; simpl in *; [congruence | lia].
  - rewrite Qmult_0_l. apply Qsum_squares_nonneg.
Qed.

Lemma medianOf_odd (scores : list Q) :
  Nat.even (length scores) = false ->
  medianOf scores
  = Num (nth (length scores / 2) (sortAscending scores) 0%Q).
Proof.
  intros Odd. unfold medianOf. rewrite sortAscending_length, Odd.
  apply arrayAt_nth. rewrite sortAscending_length.
  destruct scores; [discriminate|]. apply Nat.div_lt; simpl; lia.
Qed.

Lemma medianOf_even (scores : list Q) :
  scores <> [] -> Nat.even (length scores) = true ->
  medianOf scores
  = Num ((nth (length scores / 2 - 1) (sortAscending scores) 0
          + nth (length scores / 2) (sortAscending scores) 0) / 2)%Q.
Proof.
  intros NE Even. unfold medianOf. rewrite sortAscending_length, Even.
  assert (L : (2 <= length scores)%nat).
  { destruct scores as [|a [|b l]]; simpl in *; try congruence; lia. }
  assert (M : (1 <= length scores / 2 < length scores)%nat).
  { split; [now apply Nat.div_le_lower_bound | apply Nat.div_lt; lia]. }
  replace (Z.of_nat (length scores / 2) - 1)%Z
    with (Z.of_nat (length scores / 2 - 1)) by lia.
  rewrite !arrayAt_nth by (rewrite sortAscending_length; lia).
  reflexivity.
Qed.

Lemma sqrt_between (x lo hi : R) :
  (0 <= lo)%R -> (0 <= hi)%R -> (lo * lo < x < hi * hi)%R ->
  (lo < sqrt x < hi)%R.
Proof.
  intros Hlo Hhi [L U].
  assert (Hx : (0 <= x)%R) by nra.
  split; [now apply sqrt_lt_iff|].
  destruct (Rlt_le_dec (sqrt x) hi) as [?|G]; [assumption|].
  pose proof (sqrt_sqrt x Hx). nra.
Qed.

(** The standard deviation of the five scores of P4 is 17.08 to two
    decimals (the variance is 1458/5 = 291.6). *)
Lemma standardDeviation_P4 :
  rBetween (standardDeviationOf scoresP4) (1707 # 100) (1708 # 100).
Proof.
  unfold standardDeviationOf.
  remember (varianceOf scoresP4) as v eqn:E. vm_compute in E. subst v.
  unfold Math_sqrt.
  match goal with |- context [Qle_bool 0 ?q] =>
    replace (Qle_bool 0 q) with true by (vm_compute; reflexivity) end.
  unfold rBetween. apply sqrt_between; unfold Q2R; simpl; lra.
Qed.




(** ** Facts about the order of binary64 numbers *)

Lemma SFcompare_swap (x y : spec_float) :
  SFcompare y x
  = match SFcompare x y with Some c => Some (CompOpp c) | None => None end.
Proof.
  destruct x as [sx|sx| |sx mx ex], y as [sy|sy| |sy my ey]; simpl;
    try reflexivity; try (destruct sx; reflexivity); try (destruct sy; reflexivity);
    try (destruct sx, sy; reflexivity).
  change (PosDef.Pos.compare_cont Eq my mx) with (Pos.compare my mx).
  change (PosDef.Pos.compare_cont Eq mx my) with (Pos.compare mx my).
  rewrite (Z.compare_antisym ex ey), (Pos.compare_antisym mx my).
  destruct sx, sy; try reflexivity;
    destruct (ex ?= ey)%Z; simpl; try reflexivity;
    destruct (mx ?= my)%positive; reflexivity.
Qed.

Lemma SFcompare_None (x y : spec_float) :
  SFcompare x y = None <-> x = S754_nan \/ y = S754_nan.
Proof.
  destruct x, y; simpl; split; intros H; try discriminate; auto;
    destruct H; discriminate.
Qed.

Lemma SFcompare_refl (x : spec_float) :
  x <> S754_nan -> SFcompare x x = Some Eq.
Proof.
  destruct x as [s|s| |s m e]; simpl; intros H; try congruence.
  - destruct s; reflexivity.
  - change (PosDef.Pos.compare_cont Eq m m) with (Pos.compare m m).
    rewrite Z.compare_refl, Pos.compare_refl. destruct s; reflexivity.
Qed.

Lemma SFleb_trans (x y z : spec_float) :
  SFleb x y = true -> SFleb y z = true -> SFleb x z = true.
Proof.
  unfold SFleb.
  destruct x as [sx|sx| |sx mx ex], y as [sy|sy| |sy my ey], z as [sz|sz| |sz mz ez];
    simpl; try discriminate; try reflexivity;
    try (destruct sx; simpl; try discriminate; try reflexivity);
    try (destruct sy; simpl; try discriminate; try reflexivity);
    try (destruct sz; simpl; try discriminate; try reflexivity);
  change (PosDef.Pos.compare_cont Eq) with Pos.compare;
  repeat match goal with
  | |- context [(?a ?= ?b)%Z] =>
      destruct (Z.compare_spec a b); simpl; try discriminate; try reflexivity
  | |- context [(?a ?= ?b)%positive] =>
      destruct (Pos.compare_spec a b); simpl; try discriminate; try reflexivity
  end; try lia; intros; try lia.
Qed.

(** Numbers that compare equal compare alike with every other number. *)
Lemma SFcompare_Eq_l (x y z : spec_float) :
  SFcompare x y = Some Eq -> SFcompare x z = SFcompare y z.
Proof.
  destruct x as [sx|sx| |sx mx ex], y as [sy|sy| |sy my ey]; simpl;
    try discriminate; try (destruct sx; discriminate);
    try (destruct sy; discriminate).
  - reflexivity.
  - destruct sx, sy; try discriminate; reflexivity.
  - change (PosDef.Pos.compare_cont Eq) with Pos.compare.
    destruct sx, sy; try discriminate;
      destruct (Z.compare_spec ex ey); try discriminate;
      destruct (Pos.compare_spec mx my); try discriminate; subst; reflexivity.
Qed.

Lemma float_is_nan_false (x : float) :
  PrimFloat.is_nan x = false <-> Prim2SF x <> S754_nan.
Proof.
  unfold PrimFloat.is_nan. rewrite FloatAxioms.eqb_spec. unfold SFeqb. split.
  - intros H E. rewrite E in H. discriminate.
  - intros H. now rewrite (SFcompare_refl _ H).
Qed.

Lemma float_is_nan_true (x : float) :
  PrimFloat.is_nan x = true <-> Prim2SF x = S754_nan.
Proof.
  pose proof (float_is_nan_false x) as F.
  destruct (PrimFloat.is_nan x); split; intros H;
    try reflexivity; try discriminate.
  - destruct (Prim2SF x); try reflexivity; exfalso;
      (assert (true = false) as C by (apply F; discriminate); discriminate).
  - exfalso. now apply (proj1 F).
Qed.

(** A comparison that holds compares numbers. *)
Lemma float_leb_numbers (x y : float) :
  (x <=? y)%float = true ->
  PrimFloat.is_nan x = false /\ PrimFloat.is_nan y = false.
Proof.
  rewrite FloatAxioms.leb_spec, !float_is_nan_false. unfold SFleb. intros H.
  split; intros E; rewrite E in H; [|destruct (Prim2SF x)]; discriminate.
Qed.

Lemma float_leb_refl (x : float) :
  PrimFloat.is_nan x = false -> (x <=? x)%float = true.
Proof.
  rewrite float_is_nan_false, FloatAxioms.leb_spec. unfold SFleb. intros H.
  now rewrite (SFcompare_refl _ H).
Qed.

Lemma float_leb_trans (x y z : float) :
  (x <=? y)%float = true -> (y <=? z)%float = true -> (x <=? z)%float = true.
Proof. rewrite !FloatAxioms.leb_spec. apply SFleb_trans. Qed.

(** Of two numbers, one is at most the other. *)
Lemma float_ltb_false_leb (x y : float) :
  PrimFloat.is_nan x = false -> PrimFloat.is_nan y = false ->
  (y <? x)%float = false -> (x <=? y)%float = true.
Proof.
  rewrite !float_is_nan_false, FloatAxioms.ltb_spec, FloatAxioms.leb_spec.
  unfold SFltb, SFleb.
  intros Hx Hy. rewrite (SFcompare_swap (Prim2SF x) (Prim2SF y)).
  destruct (SFcompare (Prim2SF x) (Prim2SF y)) as [[]|] eqn:E;
    try reflexivity; try discriminate.
  apply SFcompare_None in E. tauto.
Qed.

Lemma float_ltb_leb (x y : float) : (x <? y)%float = true -> (x <=? y)%float = true.
Proof.
  rewrite FloatAxioms.ltb_spec, FloatAxioms.leb_spec. unfold SFltb, SFleb.
  destruct (SFcompare _ _) as [[]|]; (reflexivity || discriminate).
Qed.

(** [x] is above [y] exactly when [x] is a number that is not at most
    [y], for a number [y]. *)
Lemma float_ltb_iff_not_leb (x y : float) :
  PrimFloat.is_nan y = false ->
  (y <? x)%float = true
  <-> PrimFloat.is_nan x = false /\ (x <=? y)%float = false.
Proof.
  rewrite !float_is_nan_false, FloatAxioms.ltb_spec, FloatAxioms.leb_spec.
  unfold SFltb, SFleb.
  intros Hy. rewrite (SFcompare_swap (Prim2SF x) (Prim2SF y)).
  destruct (SFcompare (Prim2SF x) (Prim2SF y)) as [[]|] eqn:E; simpl;
    split; try discriminate; try (intros [_ ?]; discriminate).
  - intros _. split; [|reflexivity]. intros N. rewrite N in E. discriminate.
  - reflexivity.
  - intros [Hx _]. apply SFcompare_None in E. tauto.
Qed.

Lemma float_eqb_leb (x y : float) : (x =? y)%float = true -> (x <=? y)%float = true.
Proof.
  rewrite FloatAxioms.eqb_spec, FloatAxioms.leb_spec. unfold SFeqb, SFleb.
  destruct (SFcompare _ _) as [[]|]; (reflexivity || discriminate).
Qed.

Lemma float_eqb_sym (x y : float) : (x =? y)%float = (y =? x)%float.
Proof.
  rewrite !FloatAxioms.eqb_spec. unfold SFeqb.
  rewrite (SFcompare_swap (Prim2SF x) (Prim2SF y)).
  destruct (SFcompare (Prim2SF x) (Prim2SF y)) as [[]|]; reflexivity.
Qed.

Lemma float_eqb_refl (x : float) :
  PrimFloat.is_nan x = false -> (x =? x)%float = true.
Proof. unfold PrimFloat.is_nan. now destruct (x =? x)%float. Qed.

Lemma float_leb_antisym (x y : float) :
  (x <=? y)%float = true -> (y <=? x)%float = true -> (x =? y)%float = true.
Proof.
  rewrite !FloatAxioms.leb_spec, FloatAxioms.eqb_spec. unfold SFleb, SFeqb.
  rewrite (SFcompare_swap (Prim2SF x) (Prim2SF y)).
  destruct (SFcompare (Prim2SF x) (Prim2SF y)) as [[]|]; simpl;
    (reflexivity || discriminate).
Qed.

Lemma float_leb_not_eqb_ltb (x y : float) :
  (x <=? y)%float = true -> (x =? y)%float = false -> (x <? y)%float = true.
Proof.
  rewrite FloatAxioms.leb_spec, FloatAxioms.eqb_spec, FloatAxioms.ltb_spec.
  unfold SFleb, SFeqb, SFltb.
  destruct (SFcompare _ _) as [[]|]; (reflexivity || discriminate).
Qed.

(** Equal numbers compare alike with a third. *)
Lemma float_eqb_ltb_l (x y z : float) :
  (x =? y)%float = true -> (x <? z)%float = (y <? z)%float.
Proof.
  rewrite FloatAxioms.eqb_spec, !FloatAxioms.ltb_spec. unfold SFeqb, SFltb. intros H.
  destruct (SFcompare (Prim2SF x) (Prim2SF y)) as [[]|] eqn:E; try discriminate.
  now rewrite (SFcompare_Eq_l _ _ (Prim2SF z) E).
Qed.

Lemma float_eqb_leb_l (x y z : float) :
  (x =? y)%float = true -> (x <=? z)%float = (y <=? z)%float.
Proof.
  rewrite FloatAxioms.eqb_spec, !FloatAxioms.leb_spec. unfold SFeqb, SFleb. intros H.
  destruct (SFcompare (Prim2SF x) (Prim2SF y)) as [[]|] eqn:E; try discriminate.
  now rewrite (SFcompare_Eq_l _ _ (Prim2SF z) E).
Qed.

Lemma float_eqb_nan_r (x y : float) :
  PrimFloat.is_nan y = true -> (x =? y)%float = false.
Proof.
  rewrite float_is_nan_true, FloatAxioms.eqb_spec. unfold SFeqb. intros ->.
  now destruct (Prim2SF x).
Qed.

Lemma float_leb_infinity (x : float) :
  PrimFloat.is_nan x = false -> (x <=? PrimFloat.infinity)%float = true.
Proof.
  rewrite float_is_nan_false, FloatAxioms.leb_spec. unfold SFleb.
  change (Prim2SF PrimFloat.infinity) with (S754_infinity false).
  destruct (Prim2SF x) as [s|s| |s m e]; simpl; try congruence;
    destruct s; reflexivity.
Qed.

(** ** Confidence label *)

Lemma rAbove_sqrt (v c : Q) :
  (0 <= c)%Q -> (c * c < v)%Q -> rAbove (Math_sqrt (Num v)) c.
Proof.
  intros Hc Hv. unfold Math_sqrt, rAbove.
  assert (Pv : (0 <= v)%Q).
  { apply Qle_trans with (c * c)%Q; [|now apply Qlt_le_weak].
    apply Qmult_le_0_compat; assumption. }
  apply Qle_bool_iff in Pv as Bv. rewrite Bv.
  pose proof (Qle_Rle _ _ Pv) as Rv. pose proof (Qle_Rle _ _ Hc) as Rc.
  replace (Q2R 0) with 0%R in Rv, Rc by (unfold Q2R; simpl; lra).
  apply (sqrt_lt_iff (Q2R v) (Q2R c) Rv Rc).
  rewrite <- Q2R_mult. now apply Qlt_Rlt.
Qed.

(** C8 as stated fails at the boundary.  The scores 0.4 and 10.4 are the
    binary64 numbers [boundaryValues]; their population standard deviation
    is above 5, which is Medium by the rule of the claim, yet the code
    computes 5 and both paths say High. *)
Theorem confidence_label_not_of_exact_deviation :
  map Binary64.exactValue boundaryScores = map Some boundaryValues /\
  rAbove (standardDeviationOf boundaryValues) 5 /\
  confidenceLevelOf (standardDeviationOf boundaryValues) = "Medium" /\
  Binary64.standardDeviationOf boundaryScores = 5%float /\
  Binary64.confidenceLevelOf (Binary64.standardDeviationOf boundaryScores) = "High" /\
  Binary64.calculateConfidenceLevel boundaryScores = "High".
Proof.
  split; [vm_compute; reflexivity|].
  split.
  { unfold standardDeviationOf.
    remember (varianceOf boundaryValues) as v eqn:E. vm_compute in E. subst v.
    apply rAbove_sqrt; [discriminate | vm_compute; reflexivity]. }
  split.
  { unfold standardDeviationOf. rewrite confidenceLevelOf_variance.
    vm_compute. reflexivity. }
  repeat split; vm_compute; reflexivity.
Qed.

(** C8, amended: the label is High exactly when the standard deviation
    that the code computes, in binary64, is at most 5, Medium exactly when
    it is above 5 and at most 15, Low otherwise (also when it is [NaN]);
    the summary panel computes the same label from the same scores. *)
Theorem confidence_thresholds (scores : list float) :
  let sd := Binary64.standardDeviationOf scores in
  let label := Binary64.confidenceLevelOf sd in
  (label = "High" <-> (sd <=? 5)%float = true) /\
  (label = "Medium" <-> (5 <? sd)%float = true /\ (sd <=? 15)%float = true) /\
  (label = "Low" <->
   (sd <=? 5)%float <> true /\
   ~ ((5 <? sd)%float = true /\ (sd <=? 15)%float = true)) /\
  Binary64.calculateConfidenceLevel scores = label.
Proof.
  cbv zeta. set (sd := Binary64.standardDeviationOf scores).
  assert (Five : PrimFloat.is_nan 5%float = false) by reflexivity.
  pose proof (float_ltb_iff_not_leb sd 5%float Five) as Above.
  unfold Binary64.confidenceLevelOf.
  split; [|split; [|split]].
  - destruct (sd <=? 5)%float; [tauto|].
    destruct (sd <=? 15)%float; split; discriminate.
  - destruct (sd <=? 5)%float eqn:A.
    + split; [discriminate|]. intros [B _]. apply Above in B as [_ B]. discriminate.
    + destruct (sd <=? 15)%float eqn:B.
      * split; [|reflexivity]. intros _. split; [|reflexivity].
        apply Above. split; [|reflexivity].
        exact (proj1 (float_leb_numbers _ _ B)).
      * split; [discriminate|]. intros [_ C]. discriminate.
  - destruct (sd <=? 5)%float eqn:A.
    + split; [discriminate|]. intros [C _]. now contradiction C.
    + destruct (sd <=? 15)%float eqn:B.
      * split; [discriminate|]. intros [_ C]. exfalso. apply C.
        split; [|reflexivity]. apply Above. split; [|reflexivity].
        exact (proj1 (float_leb_numbers _ _ B)).
      * split; [|reflexivity]. intros _. split; [discriminate|].
        intros [_ C]. discriminate.
  - unfold sd, Binary64.calculateConfidenceLevel, Binary64.standardDeviationOf,
      Binary64.varianceOf, Binary64.meanOf.
    destruct scores as [|x l]; [vm_compute|]; reflexivity.
Qed.

(** ** Decision thresholds *)

Lemma Math_round_ge (q : Q) (z : Z) :
  (z <= Math_round q)%Z <-> (inject_Z z - (1 # 2) <= q)%Q.
Proof.
  unfold Math_round. split; intros H.
  - pose proof (Qfloor_le (q + (1 # 2))) as F.
    rewrite Zle_Qle in H. Lqa.lra.
  - rewrite <- (Qfloor_Z z). apply Qfloor_resp_le. Lqa.lra.
Qed.

Lemma Math_round_integer (z : Z) : Math_round (inject_Z z) = z.
Proof.
  apply Z.le_antisymm.
  - destruct (Z.le_gt_cases (Math_round (inject_Z z)) z) as [?|G]; [assumption|].
    assert (H : (z + 1 <= Math_round (inject_Z z))%Z) by lia.
    apply Math_round_ge in H. rewrite inject_Z_plus in H.
    change (inject_Z 1) with 1%Q in H. Lqa.lra.
  - apply Math_round_ge. Lqa.lra.
Qed.

Lemma Qle_bool_inject_Z (a b : Z) :
  Qle_bool (inject_Z a) (inject_Z b) = (a <=? b)%Z.
Proof. unfold Qle_bool; simpl. now rewrite !Z.mul_1_r. Qed.

(** The rendering path applies the table of the specification to the
    rounded median. *)
Lemma renderRecommendation_rounded (median : Q) :
  categoryOfLabel (renderRecommendation (Num median))
  = Some (specDecision (inject_Z (Math_round median))).
Proof.
  unfold renderRecommendation, renderedMedianScore, specDecision.
  change 80%Q with (inject_Z 80). change 50%Q with (inject_Z 50).
  change 30%Q with (inject_Z 30). rewrite !Qle_bool_inject_Z.
  destruct (Z.ltb_spec 80 (Math_round median));
    destruct (Z.leb_spec (Math_round median) 80); try lia; [reflexivity|].
  destruct (Z.leb_spec 50 (Math_round median)); [reflexivity|].
  destruct (Z.leb_spec 30 (Math_round median)); reflexivity.
Qed.

(** C1 as stated fails at the median 49.5 (scores 49 and 50): the
    specification's table says NotRecommended, the rendering path rounds to
    50 and says Proceed with Caution, the aggregation path says Do not
    proceed. *)
Lemma decision_table_fails_at_49_5 :
  isNum (medianOf [49; 50]%Q) (99 # 2) /\
  (0 <= 99 # 2 <= 100)%Q /\
  categoryOfLabel (renderRecommendation (Num (99 # 2)))
  <> Some (specDecision (99 # 2)) /\
  categoryOfLabel (decisionOf (Num (99 # 2)))
  <> Some (specDecision (99 # 2)) /\
  categoryOfLabel (renderRecommendation (Num (99 # 2)))
  <> categoryOfLabel (decisionOf (Num (99 # 2))).
Proof.
  split; [vm_compute; reflexivity|].
  split; [split; unfold Qle; simpl; lia|].
  repeat split; vm_compute; discriminate.
Qed.

Ltac band Int :=
  repeat split; intros;
  repeat match goal with H : _ /\ _ |- _ => destruct H end;
  try discriminate; try reflexivity; try split; try assumption;
  try Lqa.lra; try (exfalso; Lqa.lra); try apply Int.

(** C1, amended: the rendering path derives the category from the median
    rounded to the nearest integer, with the bands of the specification
    applied to the rounded value; on the median itself the bands start at
    80.5, 49.5 and 29.5; on an integer median the category is the stated
    one. *)
Theorem rendered_decision_bands (median : Q) :
  let category := categoryOfLabel (renderRecommendation (Num median)) in
  category = Some (specDecision (inject_Z (Math_round median))) /\
  (category = Some Proceed <-> (161 # 2 <= median)%Q) /\
  (category = Some ProceedWithCaution
   <-> (99 # 2 <= median)%Q /\ (median < 161 # 2)%Q) /\
  (category = Some NotRecommended
   <-> (59 # 2 <= median)%Q /\ (median < 99 # 2)%Q) /\
  (category = Some DoNotProceed <-> (median < 59 # 2)%Q) /\
  (forall z : Z,
      categoryOfLabel (renderRecommendation (Num (inject_Z z)))
      = Some (specDecision (inject_Z z))).
Proof.
  cbv zeta. split; [apply renderRecommendation_rounded|].
  assert (forall z : Z,
             categoryOfLabel (renderRecommendation (Num (inject_Z z)))
             = Some (specDecision (inject_Z z))) as Int.
  { intros z. rewrite renderRecommendation_rounded.
    now rewrite Math_round_integer. }
  pose proof (Math_round_ge median 81) as B81.
  pose proof (Math_round_ge median 50) as B50.
  pose proof (Math_round_ge median 30) as B30.
  assert (E81 : (inject_Z 81 - (1 # 2) == 161 # 2)%Q) by reflexivity.
  assert (E50 : (inject_Z 50 - (1 # 2) == 99 # 2)%Q) by reflexivity.
  assert (E30 : (inject_Z 30 - (1 # 2) == 59 # 2)%Q) by reflexivity.
  rewrite E81 in B81. rewrite E50 in B50. rewrite E30 in B30.
  unfold renderRecommendation, renderedMedianScore.
  destruct (Z.ltb_spec 80 (Math_round median)) as [A|A].
  { assert (161 # 2 <= median)%Q by (apply B81; lia). band Int. }
  assert (median < 161 # 2)%Q
    by (apply Qnot_le_lt; intros C; apply B81 in C; lia).
  destruct (Z.leb_spec 50 (Math_round median)) as [B|B].
  { assert (99 # 2 <= median)%Q by (apply B50; lia). band Int. }
  assert (median < 99 # 2)%Q
    by (apply Qnot_le_lt; intros C; apply B50 in C; lia).
  destruct (Z.leb_spec 30 (Math_round median)) as [C|C].
  { assert (59 # 2 <= median)%Q by (apply B30; lia). band Int. }
  assert (median < 59 # 2)%Q
    by (apply Qnot_le_lt; intros D; apply B30 in D; lia).
  band Int.
Qed.

(** ** Facts about asynchronous code *)

Lemma returnsWith_ret {A : Type} (a : A) (post : A -> Prop) :
  post a -> returnsWith (ret a) post.
Proof. intros H w. exists a, w. now split. Qed.

Lemma returnsWith_bind {A B : Type} (m : Async A) (k : A -> Async B)
    (mid : A -> Prop) (post : B -> Prop) :
  returnsWith m mid ->
  (forall a, mid a -> returnsWith (k a) post) ->
  returnsWith (bind m k) post.
Proof.
  intros Hm Hk w. destruct (Hm w) as (a & w1 & E & Ha).
  destruct (Hk a Ha w1) as (b & w2 & E2 & Hb).
  exists b, w2. unfold bind. rewrite E. now split.
Qed.

Lemma returnsWith_weaken {A : Type} (m : Async A) (p q : A -> Prop) :
  returnsWith m p -> (forall a, p a -> q a) -> returnsWith m q.
Proof.
  intros Hm Hpq w. destruct (Hm w) as (a & w' & E & Ha).
  exists a, w'. split; [assumption | now apply Hpq].
Qed.

Lemma returnsWith_forEach {A S : Type} (inv : S -> Prop) (allowed : A -> Prop)
    (body : S -> A -> Async S) (items : list A) :
  (forall s a, inv s -> allowed a -> returnsWith (body s a) inv) ->
  Forall allowed items ->
  forall s, inv s -> returnsWith (forEach body items s) inv.
Proof.
  intros Hbody Hall. induction Hall as [|a items Ha _ IH]; intros s Hs; simpl.
  - now apply returnsWith_ret.
  - eapply returnsWith_bind; [now apply Hbody | exact IH].
Qed.

Lemma logs_ret {A : Type} (good : Invocation -> Prop) (a : A) : logs good (ret a).
Proof. intros w H. exact H. Qed.

Lemma logs_throw {A : Type} (good : Invocation -> Prop) (e : string) :
  logs good (@throw A e).
Proof. intros w H. exact H. Qed.

Lemma logs_bind {A B : Type} (good : Invocation -> Prop) (m : Async A) (k : A -> Async B) :
  logs good m -> (forall a, logs good (k a)) -> logs good (bind m k).
Proof.
  intros Hm Hk w H. specialize (Hm w H). unfold bind.
  destruct (m w) as [[a|e] w']; simpl in *; [now apply Hk | assumption].
Qed.

Lemma logs_tryCatch {A : Type} (good : Invocation -> Prop) (m : Async A)
    (handler : string -> Async A) :
  logs good m -> (forall e, logs good (handler e)) -> logs good (tryCatch m handler).
Proof.
  intros Hm Hh w H. specialize (Hm w H). unfold tryCatch.
  destruct (m w) as [[a|e] w']; simpl in *; [assumption | now apply Hh].
Qed.

Lemma logs_forEach {A S : Type} (good : Invocation -> Prop)
    (body : S -> A -> Async S) (items : list A) :
  (forall s a, logs good (body s a)) -> forall s, logs good (forEach body items s).
Proof.
  intros Hbody. induction items as [|a items IH]; intros s; simpl.
  - apply logs_ret.
  - apply logs_bind; [apply Hbody | exact IH].
Qed.

Lemma logs_performanceNow (good : Invocation -> Prop) (host : Host) :
  logs good (performanceNow host).
Proof. intros w H. exact H. Qed.

Lemma logs_readConfig (good : Invocation -> Prop)
    (configs : gmap string AgentConfig.t) (id property : string) :
  logs good (readConfig configs id property).
Proof.
  unfold readConfig. destruct (configs !! id); [apply logs_ret | apply logs_throw].
Qed.

Lemma logs_callGenerateContent (good : Invocation -> Prop) (host : Host)
    (agent : string) (req : Request.t) :
  good (mkInvocation agent req) -> logs good (callGenerateContent host agent req).
Proof.
  intros G w H. simpl. apply Forall_app. split; [assumption | now constructor].
Qed.

Ltac logs_step :=
  first
    [ apply logs_ret
    | apply logs_throw
    | apply logs_performanceNow
    | apply logs_readConfig
    | apply logs_bind; [|intros ?]
    | apply logs_tryCatch; [|intros ?]
    | apply logs_forEach; intros ? ? ].

(** ** The agent invoker *)

Lemma logs_runAgentQuery (good : Invocation -> Prop) (host : Host) (agent : string)
    (config : AgentConfig.t) (prompt : string) (useGoogleSearch : bool)
    (seed : option Z) (temperature : option Q) :
  (forall req,
      Request.tools req = (if useGoogleSearch then [googleSearch] else []) ->
      good (mkInvocation agent req)) ->
  logs good (runAgentQuery host agent config prompt useGoogleSearch seed temperature).
Proof.
  intros G. unfold runAgentQuery.
  destruct (GEMINI_API_KEY host); simpl; [|apply logs_ret].
  apply logs_bind.
  - apply logs_callGenerateContent, G. reflexivity.
  - intros [response|]; apply logs_ret.
Qed.

Lemma logs_runAgent (good : Invocation -> Prop) (host : Host) (agentId : string)
    (configs : option (gmap string AgentConfig.t)) (dynamicPrompt : option string)
    (useGoogleSearch : bool) (seed : option Z) (temperature : option Q) :
  (forall req,
      Request.tools req = (if useGoogleSearch then [googleSearch] else []) ->
      good (mkInvocation agentId req)) ->
  logs good (runAgent host agentId configs dynamicPrompt useGoogleSearch seed temperature).
Proof.
  intros G. unfold runAgent.
  destruct configs as [configs|]; [|apply logs_ret].
  destruct (configs !! agentId) as [config|]; [|apply logs_ret].
  apply logs_bind; [apply logs_performanceNow | intros startTime].
  apply logs_bind; [now apply logs_runAgentQuery | intros [result metadata]].
  apply logs_bind; [apply logs_performanceNow | intros endTime].
  apply logs_ret.
Qed.

Lemma runAgentQuery_returns (host : Host) (agent : string) (config : AgentConfig.t)
    (prompt : string) (useGoogleSearch : bool) (seed : option Z) (temperature : option Q) :
  returnsWith
    (runAgentQuery host agent config prompt useGoogleSearch seed temperature)
    (fun _ => True).
Proof.
  intros w. unfold runAgentQuery.
  destruct (GEMINI_API_KEY host); simpl.
  - unfold bind, callGenerateContent.
    destruct (generateContent host _ _); eexists; eexists; split; (reflexivity || exact I).
  - eexists; eexists; split; (reflexivity || exact I).
Qed.

(** The invoker returns in every case; with a configuration for the
    participant, the metrics it returns carry a search usage. *)
Lemma runAgent_returns (host : Host) (agentId : string)
    (configs : option (gmap string AgentConfig.t)) (dynamicPrompt : option string)
    (useGoogleSearch : bool) (seed : option Z) (temperature : option Q) :
  returnsWith
    (runAgent host agentId configs dynamicPrompt useGoogleSearch seed temperature)
    (fun _ => True).
Proof.
  unfold runAgent.
  destruct configs as [configs|]; [|now apply returnsWith_ret].
  destruct (configs !! agentId) as [config|]; [|now apply returnsWith_ret].
  eapply returnsWith_bind with (mid := fun _ => True).
  { intros w. eexists; eexists; split; (reflexivity || exact I). }
  intros startTime _.
  eapply returnsWith_bind; [apply runAgentQuery_returns|].
  intros [result metadata] _.
  eapply returnsWith_bind with (mid := fun _ => True).
  { intros w. eexists; eexists; split; (reflexivity || exact I). }
  intros endTime _. now apply returnsWith_ret.
Qed.




(** ** The record of an iteration *)

Lemma evaluationResultOf_syntax_error (host : Host) (i : nat) (content message : string) :
  JSON_parse host content = SyntaxError message ->
  evaluationResultOf host i content = parseFailure i message.
Proof. intros H. unfold evaluationResultOf. now rewrite H. Qed.

Lemma evaluationResultOf_object (host : Host) (i : nat) (content : string)
    (fields : list (string * jsval)) :
  JSON_parse host content = Parsed (JObj fields) ->
  evaluationResultOf host i content
  = mkEvaluationResult i (fieldOf fields "feasibilityScore")
      (fieldOf fields "rationale")
      (if truthy (fieldOf fields "keyFactors")
       then fieldOf fields "keyFactors" else JArr []).
Proof.
  intros H. unfold evaluationResultOf, evaluationOfParsed, getProperty, fieldOf.
  rewrite H.
  destruct (lookupField "feasibilityScore" fields);
    destruct (lookupField "rationale" fields);
    destruct (lookupField "keyFactors" fields); reflexivity.
Qed.

Lemma evaluationResultOf_iteration (host : Host) (i : nat) (content : string) :
  iteration (evaluationResultOf host i content) = i.
Proof.
  unfold evaluationResultOf, evaluationOfParsed.
  destruct (JSON_parse host content) as [v|m]; [|reflexivity].
  destruct (getProperty v "feasibilityScore");
    destruct (getProperty v "rationale");
    destruct (getProperty v "keyFactors"); reflexivity.
Qed.

(** C10: when the scoring output parses to an object whose [keyFactors] is
    absent or falsy, the record's [keyFactors] is the empty list, and
    [feasibilityScore] and [rationale] are the fields of the object as they
    are. *)
Theorem keyFactors_default_empty (host : Host) (iterationNumber : nat)
    (evaluationContent : string) (fields : list (string * jsval)) :
  JSON_parse host evaluationContent = Parsed (JObj fields) ->
  truthy (fieldOf fields "keyFactors") = false ->
  let result := evaluationResultOf host iterationNumber evaluationContent in
  keyFactors result = JArr [] /\
  feasibilityScore result = fieldOf fields "feasibilityScore" /\
  rationale result = fieldOf fields "rationale" /\
  iteration result = iterationNumber.
Proof.
  intros Hp Hf result. unfold result.
  rewrite (evaluationResultOf_object host iterationNumber evaluationContent fields Hp).
  simpl. rewrite Hf. repeat split.
Qed.

Lemma keyFactors_default_empty_witness :
  keyFactors (evaluationResultOf host150 3 answer150) = JArr [] /\
  feasibilityScore (evaluationResultOf host150 3 answer150) = JNum 150 /\
  rationale (evaluationResultOf host150 3 answer150) = JStr "Certain" /\
  iteration (evaluationResultOf host150 3 answer150) = 3%nat.
Proof.
  refine (keyFactors_default_empty host150 3 answer150
            [("feasibilityScore", JNum 150); ("rationale", JStr "Certain")] _ _).
  - vm_compute. reflexivity.
  - reflexivity.
Defined.

(** ** The iteration runner *)

Lemma finalAgent_not_expert : ~ In finalAgentId expertAgentIds.
Proof. simpl. intros [H|[H|[H|[]]]]; discriminate. Qed.

Lemma readConfig_returns (configs : gmap string AgentConfig.t) (id property : string) :
  is_Some (configs !! id) ->
  returnsWith (readConfig configs id property) (fun _ => True).
Proof.
  intros [config E]. unfold readConfig. rewrite E. now apply returnsWith_ret.
Qed.

Lemma trackExpertMetrics_returns (metrics : FrameworkMetrics) (id : string)
    (agentMetrics : AgentMetrics) :
  expertEntriesReady metrics -> In id expertAgentIds ->
  returnsWith (trackExpertMetrics metrics id agentMetrics) expertEntriesReady.
Proof.
  intros Ready Hid.
  assert (Hentry : is_Some (googleSearchUsage
                              match agentBreakdown metrics !! id with
                              | Some existing => existing
                              | None => freshExpertEntry
                              end)).
  { destruct (agentBreakdown metrics !! id) as [entry|] eqn:E.
    - now apply (Ready id entry).
    - now eexists. }
  unfold trackExpertMetrics.
  set (entry := match agentBreakdown metrics !! id with
                | Some existing => existing
                | None => freshExpertEntry
                end) in *.
  destruct Hentry as [current Ecur].
  destruct (googleSearchUsage agentMetrics) as [usage|]; rewrite ?Ecur;
    apply returnsWith_ret; intros id' entry' Hid' Hl; simpl in Hl;
    destruct (decide (id = id')) as [<-|Ne];
    try (rewrite lookup_insert_eq in Hl; injection Hl as <-; now eexists);
    rewrite lookup_insert_ne in Hl by assumption; now apply (Ready id' entry').
Qed.

Lemma trackFinalMetrics_ready (metrics : FrameworkMetrics) (evalMetrics : AgentMetrics) :
  expertEntriesReady metrics ->
  expertEntriesReady (trackFinalMetrics metrics evalMetrics).
Proof.
  intros Ready id entry Hid Hl. simpl in Hl.
  rewrite lookup_insert_ne in Hl.
  - now apply (Ready id entry).
  - intros <-. now apply finalAgent_not_expert.
Qed.

Section Iteration.

Variable host : Host.
Variable frameworkConfig : FrameworkConfig.t.
Variable context : string.
Variable configsForRun : gmap string AgentConfig.t.
Variable googleSearchEnabled : bool.
Hypothesis configured : participantsConfigured configsForRun.

Lemma expertSpeaks_returns (state : list UserChatMessage * FrameworkMetrics) (id : string) :
  expertEntriesReady (snd state) -> In id expertAgentIds ->
  returnsWith
    (expertSpeaks host frameworkConfig context configsForRun googleSearchEnabled state id)
    (fun state' => expertEntriesReady (snd state')).
Proof.
  destruct state as [history metrics]. cbn [snd]. intros Ready Hid.
  unfold expertSpeaks.
  eapply returnsWith_bind.
  { apply readConfig_returns, configured. now right. }
  intros agentConfig _.
  eapply returnsWith_bind; [apply runAgent_returns|].
  intros [content agentMetrics] _.
  eapply returnsWith_bind; [now apply trackExpertMetrics_returns|].
  intros metrics' Ready'. now apply returnsWith_ret.
Qed.

Lemma expertDiscussion_returns (metrics : FrameworkMetrics) :
  expertEntriesReady metrics ->
  returnsWith
    (expertDiscussion host frameworkConfig context configsForRun metrics googleSearchEnabled)
    (fun state => expertEntriesReady (snd state)).
Proof.
  intros Ready. unfold expertDiscussion.
  apply returnsWith_forEach with (allowed := fun _ => True); [| |exact Ready].
  - intros state turn Hs _.
    apply returnsWith_forEach with (allowed := fun id => In id expertAgentIds);
      [| |exact Hs].
    + intros s id Hr Hid. apply expertSpeaks_returns; assumption.
    + apply List.Forall_forall. auto.
  - apply List.Forall_forall. auto.
Qed.

(** An iteration returns; its record is the one its scoring output gives. *)
Lemma runSingleIteration_returns (metrics : FrameworkMetrics) (iterationNumber : nat) :
  expertEntriesReady metrics ->
  returnsWith
    (runSingleIteration host frameworkConfig context configsForRun metrics
       googleSearchEnabled iterationNumber)
    (fun r =>
       expertEntriesReady (snd r) /\
       evaluationResult (fst r)
       = evaluationResultOf host iterationNumber (evaluationContent (fst r))).
Proof.
  intros Ready. unfold runSingleIteration.
  eapply returnsWith_bind; [now apply expertDiscussion_returns|].
  intros [history metrics1] Ready1. simpl in Ready1.
  eapply returnsWith_bind.
  { apply readConfig_returns, configured. now left. }
  intros finalAgentConfig _.
  eapply returnsWith_bind; [apply runAgent_returns|].
  intros [content evalMetrics] _.
  apply returnsWith_ret. simpl. split; [|reflexivity].
  now apply trackFinalMetrics_ready.
Qed.

Lemma recordsOf_from (f : nat * string -> EvaluationResult) (outputs : list string)
    (content : string) (start : nat) :
  map f (combine (seq start (length (outputs ++ [content])%list))
           (outputs ++ [content])%list)
  = (map f (combine (seq start (length outputs)) outputs)
     ++ [f ((start + length outputs)%nat, content)])%list.
Proof.
  revert start. induction outputs as [|o outputs IH]; intros start; simpl.
  - now rewrite Nat.add_0_r.
  - rewrite IH. now rewrite Nat.add_succ_r.
Qed.

Lemma recordsOf_snoc (outputs : list string) (content : string) :
  recordsOf host (outputs ++ [content])%list
  = (recordsOf host outputs
     ++ [evaluationResultOf host (S (length outputs)) content])%list.
Proof. unfold recordsOf. now rewrite recordsOf_from. Qed.

Lemma completeIteration_returns (numberOfIterations n : nat) (state : LoopState) :
  loopInvariant host n state ->
  returnsWith
    (completeIteration host frameworkConfig context configsForRun
       googleSearchEnabled numberOfIterations state (S n))
    (loopInvariant host (S n)).
Proof.
  intros (Ready & Lo & Le & Rec). unfold completeIteration.
  eapply returnsWith_bind.
  { apply readConfig_returns, configured. now left. }
  intros _ _.
  eapply returnsWith_bind; [now apply runSingleIteration_returns|].
  intros [output metrics'] [Ready' Eval]. simpl in *.
  apply returnsWith_ret. unfold loopInvariant. simpl.
  repeat split.
  - exact Ready'.
  - rewrite length_app. simpl. lia.
  - rewrite length_app. simpl. lia.
  - rewrite map_app, recordsOf_snoc, Rec, Lo. simpl. now rewrite Eval.
Qed.

Lemma iterations_return (numberOfIterations : nat) :
  forall (len n : nat) (state : LoopState),
    loopInvariant host n state ->
    returnsWith
      (forEach
         (completeIteration host frameworkConfig context configsForRun
            googleSearchEnabled numberOfIterations)
         (seq (S n) len) state)
      (loopInvariant host (n + len)).
Proof.
  induction len as [|len IH]; intros n state Inv; simpl.
  - rewrite Nat.add_0_r. now apply returnsWith_ret.
  - eapply returnsWith_bind; [now apply completeIteration_returns|].
    intros state' Inv'. rewrite Nat.add_succ_r. now apply (IH (S n)).
Qed.

(** The run returns, with one record per configured iteration, each the
    record of its own scoring output. *)
Lemma runDiscussionAndDecision_returns (metrics : FrameworkMetrics) :
  expertEntriesReady metrics ->
  returnsWith
    (runDiscussionAndDecision host frameworkConfig context configsForRun metrics
       googleSearchEnabled)
    (fun out =>
       length (runEvaluations out) = FrameworkConfig.iterations frameworkConfig /\
       length (runScoringOutputs out) = FrameworkConfig.iterations frameworkConfig /\
       map evaluation (runEvaluations out) = recordsOf host (runScoringOutputs out) /\
       runFinalDecision out = aggregate (runEvaluations out)).
Proof.
  intros Ready. unfold runDiscussionAndDecision.
  eapply returnsWith_bind.
  { apply readConfig_returns, configured. now left. }
  intros _ _.
  eapply returnsWith_bind.
  { apply (iterations_return _ (FrameworkConfig.iterations frameworkConfig) 0).
    split; [exact Ready|]. split; [reflexivity|]. split; reflexivity. }
  intros final (_ & Lo & Le & Rec). simpl in *.
  apply returnsWith_ret. simpl. auto.
Qed.

End Iteration.

Lemma recordsOf_nth_from (f : nat * string -> EvaluationResult) (outputs : list string)
    (start k : nat) (content : string) :
  nth_error outputs k = Some content ->
  nth_error (map f (combine (seq start (length outputs)) outputs)) k
  = Some (f ((start + k)%nat, content)).
Proof.
  revert start k. induction outputs as [|o outputs IH]; intros start k H.
  - destruct k; discriminate.
  - destruct k as [|k]; simpl in *.
    + injection H as ->. now rewrite Nat.add_0_r.
    + rewrite (IH (S start) k H). now rewrite Nat.add_succ_r.
Qed.

(** The k-th record (from 0) is the record of the k-th scoring output, for
    iteration k + 1. *)
Lemma record_of_output (host : Host) (evaluations : list IterationRecord)
    (outputs : list string) (k : nat) (record : IterationRecord) (content : string) :
  map evaluation evaluations = recordsOf host outputs ->
  nth_error evaluations k = Some record ->
  nth_error outputs k = Some content ->
  evaluation record = evaluationResultOf host (S k) content.
Proof.
  intros Rec Hr Hc.
  apply (map_nth_error evaluation) in Hr. rewrite Rec in Hr.
  unfold recordsOf in Hr. rewrite (recordsOf_nth_from _ _ 1 k content Hc) in Hr.
  now injection Hr.
Qed.

Lemma emptyMetrics_ready : expertEntriesReady emptyMetrics.
Proof. intros id entry _ H. simpl in H. now rewrite lookup_empty in H. Qed.

Lemma demoConfigs_configured : participantsConfigured demoConfigs.
Proof.
  intros id [<-|[<-|[<-|[<-|[]]]]]; vm_compute; now eexists.
Qed.

(** ** One record per iteration *)

(** C2: with the participants configured, a run returns with exactly N
    iteration records, numbered 1 to N; a record whose scoring output fails
    to parse has score 50, a rationale that ends with the parse error, and
    the key factor "Parsing error occurred"; if every scoring output fails
    to parse, every record has score 50. *)
Theorem run_yields_one_record_per_iteration (host : Host)
    (frameworkConfig : FrameworkConfig.t) (context : string)
    (configsForRun : gmap string AgentConfig.t) (metrics : FrameworkMetrics)
    (googleSearchEnabled : bool) (w : World) :
  participantsConfigured configsForRun ->
  expertEntriesReady metrics ->
  exists out w',
    runDiscussionAndDecision host frameworkConfig context configsForRun metrics
      googleSearchEnabled w = (Returns out, w') /\
    length (runEvaluations out) = FrameworkConfig.iterations frameworkConfig /\
    length (runScoringOutputs out) = FrameworkConfig.iterations frameworkConfig /\
    (forall k record content,
        nth_error (runEvaluations out) k = Some record ->
        nth_error (runScoringOutputs out) k = Some content ->
        iteration (evaluation record) = S k /\
        forall message,
          JSON_parse host content = SyntaxError message ->
          feasibilityScore (evaluation record) = JNum 50 /\
          rationale (evaluation record)
          = JStr ("Evaluation " ++ showNat (S k) ++ " failed to parse: " ++ message) /\
          keyFactors (evaluation record) = JArr [JStr "Parsing error occurred"]) /\
    ((forall content,
         In content (runScoringOutputs out) ->
         exists message, JSON_parse host content = SyntaxError message) ->
     Forall (fun record => feasibilityScore (evaluation record) = JNum 50)
            (runEvaluations out)).
Proof.
  intros Conf Ready.
  destruct (runDiscussionAndDecision_returns host frameworkConfig context
              configsForRun googleSearchEnabled Conf metrics Ready w)
    as (out & w' & E & Le & Lo & Rec & _).
  exists out, w'. split; [exact E|]. split; [exact Le|]. split; [exact Lo|].
  split.
  - intros k record content Hr Hc.
    rewrite (record_of_output host _ _ k record content Rec Hr Hc).
    split; [apply evaluationResultOf_iteration|].
    intros message Hp.
    rewrite (evaluationResultOf_syntax_error host (S k) content message Hp).
    repeat split.
  - intros AllFail. apply List.Forall_forall. intros record Hin.
    destruct (In_nth_error _ _ Hin) as [k Hr].
    assert (Hk : (k < length (runScoringOutputs out))%nat).
    { rewrite Lo, <- Le. apply nth_error_Some. congruence. }
    destruct (nth_error (runScoringOutputs out) k) as [content|] eqn:Hc;
      [|apply nth_error_Some in Hk; contradiction].
    destruct (AllFail content (nth_error_In _ _ Hc)) as [message Hp].
    rewrite (record_of_output host _ _ k record content Rec Hr Hc).
    now rewrite (evaluationResultOf_syntax_error host (S k) content message Hp).
Qed.

Lemma run_yields_one_record_per_iteration_witness :
  exists out w',
    runDiscussionAndDecision failingHost (demoFramework 3) "The proposal."
      demoConfigs emptyMetrics true startOfRun = (Returns out, w') /\
    length (runEvaluations out) = 3%nat.
Proof.
  destruct (run_yields_one_record_per_iteration failingHost (demoFramework 3)
              "The proposal." demoConfigs emptyMetrics true startOfRun
              demoConfigs_configured emptyMetrics_ready)
    as (out & w' & E & Le & _).
  exists out, w'. split; [exact E | exact Le].
Defined.

(** A run in which every generation call fails, computed: three
    placeholders, and the decision that the aggregation draws from them. *)
Example failing_run_records :
  exists out w',
    runDiscussionAndDecision failingHost (demoFramework 3) "The proposal."
      demoConfigs emptyMetrics true startOfRun = (Returns out, w') /\
    map (fun record => (iteration (evaluation record),
                        feasibilityScore (evaluation record),
                        keyFactors (evaluation record)))
        (runEvaluations out)
    = [ (1%nat, JNum 50, JArr [JStr "Parsing error occurred"]);
        (2%nat, JNum 50, JArr [JStr "Parsing error occurred"]);
        (3%nat, JNum 50, JArr [JStr "Parsing error occurred"]) ] /\
    exists finalResult opinions,
      runFinalDecision out = Aggregated finalResult opinions /\
      decision finalResult = "Proceed with Caution" /\
      isNum (medianScore finalResult) 50.
Proof.
  eexists; eexists. split; [vm_compute; reflexivity|].
  split; [reflexivity|].
  eexists; eexists. split; [reflexivity|]. split; reflexivity.
Qed.

(** ** The stored score *)

(** C5 as stated fails: a scoring output that parses, with the score 150,
    is stored as it is. *)
Lemma score_150_is_stored :
  exists out w',
    runDiscussionAndDecision host150 (demoFramework 1) "The proposal."
      demoConfigs emptyMetrics false startOfRun = (Returns out, w') /\
    map (fun record => feasibilityScore (evaluation record)) (runEvaluations out)
    = [JNum 150] /\
    ~ scoreInRange (JNum 150).
Proof.
  eexists; eexists. split; [vm_compute; reflexivity|].
  split; [reflexivity|].
  intros [_ H]. revert H. apply Qlt_not_le. reflexivity.
Qed.

(** C5, amended: the score of a record is 50, which is in range, when the
    scoring output does not parse or parses to null; otherwise it is the
    [feasibilityScore] of the parsed value as it is, [undefined] when there
    is none: no range is enforced. *)
Theorem stored_score_is_parsed_score (host : Host)
    (frameworkConfig : FrameworkConfig.t) (context : string)
    (configsForRun : gmap string AgentConfig.t) (metrics : FrameworkMetrics)
    (googleSearchEnabled : bool) (w : World) :
  participantsConfigured configsForRun ->
  expertEntriesReady metrics ->
  scoreInRange (JNum 50) /\
  exists out w',
    runDiscussionAndDecision host frameworkConfig context configsForRun metrics
      googleSearchEnabled w = (Returns out, w') /\
    forall k record content,
      nth_error (runEvaluations out) k = Some record ->
      nth_error (runScoringOutputs out) k = Some content ->
      feasibilityScore (evaluation record)
      = match JSON_parse host content with
        | SyntaxError _ => JNum 50
        | Parsed JNull => JNum 50
        | Parsed JUndefined => JNum 50
        | Parsed (JObj fields) => fieldOf fields "feasibilityScore"
        | Parsed _ => JUndefined
        end.
Proof.
  intros Conf Ready. split.
  { split; unfold Qle; simpl; lia. }
  destruct (runDiscussionAndDecision_returns host frameworkConfig context
              configsForRun googleSearchEnabled Conf metrics Ready w)
    as (out & w' & E & _ & _ & Rec & _).
  exists out, w'. split; [exact E|].
  intros k record content Hr Hc.
  rewrite (record_of_output host _ _ k record content Rec Hr Hc).
  unfold evaluationResultOf.
  destruct (JSON_parse host content) as [v|message] eqn:Hp; [|reflexivity].
  destruct v; try reflexivity.
  unfold evaluationOfParsed, getProperty, fieldOf.
  destruct (lookupField "feasibilityScore" fields);
    destruct (lookupField "rationale" fields);
    destruct (lookupField "keyFactors" fields); reflexivity.
Qed.

Lemma stored_score_is_parsed_score_witness :
  exists out w',
    runDiscussionAndDecision host150 (demoFramework 1) "The proposal."
      demoConfigs emptyMetrics false startOfRun = (Returns out, w') /\
    forall k record content,
      nth_error (runEvaluations out) k = Some record ->
      nth_error (runScoringOutputs out) k = Some content ->
      feasibilityScore (evaluation record)
      = match JSON_parse host150 content with
        | SyntaxError _ => JNum 50
        | Parsed JNull => JNum 50
        | Parsed JUndefined => JNum 50
        | Parsed (JObj fields) => fieldOf fields "feasibilityScore"
        | Parsed _ => JUndefined
        end.
Proof.
  exact (proj2 (stored_score_is_parsed_score host150 (demoFramework 1)
                  "The proposal." demoConfigs emptyMetrics false startOfRun
                  demoConfigs_configured emptyMetrics_ready)).
Defined.

(** ** Web search *)

Lemma searchPolicy_of_call (enabled useGoogleSearch : bool) (agentId : string) :
  useGoogleSearch = enabled && isExpert agentId ->
  forall req,
    Request.tools req = (if useGoogleSearch then [googleSearch] else []) ->
    searchPolicy enabled (mkInvocation agentId req).
Proof.
  intros -> req Ht. unfold searchPolicy, searchAttached. simpl. rewrite Ht.
  destruct enabled, (isExpert agentId); simpl; split;
    try (intros [? ?]); try (intros []); try discriminate; auto.
Qed.

Lemma logs_trackExpertMetrics (good : Invocation -> Prop) (metrics : FrameworkMetrics)
    (id : string) (agentMetrics : AgentMetrics) :
  logs good (trackExpertMetrics metrics id agentMetrics).
Proof.
  unfold trackExpertMetrics.
  destruct (googleSearchUsage agentMetrics); [|apply logs_ret].
  destruct (googleSearchUsage _); [apply logs_ret | apply logs_throw].
Qed.

Section SearchPolicy.

Variable host : Host.
Variable frameworkConfig : FrameworkConfig.t.
Variable configsForRun : gmap string AgentConfig.t.
Variable enabled : bool.

Lemma logs_unsearched_call (agentId : string) (dynamicPrompt : option string) :
  isExpert agentId = false ->
  logs (searchPolicy enabled)
    (runAgent host agentId (Some configsForRun) dynamicPrompt false
       (FrameworkConfig.seed frameworkConfig)
       (FrameworkConfig.temperature frameworkConfig)).
Proof.
  intros H. apply logs_runAgent. intros req Ht.
  apply (searchPolicy_of_call enabled false agentId); [|exact Ht].
  rewrite H. now rewrite andb_false_r.
Qed.

Lemma logs_expertSpeaks (context : string)
    (state : list UserChatMessage * FrameworkMetrics) (id : string) :
  logs (searchPolicy enabled)
    (expertSpeaks host frameworkConfig context configsForRun enabled state id).
Proof.
  destruct state as [history metrics]. unfold expertSpeaks.
  apply logs_bind; [apply logs_readConfig | intros agentConfig].
  apply logs_bind.
  { apply logs_runAgent. now apply searchPolicy_of_call. }
  intros [content agentMetrics].
  apply logs_bind; [apply logs_trackExpertMetrics | intros metrics'].
  apply logs_ret.
Qed.

Lemma logs_runSingleIteration (context : string) (metrics : FrameworkMetrics)
    (iterationNumber : nat) :
  logs (searchPolicy enabled)
    (runSingleIteration host frameworkConfig context configsForRun metrics
       enabled iterationNumber).
Proof.
  unfold runSingleIteration, expertDiscussion.
  apply logs_bind.
  { apply logs_forEach. intros state turn.
    apply logs_forEach. intros s id. apply logs_expertSpeaks. }
  intros [history metrics1].
  apply logs_bind; [apply logs_readConfig | intros finalAgentConfig].
  apply logs_bind; [now apply logs_unsearched_call | intros [content evalMetrics]].
  apply logs_ret.
Qed.

Lemma logs_runDiscussionAndDecision (context : string) (metrics : FrameworkMetrics) :
  logs (searchPolicy enabled)
    (runDiscussionAndDecision host frameworkConfig context configsForRun metrics enabled).
Proof.
  unfold runDiscussionAndDecision.
  apply logs_bind; [apply logs_readConfig | intros _].
  apply logs_bind; [|intros final; apply logs_ret].
  apply logs_forEach. intros state i. unfold completeIteration.
  apply logs_bind; [apply logs_readConfig | intros _].
  apply logs_bind; [apply logs_runSingleIteration | intros [output metrics']].
  apply logs_ret.
Qed.

Lemma logs_summarize (currentProposal : ProposalData) :
  logs (searchPolicy enabled)
    (summarize host frameworkConfig configsForRun currentProposal).
Proof.
  assert (S : forall content,
             logs (searchPolicy enabled)
               (bind (readConfig configsForRun summarizeAgentId "prompt")
                  (fun summarizeConfig =>
                     runAgent host summarizeAgentId (Some configsForRun)
                       (Some (truncatePromptIfNeeded
                                (replace "{url_content}" content
                                   (AgentConfig.prompt summarizeConfig))
                                MAX_CONTEXT_TOKENS))
                       false (FrameworkConfig.seed frameworkConfig)
                       (FrameworkConfig.temperature frameworkConfig)))).
  { intros content. apply logs_bind; [apply logs_readConfig | intros c].
    now apply logs_unsearched_call. }
  unfold summarize.
  destruct (negb _); apply logs_tryCatch; try (intros e; apply logs_ret).
  - destruct (fetch host _) as [ok status body|message]; [|apply logs_throw].
    destruct ok; [apply S | apply logs_throw].
  - apply S.
Qed.

Lemma logs_trackPerformance (finalMetrics : FrameworkMetrics) :
  logs (searchPolicy enabled)
    (trackPerformance host frameworkConfig configsForRun finalMetrics).
Proof.
  unfold trackPerformance.
  apply logs_tryCatch; [|intros e; apply logs_ret].
  apply logs_bind; [apply logs_readConfig | intros trackerConfig].
  apply logs_bind; [now apply logs_unsearched_call | intros [content m]].
  apply logs_ret.
Qed.

End SearchPolicy.

Lemma logs_runSimulation (host : Host) (frameworkConfig : FrameworkConfig.t)
    (originalAgentConfigs : option (gmap string AgentConfig.t))
    (useGoogleSearch : bool) (currentProposal : ProposalData) :
  logs (searchPolicy useGoogleSearch)
    (runSimulation host frameworkConfig originalAgentConfigs useGoogleSearch
       currentProposal).
Proof.
  unfold runSimulation.
  destruct originalAgentConfigs as [configsForRun|]; [|apply logs_ret].
  apply logs_bind.
  { unfold resetState. repeat logs_step. }
  intros _.
  apply logs_bind; [apply logs_performanceNow | intros startTime].
  apply logs_bind; [apply logs_readConfig | intros classificationConfig].
  apply logs_bind; [now apply logs_unsearched_call | intros [classContent classMetrics]].
  apply logs_bind; [apply logs_summarize | intros [summaryText summaryMetrics]].
  apply logs_bind; [apply logs_runDiscussionAndDecision | intros outcome].
  apply logs_bind; [apply logs_performanceNow | intros endTime].
  apply logs_bind; [apply logs_trackPerformance | intros tracking].
  apply logs_ret.
Qed.

Lemma named_participants_not_expert (id : string) :
  In id [classificationAgentId; summarizeAgentId; finalAgentId] ->
  isExpert id = false.
Proof. intros [<-|[<-|[<-|[]]]]; reflexivity. Qed.



(** The requests of that simulation, in order, with the tools attached. *)
Example simulation_requests :
  map (fun inv => (participant inv, Request.tools (request inv)))
      (requests
         (snd (runSimulation host150 (demoFramework 1) (Some demoConfigs)
                 true demoProposal startOfRun)))
  = [ (classificationAgentId, []);
      (summarizeAgentId, []);
      ("expert_1", [googleSearch]); ("expert_2", [googleSearch]);
      ("expert_3", [googleSearch]); ("expert_1", [googleSearch]);
      ("expert_2", [googleSearch]); ("expert_3", [googleSearch]);
      (finalAgentId, []);
      (trackerAgentId, []) ].
Proof. vm_compute. reflexivity. Qed.

(* ===================================================================== *)
(** * Part III: further properties of the code                            *)
(* ===================================================================== *)

(** ** Where the guard cuts *)

Lemma substringFrom_empty (n : nat) : substringFrom n EmptyString = EmptyString.
Proof. now destruct n. Qed.

Lemma substringFrom_plus (a b : nat) (s : string) :
  substringFrom (a + b) s = substringFrom b (substringFrom a s).
Proof.
  revert s; induction a as [|a IH]; intros s; simpl; [reflexivity|].
  destruct s as [|c s]; [now rewrite substringFrom_empty | apply IH].
Qed.

Lemma advanceToLineStart_shift (rest : string) (i : nat) :
  advanceToLineStart rest i = (i + advanceToLineStart rest 0)%nat.
Proof.
  revert i; induction rest as [|c rest IH]; intros i; simpl; [lia|].
  destruct (Ascii.eqb c LF); [lia|].
  rewrite (IH (S i)), (IH 1%nat). lia.
Qed.

Lemma advance_stops_at_line (rest : string) :
  startsAtLine (substringFrom (advanceToLineStart rest 0) rest).
Proof.
  induction rest as [|c rest IH]; simpl; [now left|].
  destruct (Ascii.eqb c LF) eqn:E.
  - apply Ascii.eqb_eq in E. subst c. right. now eexists.
  - rewrite advanceToLineStart_shift. exact IH.
Qed.

Lemma advance_skips_no_line_feed (rest : string) (j : nat) :
  (j < advanceToLineStart rest 0)%nat -> String.get j rest <> Some LF.
Proof.
  revert j; induction rest as [|c rest IH]; intros j; simpl; [lia|].
  destruct (Ascii.eqb c LF) eqn:E; [lia|].
  rewrite advanceToLineStart_shift. intros H.
  destruct j as [|j].
  - intros C. injection C as ->. now rewrite Ascii.eqb_refl in E.
  - apply IH. lia.
Qed.

Lemma get_substringFrom (n j : nat) (s : string) :
  String.get j (substringFrom n s) = String.get (n + j) s.
Proof.
  revert s; induction n as [|n IH]; intros s; simpl; [reflexivity|].
  destruct s as [|c s]; [now destruct j | apply IH].
Qed.

(** X1: over budget, the guard keeps a suffix of the prompt that starts no
    earlier than four characters per excess token, is empty or begins with a
    line feed, and starts at the first line feed from that offset on. *)
Theorem truncate_cuts_at_next_line (prompt : string) (maxTokens : nat) :
  (maxTokens < countTokens prompt)%nat ->
  let charsToRemove := ((countTokens prompt - maxTokens) * 4)%nat in
  exists splitIndex,
    truncatePromptIfNeeded prompt maxTokens
    = truncationMarker ++ substringFrom splitIndex prompt /\
    (charsToRemove <= splitIndex)%nat /\
    startsAtLine (substringFrom splitIndex prompt) /\
    (forall j, (charsToRemove <= j < splitIndex)%nat ->
               String.get j prompt <> Some LF).
Proof.
  intros Over charsToRemove. unfold truncatePromptIfNeeded.
  destruct (Nat.leb_spec (countTokens prompt) maxTokens) as [?|_]; [lia|].
  fold charsToRemove.
  set (rest := substringFrom charsToRemove prompt).
  exists (advanceToLineStart rest charsToRemove).
  rewrite (advanceToLineStart_shift rest charsToRemove).
  split; [reflexivity|]. split; [lia|]. split.
  - rewrite substringFrom_plus. apply advance_stops_at_line.
  - intros j [Lo Hi].
    replace j with (charsToRemove + (j - charsToRemove))%nat by lia.
    rewrite <- get_substringFrom. apply advance_skips_no_line_feed.
    fold rest. lia.
Qed.

Lemma truncate_cuts_at_next_line_witness :
  exists splitIndex,
    truncatePromptIfNeeded ("Proposal: fund" ++ newline ++ "the grant") 5
    = truncationMarker ++ substringFrom splitIndex ("Proposal: fund" ++ newline ++ "the grant") /\
    (4 <= splitIndex)%nat /\
    startsAtLine (substringFrom splitIndex ("Proposal: fund" ++ newline ++ "the grant")).
Proof.
  destruct (truncate_cuts_at_next_line ("Proposal: fund" ++ newline ++ "the grant") 5)
    as (splitIndex & E & Lo & Line & _).
  - vm_compute. lia.
  - exists splitIndex. split; [exact E|]. split; [exact Lo | exact Line].
Defined.

(** ** Where the two decision paths agree *)

Ltac decide_bands :=
  repeat match goal with
         | H : Qle_bool _ _ = true |- _ => apply Qle_bool_iff in H
         | H : Qle_bool _ _ = false |- _ => apply Qle_bool_false in H
         end.

(** X2: the label of the aggregation and the label of the rendering stand
    for the same category exactly when the median is at least 80.5, or from
    50 to below 70, or below 29.5. *)
Theorem decision_paths_agree_iff (m : Q) :
  categoryOfLabel (decisionOf (Num m))
  = categoryOfLabel (renderRecommendation (Num m))
  <-> (161 # 2 <= m)%Q \/ (50 <= m /\ m < 70)%Q \/ (m < 59 # 2)%Q.
Proof.
  pose proof (Math_round_ge m 81) as B81.
  pose proof (Math_round_ge m 50) as B50.
  pose proof (Math_round_ge m 30) as B30.
  assert (E81 : (inject_Z 81 - (1 # 2) == 161 # 2)%Q) by reflexivity.
  assert (E50 : (inject_Z 50 - (1 # 2) == 99 # 2)%Q) by reflexivity.
  assert (E30 : (inject_Z 30 - (1 # 2) == 59 # 2)%Q) by reflexivity.
  rewrite E81 in B81. rewrite E50 in B50. rewrite E30 in B30.
  unfold decisionOf, renderRecommendation, renderedMedianScore, nge, nle.
  destruct (Qle_bool 70 m) eqn:A70; destruct (Qle_bool 50 m) eqn:A50;
    decide_bands; try (exfalso; Lqa.lra);
    destruct (Z.ltb_spec 80 (Math_round m)) as [R80|R80];
    [ assert (161 # 2 <= m)%Q by (apply B81; lia)
    | assert (m < 161 # 2)%Q by (apply Qnot_le_lt; intros C; apply B81 in C; lia)
    | assert (161 # 2 <= m)%Q by (apply B81; lia)
    | assert (m < 161 # 2)%Q by (apply Qnot_le_lt; intros C; apply B81 in C; lia)
    | assert (161 # 2 <= m)%Q by (apply B81; lia)
    | assert (m < 161 # 2)%Q by (apply Qnot_le_lt; intros C; apply B81 in C; lia) ];
    try (exfalso; Lqa.lra);
    try (destruct (Z.leb_spec 50 (Math_round m)) as [R50|R50];
         [ assert (99 # 2 <= m)%Q by (apply B50; lia)
         | assert (m < 99 # 2)%Q by (apply Qnot_le_lt; intros C; apply B50 in C; lia) ];
         try (exfalso; Lqa.lra));
    try (destruct (Z.leb_spec 30 (Math_round m)) as [R30|R30];
         [ assert (59 # 2 <= m)%Q by (apply B30; lia)
         | assert (m < 59 # 2)%Q by (apply Qnot_le_lt; intros C; apply B30 in C; lia) ]);
    vm_compute categoryOfLabel;
    (split;
     [ intros E; try discriminate E;
       first [ left; Lqa.lra | right; left; split; Lqa.lra | right; right; Lqa.lra ]
     | intros [?|[[? ?]|?]]; try reflexivity; exfalso; Lqa.lra ]).
Qed.

(** ** The exact statistics of scores within a range *)

Lemma inject_Z_succ (n : nat) :
  (inject_Z (Z.of_nat (S n)) == inject_Z (Z.of_nat n) + 1)%Q.
Proof. rewrite Nat2Z.inj_succ. unfold Z.succ. now rewrite inject_Z_plus. Qed.

Lemma Qsum_bounds (l : list Q) (lo hi : Q) :
  Forall (fun x => (lo <= x)%Q /\ (x <= hi)%Q) l ->
  (inject_Z (Z.of_nat (length l)) * lo <= Qsum l)%Q /\
  (Qsum l <= inject_Z (Z.of_nat (length l)) * hi)%Q.
Proof.
  induction 1 as [|x l [Hlo Hhi] _ [IHlo IHhi]].
  - cbn [length Qsum]. change (inject_Z (Z.of_nat 0)) with 0%Q. split; Lqa.lra.
  - cbn [length Qsum]. rewrite inject_Z_succ. split; Lqa.lra.
Qed.

Lemma length_positive (scores : list Q) :
  scores <> [] -> (0 < inject_Z (Z.of_nat (length scores)))%Q.
Proof.
  intros NE. destruct scores; [congruence|].
  unfold Qlt. simpl. lia.
Qed.

Lemma Qdiv_bounds (x n lo hi : Q) :
  (0 < n)%Q -> (n * lo <= x)%Q -> (x <= n * hi)%Q ->
  (lo <= x / n)%Q /\ (x / n <= hi)%Q.
Proof.
  intros Hn Hlo Hhi. split.
  - apply Qle_shift_div_l; [assumption | Lqa.lra].
  - apply Qle_shift_div_r; [assumption | Lqa.lra].
Qed.

Lemma sorted_nth_in_range (scores : list Q) (lo hi : Q) (k : nat) :
  Forall (fun x => (lo <= x)%Q /\ (x <= hi)%Q) scores ->
  (k < length scores)%nat ->
  (lo <= nth k (sortAscending scores) 0)%Q /\
  (nth k (sortAscending scores) 0 <= hi)%Q.
Proof.
  intros Range Hk.
  assert (In (nth k (sortAscending scores) 0%Q) scores) as Hin.
  { apply (Permutation_in _ (sortAscending_perm scores)).
    apply nth_In. now rewrite sortAscending_length. }
  rewrite List.Forall_forall in Range. now apply Range.
Qed.

(** The exact mean, median and standard deviation of scores that all lie
    between [lo] and [hi]. *)
Lemma statistics_in_range (scores : list Q) (lo hi : Q) :
  scores <> [] ->
  Forall (fun x => (lo <= x)%Q /\ (x <= hi)%Q) scores ->
  exists (m med : Q) (r : R),
    meanOf scores = Num m /\ (lo <= m)%Q /\ (m <= hi)%Q /\
    medianOf scores = Num med /\ (lo <= med)%Q /\ (med <= hi)%Q /\
    standardDeviationOf scores = RNum r /\ (0 <= r <= Q2R (hi - lo))%R.
Proof.
  intros NE Range.
  pose proof (length_positive scores NE) as Pn.
  destruct (meanOf_nonempty scores NE) as (m & Hm & Em).
  destruct (varianceOf_nonempty scores m NE Hm) as (v & Hv & Ev & Pv).
  destruct (Qsum_bounds scores lo hi Range) as [Slo Shi].
  destruct (Qdiv_bounds _ _ lo hi Pn Slo Shi) as [Mlo Mhi].
  rewrite <- Em in Mlo, Mhi.
  assert (Med : exists med, medianOf scores = Num med /\ (lo <= med)%Q /\ (med <= hi)%Q).
  { assert (L2 : (length scores / 2 < length scores)%nat).
    { destruct scores; [congruence|]. apply Nat.div_lt; simpl; lia. }
    destruct (Nat.even (length scores)) eqn:Par.
    - rewrite (medianOf_even scores NE Par). eexists. split; [reflexivity|].
      destruct (sorted_nth_in_range scores lo hi (length scores / 2 - 1) Range)
        as [A1 A2]; [lia|].
      destruct (sorted_nth_in_range scores lo hi (length scores / 2) Range)
        as [B1 B2]; [lia|].
      split.
      + apply Qle_shift_div_l; [reflexivity | Lqa.lra].
      + apply Qle_shift_div_r; [reflexivity | Lqa.lra].
    - rewrite (medianOf_odd scores Par). eexists. split; [reflexivity|].
      now apply sorted_nth_in_range. }
  destruct Med as (med & Hmed & Dlo & Dhi).
  exists m, med, (sqrt (Q2R v)).
  repeat (split; [assumption|]).
  split.
  { unfold standardDeviationOf. rewrite Hv. unfold Math_sqrt.
    apply Qle_bool_iff in Pv. now rewrite Pv. }
  assert (Dpos : (0 <= hi - lo)%Q) by Lqa.lra.
  assert (Sq : Forall (fun y => (0 <= y)%Q /\ (y <= (hi - lo) * (hi - lo))%Q)
                 (map (fun x => (x - m) * (x - m))%Q scores)).
  { apply List.Forall_forall. intros y Hy. apply in_map_iff in Hy as (x & <- & Hx).
    rewrite List.Forall_forall in Range. destruct (Range x Hx) as [X1 X2].
    split; [apply Qsquare_nonneg | Lqa.nra]. }
  destruct (Qsum_bounds _ _ _ Sq) as [_ Vhi]. rewrite length_map in Vhi.
  assert (Vle : (v <= (hi - lo) * (hi - lo))%Q).
  { rewrite Ev. apply Qle_shift_div_r; [assumption | Lqa.lra]. }
  split; [apply sqrt_pos|].
  apply sqrt_le_iff.
  - replace 0%R with (Q2R 0) by (unfold Q2R; simpl; lra). now apply Qle_Rle.
  - replace 0%R with (Q2R 0) by (unfold Q2R; simpl; lra). now apply Qle_Rle.
  - rewrite <- Q2R_mult. now apply Qle_Rle.
Qed.

(** Scores that are all the same number. *)
Lemma statistics_unanimous (scores : list Q) (c : Q) :
  scores <> [] ->
  Forall (fun x => (x == c)%Q) scores ->
  exists m med : Q,
    meanOf scores = Num m /\ (m == c)%Q /\
    medianOf scores = Num med /\ (med == c)%Q /\
    standardDeviationOf scores = RNum 0.
Proof.
  intros NE All.
  assert (Range : Forall (fun x => (c <= x)%Q /\ (x <= c)%Q) scores).
  { eapply List.Forall_impl; [|exact All]. intros x E. simpl in E.
    rewrite E. split; apply Qle_refl. }
  destruct (statistics_in_range scores c c NE Range)
    as (m & med & r & Hm & M1 & M2 & Hmed & D1 & D2 & Hsd & R1 & R2).
  exists m, med. repeat split; try assumption.
  - now apply Qle_antisym.
  - now apply Qle_antisym.
  - rewrite Hsd. f_equal.
    assert (Q2R (c - c) = 0%R) as Z.
    { rewrite (Qeq_eqR (c - c) 0) by ring. unfold Q2R; simpl; lra. }
    lra.
Qed.

Lemma Qle_bool_wd (a x y : Q) : (x == y)%Q -> Qle_bool a x = Qle_bool a y.
Proof.
  intros E. destruct (Qle_bool a x) eqn:A; destruct (Qle_bool a y) eqn:B;
    try reflexivity.
  - apply Qle_bool_iff in A. apply Qle_bool_false in B. Lqa.lra.
  - apply Qle_bool_iff in B. apply Qle_bool_false in A. Lqa.lra.
Qed.

Lemma decisionOf_wd (x y : Q) : (x == y)%Q -> decisionOf (Num x) = decisionOf (Num y).
Proof.
  intros E. unfold decisionOf, nge, nle.
  now rewrite (Qle_bool_wd 70 x y E), (Qle_bool_wd 50 x y E).
Qed.

(** ** The representative assessment *)

Lemma findIndexFrom_found {A : Type} (p : A -> bool) (items : list A) (start : nat) :
  (exists x, In x items /\ p x = true) ->
  exists i, findIndexFrom p items start = Some i.
Proof.
  revert start; induction items as [|y rest IH]; intros start (x & Hin & Hp).
  - destruct Hin.
  - simpl. destruct (p y) eqn:E; [now eexists|].
    apply IH. exists x. split; [|assumption].
    destruct Hin as [->|?]; [congruence | assumption].
Qed.

Lemma findIndexFrom_first {A : Type} (p : A -> bool) (items : list A) (start i : nat) :
  findIndexFrom p items start = Some i ->
  (start <= i)%nat /\
  (exists x, nth_error items (i - start) = Some x /\ p x = true) /\
  (forall j y, (j < i - start)%nat -> nth_error items j = Some y -> p y = false).
Proof.
  revert start; induction items as [|y rest IH]; intros start H; [discriminate|].
  simpl in H. destruct (p y) eqn:E.
  - injection H as <-. rewrite Nat.sub_diag. split; [lia|]. split.
    + now exists y.
    + intros j z Hj. lia.
  - destruct (IH (S start) H) as (Le & (x & Hx & Px) & First).
    split; [lia|].
    replace (i - start)%nat with (S (i - S start)) by lia. split.
    + now exists x.
    + intros [|j] z Hj Hz; simpl in Hz.
      * now injection Hz as <-.
      * apply (First j z); [lia | assumption].
Qed.

Lemma calculateMedian_nonempty (scores : list Q) :
  scores <> [] -> calculateMedian scores = medianOf scores.
Proof. destruct scores; [congruence | reflexivity]. Qed.

Lemma medianOf_defined (scores : list Q) :
  scores <> [] -> exists med, medianOf scores = Num med.
Proof.
  intros NE. destruct (Nat.even (length scores)) eqn:Par.
  - rewrite (medianOf_even scores NE Par). now eexists.
  - rewrite (medianOf_odd scores Par). now eexists.
Qed.

Lemma lower_nan (lowest number : float) :
  PrimFloat.is_nan lowest = true \/ PrimFloat.is_nan number = true ->
  PrimFloat.is_nan (Binary64.lower lowest number) = true.
Proof.
  unfold Binary64.lower. intros [H|H]; rewrite H, ?orb_true_r; reflexivity.
Qed.

(** [Math.min] of a [NaN] is [NaN]. *)
Lemma fold_lower_nan (values : list float) (lowest : float) :
  PrimFloat.is_nan lowest = true \/ existsb PrimFloat.is_nan values = true ->
  PrimFloat.is_nan (fold_left Binary64.lower values lowest) = true.
Proof.
  revert lowest. induction values as [|v rest IH]; intros lowest H; simpl.
  - destruct H as [H|H]; [exact H | discriminate].
  - apply IH. simpl in H. destruct H as [H|H].
    + left. apply lower_nan. now left.
    + apply orb_true_iff in H as [H|H]; [|now right].
      left. apply lower_nan. now right.
Qed.

(** The lower of two numbers is one of them, and at most both. *)
Lemma lower_numbers (lowest number : float) :
  PrimFloat.is_nan lowest = false -> PrimFloat.is_nan number = false ->
  (Binary64.lower lowest number = lowest
   \/ Binary64.lower lowest number = number) /\
  (Binary64.lower lowest number <=? lowest)%float = true /\
  (Binary64.lower lowest number <=? number)%float = true.
Proof.
  intros Hl Hn. unfold Binary64.lower. rewrite Hl, Hn. cbn [orb].
  destruct (number <? lowest)%float eqn:L.
  - split; [now right|]. split; [now apply float_ltb_leb | now apply float_leb_refl].
  - pose proof (float_ltb_false_leb _ _ Hl Hn L) as Le.
    destruct (PrimFloat.is_zero number && PrimFloat.is_zero lowest
              && PrimFloat.get_sign number) eqn:Z.
    + split; [now right|]. split; [|now apply float_leb_refl].
      apply andb_true_iff in Z as [Z _]. apply andb_true_iff in Z as [Zn Zl].
      unfold PrimFloat.is_zero in Zn, Zl. apply float_eqb_leb.
      rewrite (float_eqb_sym lowest PrimFloat.zero) in Zl.
      pose proof (float_eqb_leb _ _ Zn) as A. pose proof (float_eqb_leb _ _ Zl) as B.
      rewrite (float_eqb_sym number PrimFloat.zero) in Zn.
      rewrite (float_eqb_sym PrimFloat.zero lowest) in Zl.
      pose proof (float_eqb_leb _ _ Zn) as C. pose proof (float_eqb_leb _ _ Zl) as D.
      apply float_leb_antisym; eapply float_leb_trans; eassumption.
    + split; [now left|]. split; [now apply float_leb_refl | exact Le].
Qed.

(** [Math.min] of numbers: a number that is at most the start and every
    value, and that is the start or one of the values. *)
Lemma fold_lower_least (values : list float) (lowest : float) :
  PrimFloat.is_nan lowest = false ->
  existsb PrimFloat.is_nan values = false ->
  let least := fold_left Binary64.lower values lowest in
  PrimFloat.is_nan least = false /\
  (least <=? lowest)%float = true /\
  Forall (fun v => (least <=? v)%float = true) values /\
  (least = lowest \/ In least values).
Proof.
  revert lowest. induction values as [|v rest IH]; intros lowest Hl Hv; cbn zeta.
  - simpl. split; [exact Hl|]. split; [now apply float_leb_refl|].
    split; [constructor | now left].
  - simpl in Hv. apply orb_false_iff in Hv as [Hv Hrest]. cbn [fold_left].
    destruct (lower_numbers lowest v Hl Hv) as (Which & Le1 & Le2).
    assert (Hn : PrimFloat.is_nan (Binary64.lower lowest v) = false).
    { destruct Which as [-> | ->]; assumption. }
    destruct (IH _ Hn Hrest) as (N & L & All & Is).
    split; [exact N|].
    split; [now apply float_leb_trans with (Binary64.lower lowest v)|].
    split.
    + constructor; [|exact All].
      now apply float_leb_trans with (Binary64.lower lowest v).
    + destruct Is as [Is|Is]; [|right; now right].
      rewrite Is. destruct Which as [-> | ->]; [now left | right; now left].
Qed.

(** [Math.min] of one number or more: at most every value and equal to one
    of them. *)
Lemma Math_min_least (values : list float) :
  values <> [] ->
  existsb PrimFloat.is_nan values = false ->
  Forall (fun v => (Binary64.Math_min values <=? v)%float = true) values /\
  exists v, In v values /\ (v =? Binary64.Math_min values)%float = true.
Proof.
  intros NE Hv. unfold Binary64.Math_min.
  destruct (fold_lower_least values PrimFloat.infinity eq_refl Hv)
    as (N & _ & All & Is).
  split; [exact All|].
  destruct Is as [Is|Is].
  - destruct values as [|v rest]; [congruence|].
    exists v. split; [now left|].
    pose proof (Forall_inv All) as Le.
    apply float_leb_antisym; [|exact Le].
    rewrite Is. apply float_leb_infinity.
    exact (proj2 (float_leb_numbers _ _ Le)).
  - eexists. split; [exact Is|]. now apply float_eqb_refl.
Qed.

Lemma findIndexFrom_none {A : Type} (p : A -> bool) (items : list A) (start : nat) :
  (forall x, In x items -> p x = false) -> findIndexFrom p items start = None.
Proof.
  revert start. induction items as [|x rest IH]; intros start H; [reflexivity|].
  simpl. rewrite (H x) by now left. apply IH. intros y Hy. apply H. now right.
Qed.

Lemma existsb_map {A B : Type} (f : A -> B) (p : B -> bool) (items : list A) :
  existsb p (map f items) = existsb (fun x => p (f x)) items.
Proof. induction items as [|x rest IH]; [reflexivity|]. simpl. now rewrite IH. Qed.

(** X4: the panel's representative is found by computed distances.  On one
    score or more, when every computed distance to the median is a number,
    the panel finds the first score whose computed distance is the least:
    no score has a smaller computed distance and every earlier score has a
    greater one.  When some computed distance is [NaN], which takes a
    score that is infinite or [NaN], it finds none. *)
Theorem representative_is_closest_to_median (scores : list float) :
  let medianScore := Binary64.calculateMedian scores in
  let distance := fun score => PrimFloat.abs (score - medianScore)%float in
  scores <> [] ->
  if existsb (fun score => PrimFloat.is_nan (distance score)) scores
  then Binary64.medianIndexOf scores = None
  else
    exists (i : nat) (score : float),
      Binary64.medianIndexOf scores = Some i /\
      nth_error scores i = Some score /\
      Forall (fun s => (distance score <=? distance s)%float = true) scores /\
      (forall j s, (j < i)%nat -> nth_error scores j = Some s ->
                   (distance score <? distance s)%float = true).
Proof.
  intros medianScore distance NE.
  unfold Binary64.medianIndexOf. fold medianScore.
  change (fun s => PrimFloat.abs (s - medianScore)%float) with distance.
  change (fun score =>
            (PrimFloat.abs (score - medianScore)
             =? Binary64.Math_min (map distance scores))%float)
    with (fun score =>
            (distance score =? Binary64.Math_min (map distance scores))%float).
  set (least := Binary64.Math_min (map distance scores)).
  destruct (existsb (fun score => PrimFloat.is_nan (distance score)) scores) eqn:Nan.
  - apply findIndexFrom_none. intros x _. apply float_eqb_nan_r.
    apply fold_lower_nan. right. now rewrite existsb_map.
  - rewrite <- existsb_map in Nan.
    destruct (Math_min_least (map distance scores)) as [All (d & Hd & Ed)];
      [destruct scores; [congruence | discriminate] | exact Nan |].
    fold least in All, Ed.
    apply in_map_iff in Hd as (s0 & <- & Hs0).
    destruct (findIndexFrom_found (fun score => (distance score =? least)%float)
                scores 0) as [i Hi].
    { now exists s0. }
    unfold findIndex. rewrite Hi.
    destruct (findIndexFrom_first _ _ _ _ Hi)
      as (_ & (score & Hscore & Pscore) & First).
    rewrite Nat.sub_0_r in Hscore, First. cbn beta in Pscore.
    assert (Least : forall s, In s scores -> (least <=? distance s)%float = true).
    { intros s Hs. rewrite List.Forall_forall in All. apply All.
      apply in_map_iff. now exists s. }
    exists i, score. repeat split; try assumption.
    + apply List.Forall_forall. intros s Hs.
      rewrite (float_eqb_leb_l _ _ _ Pscore). now apply Least.
    + intros j s Hj Hs.
      rewrite (float_eqb_ltb_l _ _ _ Pscore).
      pose proof (First j s Hj Hs) as F. cbn beta in F.
      pose proof (Least s (nth_error_In _ _ Hs)) as L.
      apply float_leb_not_eqb_ltb; [exact L|].
      now rewrite float_eqb_sym.
Qed.

Lemma representative_is_closest_to_median_witness :
  exists score : float,
    Binary64.medianIndexOf tiedScores = Some 1%nat /\
    nth_error tiedScores 1 = Some score /\
    Forall (fun s => (PrimFloat.abs (score - Binary64.calculateMedian tiedScores)
                      <=? PrimFloat.abs (s - Binary64.calculateMedian tiedScores))%float = true)
      tiedScores.
Proof.
  assert (NE : tiedScores <> []) by discriminate.
  pose proof (representative_is_closest_to_median tiedScores NE) as H.
  cbv beta zeta in H.
  match type of H with
  | if ?b then _ else _ => assert (N : b = false) by (vm_compute; reflexivity)
  end.
  rewrite N in H. destruct H as (i & score & Hi & Hs & All & _).
  assert (I : i = 1%nat).
  { assert (C : Binary64.medianIndexOf tiedScores = Some 1%nat)
      by (vm_compute; reflexivity).
    congruence. }
  subst i. exists score. repeat split; assumption.
Defined.

(** ** The model switch *)

(** X5: the model switch keeps the agents and every field but the model;
    an agent's model is Pro only for an expert with the switch on, and Flash
    otherwise; applying the switch twice is the same as applying the last
    one. *)
Theorem updateAgentModels_lookup (configs : gmap string AgentConfig.t) (usePro : bool) :
  (forall key,
      updateAgentModels configs usePro !! key
      = (fun config => withModel config (modelFor key usePro)) <$> configs !! key) /\
  (forall key config,
      updateAgentModels configs usePro !! key = Some config ->
      AgentConfig.model config
      = (if usePro && isExpert key then "gemini-2.5-pro" else "gemini-2.5-flash")) /\
  (forall before,
      updateAgentModels (updateAgentModels configs before) usePro
      = updateAgentModels configs usePro).
Proof.
  assert (L : forall (m : gmap string AgentConfig.t) b key,
             updateAgentModels m b !! key
             = (fun config => withModel config (modelFor key b)) <$> m !! key).
  { intros m b key. unfold updateAgentModels. rewrite map_lookup_imap.
    now destruct (m !! key). }
  split; [apply L|]. split.
  - intros key config H. rewrite L in H.
    destruct (configs !! key) as [c|]; [|discriminate].
    injection H as <-. simpl. unfold modelFor, isExpert.
    destruct usePro, (startsWith "expert_" key); reflexivity.
  - intros before. apply map_eq. intros key. rewrite !L.
    now destruct (configs !! key).
Qed.

(** ** The cleanup of a fenced JSON answer *)

Lemma append_cons (x : ascii) (a b : string) :
  String x a ++ b = String x (a ++ b).
Proof. reflexivity. Qed.

Lemma append_empty (b : string) : EmptyString ++ b = b.
Proof. reflexivity. Qed.

Lemma append_assoc (a b c : string) : (a ++ b) ++ c = a ++ (b ++ c).
Proof.
  induction a as [|x a IH]; rewrite ?append_empty, ?append_cons;
    [reflexivity | now rewrite IH].
Qed.

Lemma substringFrom_length_app (a b : string) :
  substringFrom (String.length a) (a ++ b) = b.
Proof.
  induction a as [|x a IH]; rewrite ?append_empty, ?append_cons; simpl;
    [reflexivity | exact IH].
Qed.

Lemma substring_prefix_app (a b : string) :
  String.substring 0 (String.length a) (a ++ b) = a.
Proof.
  induction a as [|x a IH]; rewrite ?append_empty, ?append_cons; simpl;
    [now destruct b | now rewrite IH].
Qed.

Lemma substring_skip_app (a b : string) (n : nat) :
  String.substring (String.length a) n (a ++ b) = String.substring 0 n b.
Proof.
  induction a as [|x a IH]; rewrite ?append_empty, ?append_cons; simpl;
    [reflexivity | exact IH].
Qed.

Lemma dropWhile_all (p : ascii -> bool) (a b : string) :
  allChars p a = true -> dropWhile p (a ++ b) = dropWhile p b.
Proof.
  induction a as [|x a IH]; rewrite ?append_empty, ?append_cons; simpl;
    [reflexivity|].
  intros H. apply andb_prop in H as [Hx Ha]. rewrite Hx. now apply IH.
Qed.

Lemma dropWhile_app_kept (p : ascii -> bool) (a b : string) :
  dropWhile p a <> EmptyString -> dropWhile p (a ++ b) = dropWhile p a ++ b.
Proof.
  induction a as [|x a IH]; rewrite ?append_empty, ?append_cons; simpl;
    [congruence|].
  destruct (p x); [exact IH | reflexivity].
Qed.

Lemma dropWhile_head (p : ascii -> bool) (s : string) (c : ascii) (rest : string) :
  dropWhile p s = String c rest -> p c = false.
Proof.
  induction s as [|x s IH]; simpl; [discriminate|].
  destruct (p x) eqn:E; [exact IH|]. intros H. injection H as -> _. exact E.
Qed.

Lemma trimEnd_whitespace (s : string) :
  allChars isWhitespace s = true -> trimEnd s = EmptyString.
Proof.
  induction s as [|x s IH]; simpl; [reflexivity|].
  intros H. apply andb_prop in H as [Hx Hs]. now rewrite (IH Hs), Hx.
Qed.

Lemma trimEnd_app_whitespace (a b : string) :
  allChars isWhitespace b = true -> trimEnd (a ++ b) = trimEnd a.
Proof.
  intros Hb. induction a as [|x a IH]; rewrite ?append_empty, ?append_cons; simpl.
  - now apply trimEnd_whitespace.
  - now rewrite IH.
Qed.

Lemma trimEnd_idempotent (s : string) : trimEnd (trimEnd s) = trimEnd s.
Proof.
  induction s as [|x s IH]; simpl; [reflexivity|].
  destruct (isWhitespace x && String.eqb (trimEnd s) EmptyString) eqn:E;
    [reflexivity|].
  simpl. now rewrite IH, E.
Qed.

Lemma trim_idempotent (s : string) : trim (trim s) = trim s.
Proof.
  unfold trim, trimStart.
  destruct (dropWhile isWhitespace s) as [|c rest] eqn:D; [reflexivity|].
  pose proof (dropWhile_head _ _ _ _ D) as Hc.
  assert (H : dropWhile isWhitespace (trimEnd (String c rest))
              = trimEnd (String c rest)).
  { simpl. rewrite Hc. simpl. now rewrite Hc. }
  rewrite H. apply trimEnd_idempotent.
Qed.

Lemma trim_app_line (body : string) :
  trim body <> EmptyString -> trim (body ++ newline) = trim body.
Proof.
  intros NE. unfold trim, trimStart in *.
  rewrite dropWhile_app_kept.
  - now apply trimEnd_app_whitespace.
  - intros E. rewrite E in NE. now apply NE.
Qed.

(** X6: a JSON answer wrapped in a code fence, with an optional tag of word
    characters on the opening line, is returned as its trimmed body. *)
Theorem stripJsonFence_unwraps (tag body : string) :
  allChars isWordChar tag = true ->
  trim body <> EmptyString ->
  stripJsonFence (fence ++ tag ++ newline ++ body ++ newline ++ fence) = trim body.
Proof.
  intros Tag NE.
  set (inner := tag ++ newline ++ body ++ newline).
  assert (E : fence ++ tag ++ newline ++ body ++ newline ++ fence
              = fence ++ inner ++ fence).
  { unfold inner. now rewrite !append_assoc. }
  rewrite E. unfold stripJsonFence.
  assert (Hs : startsWith fence (fence ++ inner ++ fence) = true).
  { unfold startsWith. apply String.prefix_correct, substring_prefix_app. }
  assert (He : endsWith fence (fence ++ inner ++ fence) = true).
  { unfold endsWith. rewrite <- append_assoc.
    rewrite length_append.
    replace (String.length (fence ++ inner) + String.length fence
             - String.length fence)%nat
      with (String.length (fence ++ inner)) by lia.
    rewrite substringFrom_length_app, String.eqb_refl, andb_true_r.
    apply Nat.leb_le. lia. }
  assert (Hl : (6 <=? String.length (fence ++ inner ++ fence))%nat = true).
  { apply Nat.leb_le. rewrite !length_append. simpl. lia. }
  rewrite Hs, He, Hl. simpl andb. cbv iota.
  assert (Hi : String.substring 3 (String.length (fence ++ inner ++ fence) - 6)
                 (fence ++ inner ++ fence) = inner).
  { rewrite !length_append.
    replace (String.length fence + (String.length inner + String.length fence) - 6)%nat
      with (String.length inner) by (simpl; lia).
    change 3%nat with (String.length fence).
    rewrite substring_skip_app. apply substring_prefix_app. }
  rewrite Hi. unfold inner.
  rewrite (dropWhile_all isWordChar tag _ Tag).
  change (dropWhile isWordChar (newline ++ body ++ newline))
    with (newline ++ body ++ newline).
  change (dropWhile isWhitespace (newline ++ body ++ newline))
    with (trimStart (body ++ newline)).
  fold (trim (body ++ newline)). rewrite (trim_app_line body NE).
  destruct (String.eqb_spec (trim body) EmptyString) as [C|_]; [contradiction|].
  apply trim_idempotent.
Qed.

Lemma stripJsonFence_unwraps_witness :
  stripJsonFence (fence ++ "json" ++ newline ++ answer150 ++ newline ++ fence)
  = trim answer150.
Proof.
  apply (stripJsonFence_unwraps "json" answer150).
  - reflexivity.
  - vm_compute. discriminate.
Defined.

(** ** What a run sends *)

Lemma bind_returns {A B : Type} (m : Async A) (k : A -> Async B) (w w1 : World) (a : A) :
  m w = (Returns a, w1) -> bind m k w = k a w1.
Proof. intros E. unfold bind. now rewrite E. Qed.

Lemma sentBy_app (host : Host) (calls1 calls2 : list Invocation) :
  sentBy host (calls1 ++ calls2) = (sentBy host calls1 ++ sentBy host calls2)%list.
Proof. unfold sentBy. now destruct (GEMINI_API_KEY host). Qed.

Lemma promptTokens_app (calls1 calls2 : list Invocation) :
  promptTokens (calls1 ++ calls2) = (promptTokens calls1 + promptTokens calls2)%nat.
Proof. unfold promptTokens. now rewrite map_app, list_sum_app. Qed.

Lemma advancesBy_refl (host : Host) (Inv : FrameworkMetrics -> Prop)
    (w : World) (metrics : FrameworkMetrics) :
  expertEntriesReady metrics -> Inv metrics -> advancesBy host Inv w metrics [] w metrics.
Proof.
  intros R I. unfold advancesBy, sentBy, promptTokens.
  destruct (GEMINI_API_KEY host); simpl; rewrite ?Nat.add_0_r, ?app_nil_r; auto.
Qed.

Lemma advancesBy_trans (host : Host) (Inv : FrameworkMetrics -> Prop)
    (w w1 w2 : World) (m m1 m2 : FrameworkMetrics) (calls1 calls2 : list Invocation) :
  advancesBy host Inv w m calls1 w1 m1 ->
  advancesBy host Inv w1 m1 calls2 w2 m2 ->
  advancesBy host Inv w m (calls1 ++ calls2) w2 m2.
Proof.
  intros (_ & _ & T1 & L1 & C1) (R2 & I2 & T2 & L2 & C2).
  unfold advancesBy. rewrite promptTokens_app, sentBy_app, length_app.
  repeat split; try assumption.
  - lia.
  - now rewrite L2, L1, app_assoc.
  - lia.
Qed.

Lemma truncate_nonempty (prompt : string) (maxTokens : nat) :
  prompt <> EmptyString -> truncatePromptIfNeeded prompt maxTokens <> EmptyString.
Proof.
  intros H. unfold truncatePromptIfNeeded.
  destruct (countTokens prompt <=? maxTokens)%nat; [exact H | discriminate].
Qed.

Lemma append_nonempty_r (s t : string) : t <> EmptyString -> (s ++ t) <> EmptyString.
Proof.
  intros H E. apply (f_equal String.length) in E. rewrite length_append in E.
  destruct t; [now apply H | simpl in E; lia].
Qed.

Lemma nonEmpty_some (s : string) : s <> EmptyString -> nonEmpty (Some s) = Some s.
Proof.
  intros H. unfold nonEmpty. destruct (String.eqb_spec s EmptyString); congruence.
Qed.

Lemma expertPromptOf_nonempty (context : string) (before : list UserChatMessage)
    (config : AgentConfig.t) :
  expertPromptOf context before config <> EmptyString.
Proof. apply truncate_nonempty. discriminate. Qed.

Lemma scoringPromptOf_nonempty (config : AgentConfig.t) (history : list UserChatMessage)
    (i : nat) :
  scoringPromptOf config history i <> EmptyString.
Proof. apply truncate_nonempty, append_nonempty_r. discriminate. Qed.

Lemma noSearch_fromService : usageFromService noSearch.
Proof. now repeat split. Qed.

Lemma searchMetadataOf_fromService (response : GenerateContentResponse) :
  usageFromService (searchMetadataOf response).
Proof.
  unfold searchMetadataOf. destruct (groundingMetadata response) as [metadata|].
  - split; [discriminate | now split].
  - apply noSearch_fromService.
Qed.

(** One call of the invoker for a configured participant: what it
    returns, the request it logs when the key is set, and the two clock
    readings. *)
Lemma runAgent_call (host : Host) (frameworkConfig : FrameworkConfig.t)
    (configs : gmap string AgentConfig.t) (agentId : string) (config : AgentConfig.t)
    (prompt : string) (useGoogleSearch : bool) (w : World) :
  configs !! agentId = Some config ->
  prompt <> EmptyString ->
  exists content elapsed usage w',
    runAgent host agentId (Some configs) (Some prompt) useGoogleSearch
      (FrameworkConfig.seed frameworkConfig)
      (FrameworkConfig.temperature frameworkConfig) w
    = (Returns (content,
                mkAgentMetrics elapsed
                  (mkTokenUsage (countTokens prompt) (countTokens content))
                  (Some usage)),
       w') /\
    requests w'
    = (requests w
       ++ sentBy host
            [mkInvocation agentId
               (requestOf frameworkConfig agentId config prompt useGoogleSearch)])%list /\
    clockReadings w' = S (S (clockReadings w)) /\
    usageFromService usage.
Proof.
  intros Hc Hp. unfold runAgent. rewrite Hc, (nonEmpty_some prompt Hp).
  unfold runAgentQuery, sentBy, requestOf.
  destruct (includes forceZeroTempAgents agentId);
    (destruct (GEMINI_API_KEY host); cbn [negb];
     [ unfold bind, performanceNow, callGenerateContent; cbn [requests clockReadings];
       match goal with
       | |- context [generateContent ?h ?n ?r] => destruct (generateContent h n r)
       end;
       do 4 eexists; (split; [reflexivity|]); (split; [reflexivity|]);
       (split; [reflexivity|]);
       auto using noSearch_fromService, searchMetadataOf_fromService
     | unfold bind, performanceNow, ret; cbn [requests clockReadings];
       do 4 eexists; split; [reflexivity|]; cbn [requests clockReadings];
       rewrite app_nil_r; auto using noSearch_fromService ]).
Qed.

Lemma trackExpertMetrics_world (metrics metrics' : FrameworkMetrics) (id : string)
    (agentMetrics : AgentMetrics) (w w' : World) :
  trackExpertMetrics metrics id agentMetrics w = (Returns metrics', w') ->
  w' = w /\
  totalInputTokens metrics'
  = (totalInputTokens metrics + inputTokens (tokenUsage agentMetrics))%nat /\
  totalOutputTokens metrics'
  = (totalOutputTokens metrics + outputTokens (tokenUsage agentMetrics))%nat /\
  totalDuration metrics' = totalDuration metrics.
Proof.
  unfold trackExpertMetrics.
  destruct (googleSearchUsage agentMetrics) as [usage|].
  - destruct (googleSearchUsage _) as [current|]; [|discriminate].
    intros E. injection E as <- <-. auto.
  - intros E. injection E as <- <-. auto.
Qed.

Lemma spokenCalls_app (frameworkConfig : FrameworkConfig.t) (context : string)
    (configs : gmap string AgentConfig.t) (enabled : bool)
    (speakers1 speakers2 : list string) (said1 said2 before : list UserChatMessage) :
  length said1 = length speakers1 ->
  spokenCalls frameworkConfig context configs enabled
    (speakers1 ++ speakers2) (said1 ++ said2) before
  = (spokenCalls frameworkConfig context configs enabled speakers1 said1 before
     ++ spokenCalls frameworkConfig context configs enabled speakers2 said2
          (before ++ said1))%list.
Proof.
  revert said1 before.
  induction speakers1 as [|id speakers1 IH]; intros [|m said1] before L;
    try discriminate; simpl.
  - now rewrite app_nil_r.
  - rewrite IH by (simpl in L; lia). now rewrite <- !app_assoc.
Qed.

Section RunTrace.

Variable host : Host.
Variable frameworkConfig : FrameworkConfig.t.
Variable context : string.
Variable configsForRun : gmap string AgentConfig.t.
Variable googleSearchEnabled : bool.
Variable Inv : FrameworkMetrics -> Prop.
Hypothesis configured : participantsConfigured configsForRun.
Hypothesis Inv_expert :
  forall metrics metrics' id agentMetrics w w',
    In id expertAgentIds -> Inv metrics -> metricsFromInvoker agentMetrics ->
    trackExpertMetrics metrics id agentMetrics w = (Returns metrics', w') ->
    Inv metrics'.
Hypothesis Inv_final :
  forall metrics evalMetrics, Inv metrics -> Inv (trackFinalMetrics metrics evalMetrics).


Lemma expertSpeaks_step (history : list UserChatMessage) (metrics : FrameworkMetrics)
    (id : string) (w : World) :
  expertEntriesReady metrics -> Inv metrics -> In id expertAgentIds ->
  exists m metrics' w',
    expertSpeaks host frameworkConfig context configsForRun googleSearchEnabled
      (history, metrics) id w
    = (Returns ((history ++ [m])%list, metrics'), w') /\
    agentId m = id /\
    agentMessage configsForRun m /\
    advancesBy host Inv w metrics
      (expertCall frameworkConfig context configsForRun googleSearchEnabled history id)
      w' metrics'.
Proof.
  intros Ready I Hid.
  destruct (configured id) as [config Hc]; [now right|].
  destruct (runAgent_call host frameworkConfig configsForRun id config
              (expertPromptOf context history config)
              (googleSearchEnabled && startsWith "expert_" id) w Hc
              (expertPromptOf_nonempty context history config))
    as (content & elapsed & usage & w1 & E & L & C & U).
  unfold expertPromptOf in E.
  set (agentMetrics := mkAgentMetrics elapsed _ (Some usage)) in E.
  destruct (trackExpertMetrics_returns metrics id agentMetrics Ready Hid w1)
    as (metrics' & w2 & E2 & Ready').
  destruct (trackExpertMetrics_world _ _ _ _ _ _ E2) as (-> & T & _).
  exists (mkUserChatMessage "agent" id (displayName (AgentConfig.name config)) content),
    metrics', w1.
  split.
  { unfold expertSpeaks, readConfig. rewrite Hc.
    rewrite (bind_returns _ _ w w config) by reflexivity.
    rewrite (bind_returns _ _ _ _ _ E). cbv beta iota.
    rewrite (bind_returns _ _ _ _ _ E2). reflexivity. }
  split; [reflexivity|]. split.
  { unfold agentMessage. cbn [msgType agentId agentName].
    split; [reflexivity|]. exists config. split; [exact Hc | reflexivity]. }
  unfold advancesBy, expertCall. rewrite Hc.
  split; [exact Ready'|]. split; [|].
  { refine (Inv_expert _ _ _ _ _ _ Hid I _ E2). now exists usage. }
  split.
  { rewrite T. unfold promptTokens, agentMetrics, requestOf, list_sum.
    cbn [map fold_right tokenUsage inputTokens request Request.contents].
    unfold expertPromptOf. lia. }
  split; [exact L|]. rewrite C. simpl. lia.
Qed.

Lemma speakers_step (speakers : list string) :
  Forall (fun id => In id expertAgentIds) speakers ->
  forall (history : list UserChatMessage) (metrics : FrameworkMetrics) (w : World),
    expertEntriesReady metrics -> Inv metrics ->
    exists said metrics' w',
      forEach
        (expertSpeaks host frameworkConfig context configsForRun googleSearchEnabled)
        speakers (history, metrics) w
      = (Returns ((history ++ said)%list, metrics'), w') /\
      map agentId said = speakers /\
      Forall (agentMessage configsForRun) said /\
      advancesBy host Inv w metrics (spokenCalls frameworkConfig context configsForRun googleSearchEnabled speakers said history) w' metrics'.
Proof.
  induction 1 as [|id speakers Hid _ IH]; intros history metrics w Ready I.
  - exists [], metrics, w. rewrite app_nil_r. split; [reflexivity|].
    split; [reflexivity|]. split; [constructor|]. now apply advancesBy_refl.
  - destruct (expertSpeaks_step history metrics id w Ready I Hid)
      as (m & metrics1 & w1 & E & Hm & Hmsg & A).
    destruct (IH (history ++ [m])%list metrics1 w1) as (said & metrics2 & w2 & E2 & Hs & Hall & A2).
    { apply A. } { apply A. }
    exists (m :: said), metrics2, w2. split.
    { cbn [forEach]. rewrite (bind_returns _ _ _ _ _ E), E2.
      now rewrite <- app_assoc. }
    split; [simpl; congruence|]. split; [now constructor|].
    cbn [spokenCalls]. eapply advancesBy_trans; eassumption.
Qed.

Lemma expertDiscussion_step (metrics : FrameworkMetrics) (w : World) :
  expertEntriesReady metrics -> Inv metrics ->
  exists history metrics' w',
    expertDiscussion host frameworkConfig context configsForRun metrics
      googleSearchEnabled w
    = (Returns (history, metrics'), w') /\
    transcriptOf configsForRun history /\
    advancesBy host Inv w metrics (spokenCalls frameworkConfig context configsForRun googleSearchEnabled (expertAgentIds ++ expertAgentIds) history []) w' metrics'.
Proof.
  intros Ready I.
  assert (Experts : Forall (fun id => In id expertAgentIds) expertAgentIds).
  { apply List.Forall_forall. auto. }
  destruct (speakers_step expertAgentIds Experts [] metrics w Ready I)
    as (said1 & metrics1 & w1 & E1 & S1 & M1 & A1).
  destruct (speakers_step expertAgentIds Experts ([] ++ said1)%list metrics1 w1)
    as (said2 & metrics2 & w2 & E2 & S2 & M2 & A2).
  { apply A1. } { apply A1. }
  exists (said1 ++ said2)%list, metrics2, w2. split.
  { unfold expertDiscussion. cbn [seq discussionTurns forEach].
    rewrite (bind_returns _ _ _ _ _ E1), (bind_returns _ _ _ _ _ E2). reflexivity. }
  split.
  { split; [now rewrite map_app, S1, S2 | now apply Forall_app]. }
  rewrite spokenCalls_app.
  - eapply advancesBy_trans; eassumption.
  - rewrite <- S1. now rewrite length_map.
Qed.

Lemma runSingleIteration_step (metrics : FrameworkMetrics) (iterationNumber : nat)
    (w : World) :
  expertEntriesReady metrics -> Inv metrics ->
  exists output metrics' w',
    runSingleIteration host frameworkConfig context configsForRun metrics
      googleSearchEnabled iterationNumber w
    = (Returns (output, metrics'), w') /\
    transcriptOf configsForRun (discussionHistory output) /\
    evaluationResult output
    = evaluationResultOf host iterationNumber (evaluationContent output) /\
    advancesBy host Inv w metrics
      (iterationCalls frameworkConfig context configsForRun googleSearchEnabled
         (discussionHistory output) iterationNumber)
      w' metrics'.
Proof.
  intros Ready I.
  destruct (expertDiscussion_step metrics w Ready I)
    as (history & metrics1 & w1 & E1 & Tr & A1).
  destruct (configured finalAgentId) as [config Hc]; [now left|].
  destruct (runAgent_call host frameworkConfig configsForRun finalAgentId config
              (scoringPromptOf config history iterationNumber) false w1 Hc
              (scoringPromptOf_nonempty config history iterationNumber))
    as (content & elapsed & usage & w2 & E2 & L & C & _).
  unfold scoringPromptOf in E2.
  set (evalMetrics := mkAgentMetrics elapsed _ (Some usage)) in E2.
  exists (mkIterationOutput history (evaluationResultOf host iterationNumber content) content),
    (trackFinalMetrics metrics1 evalMetrics), w2.
  split.
  { unfold runSingleIteration. rewrite (bind_returns _ _ _ _ _ E1). cbv beta iota.
    unfold readConfig. rewrite Hc.
    rewrite (bind_returns _ _ w1 w1 config) by reflexivity.
    rewrite (bind_returns _ _ _ _ _ E2). reflexivity. }
  split; [exact Tr|]. split; [reflexivity|].
  unfold iterationCalls. eapply advancesBy_trans; [exact A1|].
  unfold advancesBy, scoringCall. rewrite Hc. cbn [discussionHistory].
  split; [apply trackFinalMetrics_ready, A1|].
  split; [apply Inv_final, A1|].
  split.
  { unfold promptTokens, evalMetrics, requestOf, list_sum, trackFinalMetrics.
    cbn [map fold_right tokenUsage inputTokens request Request.contents
         totalInputTokens]. unfold scoringPromptOf. lia. }
  split; [exact L|]. rewrite C. simpl. lia.
Qed.

Lemma completeIteration_step (total : nat) (w0 : World) (metrics0 : FrameworkMetrics)
    (n : nat) (state : LoopState) (w : World) :
  (S n <= total)%nat ->
  runInvariant host Inv frameworkConfig context configsForRun googleSearchEnabled
    total w0 metrics0 n state w ->
  exists state' w',
    completeIteration host frameworkConfig context configsForRun googleSearchEnabled
      total state (S n) w
    = (Returns state', w') /\
    runInvariant host Inv frameworkConfig context configsForRun googleSearchEnabled
      total w0 metrics0 (S n) state' w'.
Proof.
  intros Hn ((Ready & Lo & Le & Rec) & Tr & Last & A).
  destruct (runSingleIteration_step (loopMetrics state) (S n) w)
    as (output & metrics' & w' & E & TrO & Ev & A'); [apply A | apply A |].
  destruct (configured finalAgentId) as [config Hc]; [now left|].
  eexists; exists w'. split.
  { unfold completeIteration, readConfig. rewrite Hc.
    rewrite (bind_returns _ _ w w config) by reflexivity.
    rewrite (bind_returns _ _ _ _ _ E). reflexivity. }
  unfold runInvariant, loopInvariant.
  cbn [independentEvaluations scoringOutputs loopMetrics lastDiscussionHistory].
  split.
  { split; [apply A'|]. rewrite !length_app. cbn [length].
    split; [lia|]. split; [lia|].
    rewrite map_app, recordsOf_snoc, Rec, Lo. cbn [map evaluation].
    now rewrite Ev. }
  split.
  { apply Forall_app. split; [exact Tr|]. now constructor. }
  split.
  { destruct (Nat.eqb_spec (S n) total) as [<-|Ne].
    - replace (S n - 1)%nat with (length (independentEvaluations state)) by lia.
      now rewrite nth_error_app2, Nat.sub_diag by lia.
    - rewrite Last.
      assert (N1 : nth_error (independentEvaluations state) (total - 1) = None)
        by (apply nth_error_None; lia).
      rewrite N1. symmetry.
      match goal with
      | |- match ?x with _ => _ end = _ => assert (N2 : x = None)
      end.
      { apply nth_error_None. rewrite length_app. cbn [length]. lia. }
      now rewrite N2. }
  unfold runCalls. rewrite flat_map_app. cbn [flat_map recordedHistory evaluation].
  rewrite app_nil_r, Ev, evaluationResultOf_iteration.
  eapply advancesBy_trans; [exact A | exact A'].
Qed.

Lemma iterations_step (total : nat) (w0 : World) (metrics0 : FrameworkMetrics) :
  forall (len n : nat) (state : LoopState) (w : World),
    (n + len <= total)%nat ->
    runInvariant host Inv frameworkConfig context configsForRun googleSearchEnabled
      total w0 metrics0 n state w ->
    exists state' w',
      forEach
        (completeIteration host frameworkConfig context configsForRun
           googleSearchEnabled total)
        (seq (S n) len) state w
      = (Returns state', w') /\
      runInvariant host Inv frameworkConfig context configsForRun googleSearchEnabled
        total w0 metrics0 (n + len) state' w'.
Proof.
  induction len as [|len IH]; intros n state w Hn I.
  - exists state, w. rewrite Nat.add_0_r. now split.
  - destruct (completeIteration_step total w0 metrics0 n state w) as (s1 & w1 & E1 & I1);
      [lia | exact I |].
    destruct (IH (S n) s1 w1) as (s2 & w2 & E2 & I2); [lia | exact I1 |].
    exists s2, w2. split.
    + cbn [seq forEach]. now rewrite (bind_returns _ _ _ _ _ E1).
    + now rewrite Nat.add_succ_r.
Qed.

(** The run returns; its records, their transcripts, the discussion it
    leaves on display, and what it did to the log, the clock and the
    metrics. *)
Lemma runDiscussionAndDecision_step (metrics : FrameworkMetrics) (w : World) :
  expertEntriesReady metrics -> Inv metrics ->
  exists out w',
    runDiscussionAndDecision host frameworkConfig context configsForRun metrics
      googleSearchEnabled w
    = (Returns out, w') /\
    length (runEvaluations out) = FrameworkConfig.iterations frameworkConfig /\
    length (runScoringOutputs out) = FrameworkConfig.iterations frameworkConfig /\
    map evaluation (runEvaluations out) = recordsOf host (runScoringOutputs out) /\
    runFinalDecision out = aggregate (runEvaluations out) /\
    Forall (fun record => transcriptOf configsForRun (recordedHistory record))
      (runEvaluations out) /\
    runDiscussion out
    = match nth_error (runEvaluations out)
              (FrameworkConfig.iterations frameworkConfig - 1) with
      | Some record => recordedHistory record
      | None => []
      end /\
    advancesBy host Inv w metrics
      (runCalls frameworkConfig context configsForRun googleSearchEnabled
         (runEvaluations out))
      w' (runMetrics out).
Proof.
  intros Ready I.
  destruct (configured finalAgentId) as [config Hc]; [now left|].
  destruct (iterations_step (FrameworkConfig.iterations frameworkConfig) w metrics
              (FrameworkConfig.iterations frameworkConfig) 0
              (mkLoopState [] [] [] [] metrics) w)
    as (final & w' & E & (_ & Lo & Le & Rec) & Tr & Last & A).
  { lia. }
  { split; [repeat split; assumption|]. split; [constructor|].
    split; [now destruct (FrameworkConfig.iterations frameworkConfig - 1)%nat|].
    now apply advancesBy_refl. }
  eexists; exists w'. split.
  { unfold runDiscussionAndDecision, readConfig. rewrite Hc.
    rewrite (bind_returns _ _ w w config) by reflexivity.
    rewrite (bind_returns _ _ _ _ _ E). reflexivity. }
  cbn [runEvaluations runScoringOutputs runFinalDecision runDiscussion runMetrics].
  split; [exact Le|]. split; [exact Lo|]. split; [exact Rec|]. split; [reflexivity|].
  split; [exact Tr|]. split; [exact Last | exact A].
Qed.

End RunTrace.

Lemma last_of_records {A B : Type} (f : A -> list B) (l : list A) (n : nat) :
  length l = n ->
  match nth_error l (n - 1) with
  | Some r => f r
  | None => []
  end = List.last (map f l) [].
Proof.
  intros <-. destruct l as [|x l'] using rev_ind.
  - reflexivity.
  - rewrite map_app. cbn [map]. rewrite last_last, length_app. cbn [length].
    replace (length l' + 1 - 1)%nat with (length l') by lia.
    now rewrite nth_error_app2, Nat.sub_diag by lia.
Qed.

Lemma spokenCalls_participants (frameworkConfig : FrameworkConfig.t) (context : string)
    (configs : gmap string AgentConfig.t) (enabled : bool) (speakers : list string) :
  Forall (fun id => is_Some (configs !! id)) speakers ->
  forall said before,
    length said = length speakers ->
    map participant
      (spokenCalls frameworkConfig context configs enabled speakers said before)
    = speakers.
Proof.
  induction 1 as [|id speakers [config Hc] _ IH]; intros [|m said] before L;
    try discriminate; [reflexivity|].
  cbn [spokenCalls]. unfold expertCall. rewrite Hc. cbn [app map participant].
  f_equal. apply IH. simpl in L. lia.
Qed.

Lemma spokenCalls_nth (frameworkConfig : FrameworkConfig.t) (context : string)
    (configs : gmap string AgentConfig.t) (enabled : bool) (speakers : list string) :
  Forall (fun id => is_Some (configs !! id)) speakers ->
  forall said before j id,
    length said = length speakers ->
    nth_error speakers j = Some id ->
    exists config,
      configs !! id = Some config /\
      nth_error (spokenCalls frameworkConfig context configs enabled speakers said before) j
      = Some (mkInvocation id
                (requestOf frameworkConfig id config
                   (expertPromptOf context (before ++ firstn j said)%list config)
                   (enabled && isExpert id))).
Proof.
  induction 1 as [|id0 speakers [config Hc] _ IH]; intros [|m said] before j id L Hj;
    try discriminate.
  - destruct j; discriminate.
  - cbn [spokenCalls]. unfold expertCall. rewrite Hc. destruct j as [|j].
    + injection Hj as <-. exists config. split; [exact Hc|].
      cbn [firstn app nth_error]. now rewrite app_nil_r.
    + cbn [nth_error] in Hj.
      destruct (IH said (before ++ [m])%list j id) as (config' & Hc' & Hn);
        [simpl in L; lia | exact Hj |].
      exists config'. split; [exact Hc'|].
      cbn [app nth_error firstn]. rewrite Hn. now rewrite <- app_assoc.
Qed.

Lemma nth_error_flat_map_blocks {A B : Type} (f : A -> list B) (n : nat) (l : list A) :
  Forall (fun x => length (f x) = n) l ->
  forall k j x,
    nth_error l k = Some x -> (j < n)%nat ->
    nth_error (flat_map f l) (n * k + j) = nth_error (f x) j.
Proof.
  induction 1 as [|y l Hy _ IH]; intros k j x Hk Hj.
  - destruct k; discriminate.
  - cbn [flat_map]. destruct k as [|k].
    + injection Hk as ->. rewrite Nat.mul_0_r. cbn [Nat.add].
      apply nth_error_app1. lia.
    + cbn [nth_error] in Hk. rewrite nth_error_app2 by lia.
      replace (n * S k + j - length (f y))%nat with (n * k + j)%nat by nia.
      now apply IH.
Qed.

Section Schedule.

Variable frameworkConfig : FrameworkConfig.t.
Variable context : string.
Variable configs : gmap string AgentConfig.t.
Variable enabled : bool.
Hypothesis configured : participantsConfigured configs.

Lemma experts_configured :
  Forall (fun id => is_Some (configs !! id)) (expertAgentIds ++ expertAgentIds).
Proof.
  apply List.Forall_forall. intros id Hid. apply configured. right.
  apply in_app_or in Hid. tauto.
Qed.

Lemma transcript_length (history : list UserChatMessage) :
  transcriptOf configs history ->
  length history = length (expertAgentIds ++ expertAgentIds)%list.
Proof. intros [H _]. rewrite <- H. now rewrite length_map. Qed.

Lemma iterationCalls_participants (history : list UserChatMessage) (i : nat) :
  transcriptOf configs history ->
  map participant (iterationCalls frameworkConfig context configs enabled history i)
  = iterationSchedule.
Proof.
  intros Tr. unfold iterationCalls, iterationSchedule.
  rewrite map_app, spokenCalls_participants;
    [| apply experts_configured | now apply transcript_length].
  unfold scoringCall. destruct (configured finalAgentId) as [config ->]; [now left|].
  reflexivity.
Qed.

Lemma iterationCalls_length (history : list UserChatMessage) (i : nat) :
  transcriptOf configs history ->
  length (iterationCalls frameworkConfig context configs enabled history i) = 7%nat.
Proof.
  intros Tr. rewrite <- (length_map participant), iterationCalls_participants by exact Tr.
  reflexivity.
Qed.

Lemma runCalls_participants (records : list IterationRecord) :
  Forall (fun record => transcriptOf configs (recordedHistory record)) records ->
  map participant (runCalls frameworkConfig context configs enabled records)
  = concat (repeat iterationSchedule (length records)).
Proof.
  induction 1 as [|record records Tr _ IH]; [reflexivity|].
  unfold runCalls in *. cbn [flat_map length repeat concat].
  rewrite map_app, IH. now rewrite iterationCalls_participants.
Qed.

Lemma runCalls_length (records : list IterationRecord) :
  Forall (fun record => transcriptOf configs (recordedHistory record)) records ->
  length (runCalls frameworkConfig context configs enabled records)
  = (7 * length records)%nat.
Proof.
  induction 1 as [|record records Tr _ IH]; [reflexivity|].
  unfold runCalls in *. cbn [flat_map length].
  rewrite length_app, IH, iterationCalls_length by exact Tr. lia.
Qed.

End Schedule.

Lemma experts_are_experts (id : string) :
  In id (expertAgentIds ++ expertAgentIds) -> isExpert id = true.
Proof. simpl. intros [<-|[<-|[<-|[<-|[<-|[<-|[]]]]]]]; reflexivity. Qed.

(** The run lemma without an invariant of its own on the metrics. *)
Lemma run_step (host : Host) (frameworkConfig : FrameworkConfig.t) (context : string)
    (configsForRun : gmap string AgentConfig.t) (metrics : FrameworkMetrics)
    (googleSearchEnabled : bool) (w : World) :
  participantsConfigured configsForRun ->
  expertEntriesReady metrics ->
  exists out w',
    runDiscussionAndDecision host frameworkConfig context configsForRun metrics
      googleSearchEnabled w
    = (Returns out, w') /\
    length (runEvaluations out) = FrameworkConfig.iterations frameworkConfig /\
    length (runScoringOutputs out) = FrameworkConfig.iterations frameworkConfig /\
    map evaluation (runEvaluations out) = recordsOf host (runScoringOutputs out) /\
    runFinalDecision out = aggregate (runEvaluations out) /\
    Forall (fun record => transcriptOf configsForRun (recordedHistory record))
      (runEvaluations out) /\
    runDiscussion out
    = match nth_error (runEvaluations out)
              (FrameworkConfig.iterations frameworkConfig - 1) with
      | Some record => recordedHistory record
      | None => []
      end /\
    advancesBy host (fun _ => True) w metrics
      (runCalls frameworkConfig context configsForRun googleSearchEnabled
         (runEvaluations out))
      w' (runMetrics out).
Proof.
  intros Conf Ready.
  now apply (runDiscussionAndDecision_step host frameworkConfig context configsForRun
               googleSearchEnabled (fun _ => True) Conf).
Qed.

(** ** The transcripts of a run *)

(** X7: with the participants configured, every record of a run keeps a
    transcript of six messages, written by expert_1, expert_2, expert_3,
    expert_1, expert_2, expert_3 in this order, each of type "agent" and
    under the display name of its author's configuration; the discussion
    left on display is the transcript of the last record (none when the run
    has no iteration). *)
Theorem run_transcripts_follow_speaking_order (host : Host)
    (frameworkConfig : FrameworkConfig.t) (context : string)
    (configsForRun : gmap string AgentConfig.t) (metrics : FrameworkMetrics)
    (googleSearchEnabled : bool) (w : World) :
  participantsConfigured configsForRun ->
  expertEntriesReady metrics ->
  exists out w',
    runDiscussionAndDecision host frameworkConfig context configsForRun metrics
      googleSearchEnabled w
    = (Returns out, w') /\
    Forall
      (fun record =>
         map agentId (recordedHistory record)
         = ["expert_1"; "expert_2"; "expert_3"; "expert_1"; "expert_2"; "expert_3"] /\
         Forall
           (fun m =>
              msgType m = "agent" /\
              exists config,
                configsForRun !! agentId m = Some config /\
                agentName m = displayName (AgentConfig.name config))
           (recordedHistory record))
      (runEvaluations out) /\
    runDiscussion out = List.last (map recordedHistory (runEvaluations out)) [].
Proof.
  intros Conf Ready.
  destruct (run_step host frameworkConfig context configsForRun metrics
              googleSearchEnabled w Conf Ready)
    as (out & w' & E & Le & _ & _ & _ & Tr & Last & _).
  exists out, w'. split; [exact E|]. split; [exact Tr|].
  rewrite Last. now apply last_of_records.
Qed.

Lemma run_transcripts_follow_speaking_order_witness :
  exists out w',
    runDiscussionAndDecision failingHost (demoFramework 3) "The proposal."
      demoConfigs emptyMetrics true startOfRun
    = (Returns out, w') /\
    runDiscussion out = List.last (map recordedHistory (runEvaluations out)) [].
Proof.
  destruct (run_transcripts_follow_speaking_order failingHost (demoFramework 3)
              "The proposal." demoConfigs emptyMetrics true startOfRun
              demoConfigs_configured emptyMetrics_ready)
    as (out & w' & E & _ & Last).
  exists out, w'. split; [exact E | exact Last].
Defined.

(** ** The requests of a run *)

(** X8: with the participants configured, a run of N iterations reads the
    clock 14 N times and, when the API key is set, appends 7 N requests to
    the log: in every iteration one for expert_1, expert_2, expert_3,
    expert_1, expert_2, expert_3 and then one for the scoring agent.
    Without the key it appends nothing. *)
Theorem run_request_schedule (host : Host)
    (frameworkConfig : FrameworkConfig.t) (context : string)
    (configsForRun : gmap string AgentConfig.t) (metrics : FrameworkMetrics)
    (googleSearchEnabled : bool) (w : World) :
  participantsConfigured configsForRun ->
  expertEntriesReady metrics ->
  exists out w',
    runDiscussionAndDecision host frameworkConfig context configsForRun metrics
      googleSearchEnabled w
    = (Returns out, w') /\
    map participant (requests w')
    = (map participant (requests w)
       ++ (if GEMINI_API_KEY host
           then concat (repeat
                          ["expert_1"; "expert_2"; "expert_3";
                           "expert_1"; "expert_2"; "expert_3"; finalAgentId]
                          (FrameworkConfig.iterations frameworkConfig))
           else []))%list /\
    clockReadings w'
    = (clockReadings w + 14 * FrameworkConfig.iterations frameworkConfig)%nat.
Proof.
  intros Conf Ready.
  destruct (run_step host frameworkConfig context configsForRun metrics
              googleSearchEnabled w Conf Ready)
    as (out & w' & E & Le & _ & _ & _ & Tr & _ & (_ & _ & _ & L & C)).
  exists out, w'. split; [exact E|]. split.
  - rewrite L, map_app. f_equal. unfold sentBy.
    destruct (GEMINI_API_KEY host); [|reflexivity].
    rewrite (runCalls_participants _ _ _ _ Conf _ Tr), Le. reflexivity.
  - rewrite C, (runCalls_length _ _ _ _ Conf _ Tr), Le. lia.
Qed.

Lemma run_request_schedule_witness :
  exists out w',
    runDiscussionAndDecision failingHost (demoFramework 3) "The proposal."
      demoConfigs emptyMetrics true startOfRun
    = (Returns out, w') /\
    length (requests w') = 21%nat /\
    clockReadings w' = 42%nat.
Proof.
  destruct (run_request_schedule failingHost (demoFramework 3)
              "The proposal." demoConfigs emptyMetrics true startOfRun
              demoConfigs_configured emptyMetrics_ready)
    as (out & w' & E & L & C).
  exists out, w'. split; [exact E|]. split; [|exact C].
  rewrite <- (length_map participant), L. reflexivity.
Defined.

(** X9: with the API key set and the participants configured, the seven
    requests of iteration k + 1 are built from that iteration's own
    transcript: the j-th expert request shows the context and the first j
    messages of the transcript, and the scoring request shows the whole
    transcript and the iteration number; no request shows a message of
    another iteration. *)
Theorem requests_show_own_iteration_only (host : Host)
    (frameworkConfig : FrameworkConfig.t) (context : string)
    (configsForRun : gmap string AgentConfig.t) (metrics : FrameworkMetrics)
    (googleSearchEnabled : bool) (w : World) :
  participantsConfigured configsForRun ->
  expertEntriesReady metrics ->
  GEMINI_API_KEY host = true ->
  exists out w',
    runDiscussionAndDecision host frameworkConfig context configsForRun metrics
      googleSearchEnabled w
    = (Returns out, w') /\
    forall k record,
      nth_error (runEvaluations out) k = Some record ->
      (forall j id,
          nth_error (expertAgentIds ++ expertAgentIds) j = Some id ->
          exists config,
            configsForRun !! id = Some config /\
            nth_error (requests w') (length (requests w) + 7 * k + j)
            = Some (mkInvocation id
                      (requestOf frameworkConfig id config
                         (expertPromptOf context
                            (firstn j (recordedHistory record)) config)
                         googleSearchEnabled))) /\
      (exists config,
          configsForRun !! finalAgentId = Some config /\
          nth_error (requests w') (length (requests w) + 7 * k + 6)
          = Some (mkInvocation finalAgentId
                    (requestOf frameworkConfig finalAgentId config
                       (scoringPromptOf config (recordedHistory record) (S k))
                       false))).
Proof.
  intros Conf Ready Key.
  destruct (run_step host frameworkConfig context configsForRun metrics
              googleSearchEnabled w Conf Ready)
    as (out & w' & E & Le & Lo & Rec & _ & Tr & _ & (_ & _ & _ & L & _)).
  exists out, w'. split; [exact E|].
  intros k record Hk.
  unfold sentBy in L. rewrite Key in L.
  assert (Blocks :
            Forall
              (fun record =>
                 length (iterationCalls frameworkConfig context configsForRun
                           googleSearchEnabled (recordedHistory record)
                           (iteration (evaluation record))) = 7%nat)
              (runEvaluations out)).
  { eapply List.Forall_impl; [|exact Tr]. intros r Hr.
    now apply iterationCalls_length. }
  assert (Hrec : transcriptOf configsForRun (recordedHistory record)).
  { rewrite List.Forall_forall in Tr. apply Tr. eapply nth_error_In, Hk. }
  assert (Hi : iteration (evaluation record) = S k).
  { assert (Hlt : (k < length (runScoringOutputs out))%nat).
    { rewrite Lo, <- Le. apply nth_error_Some. congruence. }
    destruct (nth_error (runScoringOutputs out) k) as [content|] eqn:Hc;
      [|apply nth_error_Some in Hlt; contradiction].
    rewrite (record_of_output host _ _ k record content Rec Hk Hc).
    apply evaluationResultOf_iteration. }
  assert (Six : length (spokenCalls frameworkConfig context configsForRun
                          googleSearchEnabled (expertAgentIds ++ expertAgentIds)
                          (recordedHistory record) []) = 6%nat).
  { rewrite <- (length_map participant), spokenCalls_participants;
      [ reflexivity
      | exact (experts_configured configsForRun Conf)
      | exact (transcript_length configsForRun _ Hrec) ]. }
  split.
  - intros j id Hj.
    assert (Hlt : (j < 6)%nat).
    { change 6%nat with (length (expertAgentIds ++ expertAgentIds)%list).
      apply nth_error_Some. congruence. }
    destruct (spokenCalls_nth frameworkConfig context configsForRun googleSearchEnabled
                (expertAgentIds ++ expertAgentIds) (experts_configured configsForRun Conf)
                (recordedHistory record) [] j id
                (transcript_length _ _ Hrec) Hj)
      as (config & Hc & Hn).
    exists config. split; [exact Hc|].
    rewrite L, nth_error_app2 by lia.
    replace (length (requests w) + 7 * k + j - length (requests w))%nat
      with (7 * k + j)%nat by lia.
    unfold runCalls.
    rewrite (nth_error_flat_map_blocks _ 7 _ Blocks k j record Hk) by lia.
    unfold iterationCalls. rewrite nth_error_app1 by lia.
    rewrite Hn. cbn [app].
    now rewrite (experts_are_experts id (nth_error_In _ _ Hj)), andb_true_r.
  - destruct (Conf finalAgentId) as [config Hc]; [now left|].
    exists config. split; [exact Hc|].
    rewrite L, nth_error_app2 by lia.
    replace (length (requests w) + 7 * k + 6 - length (requests w))%nat
      with (7 * k + 6)%nat by lia.
    unfold runCalls.
    rewrite (nth_error_flat_map_blocks _ 7 _ Blocks k 6 record Hk) by lia.
    unfold iterationCalls. rewrite nth_error_app2 by lia.
    rewrite Six, Nat.sub_diag. unfold scoringCall. rewrite Hc, Hi. reflexivity.
Qed.

Lemma requests_show_own_iteration_only_witness :
  exists out w',
    runDiscussionAndDecision failingHost (demoFramework 3) "The proposal."
      demoConfigs emptyMetrics true startOfRun
    = (Returns out, w') /\
    forall record,
      nth_error (runEvaluations out) 1 = Some record ->
      exists config,
        demoConfigs !! finalAgentId = Some config /\
        nth_error (requests w') 13
        = Some (mkInvocation finalAgentId
                  (requestOf (demoFramework 3) finalAgentId config
                     (scoringPromptOf config (recordedHistory record) 2) false)).
Proof.
  destruct (requests_show_own_iteration_only failingHost (demoFramework 3)
              "The proposal." demoConfigs emptyMetrics true startOfRun
              demoConfigs_configured emptyMetrics_ready eq_refl)
    as (out & w' & E & H).
  exists out, w'. split; [exact E|].
  intros record Hr. exact (proj2 (H 1%nat record Hr)).
Defined.

(** ** The input tokens of a run *)

(** X10: with the participants configured, the input-token total of the
    metrics grows over a run by the sum of the token estimates of the
    prompts of its calls.  The calls are those of [runCalls]: seven per
    iteration, each with the prompt that the configuration, the context and
    the transcript recorded for its iteration determine.  With the API key
    set they are what the run appends to the request log; without the key
    the log stays as it was and the total grows by the same sum. *)
Theorem input_tokens_count_prompts (host : Host)
    (frameworkConfig : FrameworkConfig.t) (context : string)
    (configsForRun : gmap string AgentConfig.t) (metrics : FrameworkMetrics)
    (googleSearchEnabled : bool) (w : World) :
  participantsConfigured configsForRun ->
  expertEntriesReady metrics ->
  exists out w',
    runDiscussionAndDecision host frameworkConfig context configsForRun metrics
      googleSearchEnabled w
    = (Returns out, w') /\
    length (runCalls frameworkConfig context configsForRun googleSearchEnabled
              (runEvaluations out))
    = (7 * FrameworkConfig.iterations frameworkConfig)%nat /\
    totalInputTokens (runMetrics out)
    = (totalInputTokens metrics
       + list_sum
           (map (fun inv => countTokens (Request.contents (request inv)))
              (runCalls frameworkConfig context configsForRun googleSearchEnabled
                 (runEvaluations out))))%nat /\
    (GEMINI_API_KEY host = true ->
     requests w'
     = (requests w
        ++ runCalls frameworkConfig context configsForRun googleSearchEnabled
             (runEvaluations out))%list) /\
    (GEMINI_API_KEY host = false -> requests w' = requests w).
Proof.
  intros Conf Ready.
  destruct (run_step host frameworkConfig context configsForRun metrics
              googleSearchEnabled w Conf Ready)
    as (out & w' & E & Le & _ & _ & _ & Tr & _ & (_ & _ & T & L & _)).
  exists out, w'.
  split; [exact E|]. split.
  { rewrite (runCalls_length _ _ _ _ Conf _ Tr), Le. reflexivity. }
  split; [exact T|].
  unfold sentBy in L. split; intros Key; rewrite Key in L.
  - exact L.
  - now rewrite app_nil_r in L.
Qed.

Lemma input_tokens_count_prompts_witness :
  exists out w',
    runDiscussionAndDecision keylessHost (demoFramework 3) "The proposal."
      demoConfigs emptyMetrics true startOfRun
    = (Returns out, w') /\
    length (runCalls (demoFramework 3) "The proposal." demoConfigs true
              (runEvaluations out)) = 21%nat /\
    totalInputTokens (runMetrics out)
    = list_sum
        (map (fun inv => countTokens (Request.contents (request inv)))
           (runCalls (demoFramework 3) "The proposal." demoConfigs true
              (runEvaluations out))) /\
    requests w' = [].
Proof.
  destruct (input_tokens_count_prompts keylessHost (demoFramework 3)
              "The proposal." demoConfigs emptyMetrics true startOfRun
              demoConfigs_configured emptyMetrics_ready)
    as (out & w' & E & Le & T & _ & NoKey).
  exists out, w'. split; [exact E|]. split; [exact Le|].
  split; [exact T|]. exact (NoKey eq_refl).
Defined.

(** ** The policy of the requests *)

Section RequestPolicy.

Variable host : Host.
Variable frameworkConfig : FrameworkConfig.t.
Variable configsForRun : gmap string AgentConfig.t.
Variable good : Invocation -> Prop.
Hypothesis good_call :
  GEMINI_API_KEY host = true ->
  forall id config prompt useGoogleSearch,
    configsForRun !! id = Some config ->
    good (mkInvocation id (requestOf frameworkConfig id config prompt useGoogleSearch)).

Lemma policy_runAgent (agentId : string) (dynamicPrompt : option string)
    (useGoogleSearch : bool) :
  logs good
    (runAgent host agentId (Some configsForRun) dynamicPrompt useGoogleSearch
       (FrameworkConfig.seed frameworkConfig)
       (FrameworkConfig.temperature frameworkConfig)).
Proof.
  unfold runAgent.
  destruct (configsForRun !! agentId) as [config|] eqn:Hc; [|apply logs_ret].
  apply logs_bind; [apply logs_performanceNow | intros startTime].
  apply logs_bind; [|intros [result metadata]; repeat logs_step].
  unfold runAgentQuery.
  destruct (GEMINI_API_KEY host) eqn:Key; cbn [negb]; [|apply logs_ret].
  apply logs_bind; [|intros [response|]; apply logs_ret].
  apply logs_callGenerateContent.
  match goal with
  | |- good (mkInvocation _ (Request.mk _ ?prompt _ _ _ _ _ _ _ _)) =>
      pose proof (good_call eq_refl agentId config prompt useGoogleSearch Hc) as G
  end.
  unfold requestOf in G. now destruct (includes forceZeroTempAgents agentId).
Qed.

Lemma policy_expertSpeaks (context : string) (enabled : bool)
    (state : list UserChatMessage * FrameworkMetrics) (id : string) :
  logs good
    (expertSpeaks host frameworkConfig context configsForRun enabled state id).
Proof.
  destruct state as [history metrics]. unfold expertSpeaks.
  apply logs_bind; [apply logs_readConfig | intros agentConfig].
  apply logs_bind; [apply policy_runAgent | intros [content agentMetrics]].
  apply logs_bind; [apply logs_trackExpertMetrics | intros metrics'].
  apply logs_ret.
Qed.

Lemma policy_runDiscussionAndDecision (context : string) (metrics : FrameworkMetrics)
    (enabled : bool) :
  logs good
    (runDiscussionAndDecision host frameworkConfig context configsForRun metrics enabled).
Proof.
  unfold runDiscussionAndDecision.
  apply logs_bind; [apply logs_readConfig | intros _].
  apply logs_bind; [|intros final; apply logs_ret].
  apply logs_forEach. intros state i. unfold completeIteration.
  apply logs_bind; [apply logs_readConfig | intros _].
  apply logs_bind; [|intros [output metrics']; apply logs_ret].
  unfold runSingleIteration, expertDiscussion.
  apply logs_bind.
  { apply logs_forEach. intros s turn.
    apply logs_forEach. intros s' id. apply policy_expertSpeaks. }
  intros [history metrics1].
  apply logs_bind; [apply logs_readConfig | intros finalAgentConfig].
  apply logs_bind; [apply policy_runAgent | intros [content evalMetrics]].
  apply logs_ret.
Qed.

Lemma policy_summarize (currentProposal : ProposalData) :
  logs good (summarize host frameworkConfig configsForRun currentProposal).
Proof.
  assert (S : forall content,
             logs good
               (bind (readConfig configsForRun summarizeAgentId "prompt")
                  (fun summarizeConfig =>
                     runAgent host summarizeAgentId (Some configsForRun)
                       (Some (truncatePromptIfNeeded
                                (replace "{url_content}" content
                                   (AgentConfig.prompt summarizeConfig))
                                MAX_CONTEXT_TOKENS))
                       false (FrameworkConfig.seed frameworkConfig)
                       (FrameworkConfig.temperature frameworkConfig)))).
  { intros content. apply logs_bind; [apply logs_readConfig | intros c].
    apply policy_runAgent. }
  unfold summarize.
  destruct (negb _); apply logs_tryCatch; try (intros e; apply logs_ret).
  - destruct (fetch host _) as [ok status body|message]; [|apply logs_throw].
    destruct ok; [apply S | apply logs_throw].
  - apply S.
Qed.

Lemma policy_runSimulation (useGoogleSearch : bool) (currentProposal : ProposalData) :
  logs good
    (runSimulation host frameworkConfig (Some configsForRun) useGoogleSearch
       currentProposal).
Proof.
  unfold runSimulation.
  apply logs_bind.
  { unfold resetState. repeat logs_step. }
  intros _.
  apply logs_bind; [apply logs_performanceNow | intros startTime].
  apply logs_bind; [apply logs_readConfig | intros classificationConfig].
  apply logs_bind; [apply policy_runAgent | intros [classContent classMetrics]].
  apply logs_bind; [apply policy_summarize | intros [summaryText summaryMetrics]].
  apply logs_bind; [apply policy_runDiscussionAndDecision | intros outcome].
  apply logs_bind; [apply logs_performanceNow | intros endTime].
  apply logs_bind; [|intros tracking; apply logs_ret].
  unfold trackPerformance.
  apply logs_tryCatch; [|intros e; apply logs_ret].
  apply logs_bind; [apply logs_readConfig | intros trackerConfig].
  apply logs_bind; [apply policy_runAgent | intros [content m]].
  apply logs_ret.
Qed.

Lemma policy_handleRestartDiscussion (initialContext : string) (useGoogleSearch : bool) :
  logs good
    (handleRestartDiscussion host frameworkConfig initialContext (Some configsForRun)
       useGoogleSearch).
Proof.
  unfold handleRestartDiscussion.
  destruct (String.eqb initialContext EmptyString); [apply logs_ret|].
  apply logs_bind; [apply policy_runDiscussionAndDecision | intros outcome].
  apply logs_ret.
Qed.

End RequestPolicy.

Lemma requestOf_followsConfiguration (frameworkConfig : FrameworkConfig.t)
    (configs : gmap string AgentConfig.t) (id : string) (config : AgentConfig.t)
    (prompt : string) (useGoogleSearch : bool) :
  configs !! id = Some config ->
  followsConfiguration frameworkConfig configs
    (mkInvocation id (requestOf frameworkConfig id config prompt useGoogleSearch)).
Proof.
  intros Hc. exists config. cbn [participant request]. split; [exact Hc|].
  unfold requestOf. cbn. repeat split.
Qed.

(** X11: every request that a simulation or a restarted discussion logs is
    sent for a participant that has a configuration, with the model, system
    instruction, response type and schema, output limit and thinking
    setting of that configuration, with the seed of the run, and with
    temperature 0 for the classification and summarization agents and the
    temperature of the run (0 when it is not set) for every other
    participant.  The simulation takes the configurations as they were
    loaded. *)
Theorem requests_follow_configuration (host : Host)
    (frameworkConfig : FrameworkConfig.t) (configs : gmap string AgentConfig.t)
    (useGoogleSearch : bool) :
  (forall currentProposal,
      Forall (followsConfiguration frameworkConfig configs)
        (requests
           (snd (runSimulation host frameworkConfig (Some configs) useGoogleSearch
                   currentProposal startOfRun)))) /\
  (forall initialContext,
      Forall (followsConfiguration frameworkConfig configs)
        (requests
           (snd (handleRestartDiscussion host frameworkConfig initialContext
                   (Some configs) useGoogleSearch startOfRun)))).
Proof.
  split.
  - intros currentProposal.
    apply (policy_runSimulation host frameworkConfig configs
             (followsConfiguration frameworkConfig configs)); [|constructor].
    intros _ id config prompt use Hc. now apply requestOf_followsConfiguration.
  - intros initialContext.
    apply (policy_handleRestartDiscussion host frameworkConfig configs
             (followsConfiguration frameworkConfig configs)); [|constructor].
    intros _ id config prompt use Hc. now apply requestOf_followsConfiguration.
Qed.

(** X12: without an API key, a simulation and a restarted discussion send
    no request at all, whatever the configurations are. *)
Theorem no_key_no_request (host : Host) (frameworkConfig : FrameworkConfig.t)
    (configs : option (gmap string AgentConfig.t)) (useGoogleSearch : bool)
    (w : World) :
  GEMINI_API_KEY host = false ->
  requests w = [] ->
  (forall currentProposal,
      requests (snd (runSimulation host frameworkConfig configs useGoogleSearch
                       currentProposal w)) = []) /\
  (forall initialContext,
      requests (snd (handleRestartDiscussion host frameworkConfig initialContext
                       configs useGoogleSearch w)) = []).
Proof.
  intros Key Empty.
  assert (Silent : forall A (m : Async A), logs (fun _ => False) m ->
                                           requests (snd (m w)) = []).
  { intros A m L. specialize (L w). rewrite Empty in L.
    specialize (L (List.Forall_nil _)).
    destruct (requests (snd (m w))) as [|inv rest]; [reflexivity|].
    now inversion L. }
  destruct configs as [configs|].
  - split.
    + intros currentProposal. apply Silent, policy_runSimulation. congruence.
    + intros initialContext. apply Silent, policy_handleRestartDiscussion. congruence.
  - split.
    + intros currentProposal. exact Empty.
    + intros initialContext. unfold handleRestartDiscussion.
      now destruct (String.eqb initialContext EmptyString).
Qed.

Lemma no_key_no_request_witness :
  requests (snd (runSimulation keylessHost (demoFramework 3) (Some demoConfigs) true
                   demoProposal startOfRun)) = [].
Proof.
  exact (proj1 (no_key_no_request keylessHost (demoFramework 3) (Some demoConfigs)
                  true startOfRun eq_refl eq_refl) demoProposal).
Defined.

(** ** A whole simulation *)

Lemma returnsWith_tryCatch {A : Type} (m : Async A) (handler : string -> Async A)
    (post : A -> Prop) :
  (forall w a w', m w = (Returns a, w') -> post a) ->
  (forall e, returnsWith (handler e) post) ->
  returnsWith (tryCatch m handler) post.
Proof.
  intros Hm Hh w. unfold tryCatch. destruct (m w) as [[a|e] w'] eqn:E.
  - exists a, w'. split; [reflexivity | now apply (Hm w a w')].
  - apply Hh.
Qed.

Lemma performanceNow_returns (host : Host) :
  returnsWith (performanceNow host) (fun _ => True).
Proof. intros w. eexists; eexists. split; [reflexivity | exact I]. Qed.

Lemma initialAnalysisMetrics_ready (classMetrics summaryMetrics : AgentMetrics) :
  expertEntriesReady (initialAnalysisMetrics classMetrics summaryMetrics).
Proof.
  intros id entry Hid Hl. exfalso.
  unfold initialAnalysisMetrics, emptyMetrics in Hl. cbn [agentBreakdown] in Hl.
  rewrite !lookup_insert_ne, lookup_empty in Hl; [discriminate| |];
    intros <-; simpl in Hid; intuition discriminate.
Qed.

Lemma summarize_returns (host : Host) (frameworkConfig : FrameworkConfig.t)
    (configsForRun : gmap string AgentConfig.t) (currentProposal : ProposalData) :
  returnsWith (summarize host frameworkConfig configsForRun currentProposal)
    (fun _ => True).
Proof.
  unfold summarize.
  destruct (negb _);
    (apply returnsWith_tryCatch; [auto | intros e; now apply returnsWith_ret]).
Qed.

Section Simulation.

Variable host : Host.
Variable frameworkConfig : FrameworkConfig.t.
Variable configsForRun : gmap string AgentConfig.t.
Variable useGoogleSearch : bool.
Variable currentProposal : ProposalData.
Variable Inv : FrameworkMetrics -> Prop.
Variable Summary : string * AgentMetrics -> Prop.
Hypothesis configured : simulationConfigured configsForRun.
Hypothesis Inv_expert :
  forall metrics metrics' id agentMetrics w w',
    In id expertAgentIds -> Inv metrics -> metricsFromInvoker agentMetrics ->
    trackExpertMetrics metrics id agentMetrics w = (Returns metrics', w') ->
    Inv metrics'.
Hypothesis Inv_final :
  forall metrics evalMetrics, Inv metrics -> Inv (trackFinalMetrics metrics evalMetrics).
Hypothesis Inv_duration :
  forall metrics elapsed,
    Inv metrics ->
    Inv (mkFrameworkMetrics elapsed (totalInputTokens metrics)
           (totalOutputTokens metrics) (agentBreakdown metrics)
           (googleSearchSummary metrics)).
Hypothesis summarize_Summary :
  returnsWith (summarize host frameworkConfig configsForRun currentProposal) Summary.
Hypothesis Inv_start :
  forall classMetrics summary,
    Summary summary -> Inv (initialAnalysisMetrics classMetrics (snd summary)).

Lemma runSimulation_returns :
  returnsWith
    (runSimulation host frameworkConfig (Some configsForRun) useGoogleSearch
       currentProposal)
    (fun r =>
       exists outcome summaryMetrics,
         r = Some outcome /\
         Summary (contentSummary outcome, summaryMetrics) /\
         initialContext outcome
         = fullContextOf (proposal_info currentProposal) (classification outcome)
             (summaryForContextOf host (contentSummary outcome)) /\
         length (runEvaluations (discussionOutcome outcome))
         = FrameworkConfig.iterations frameworkConfig /\
         runFinalDecision (discussionOutcome outcome)
         = aggregate (runEvaluations (discussionOutcome outcome)) /\
         Inv (frameworkMetrics outcome)).
Proof.
  destruct configured as (Conf & Class & Summ).
  unfold runSimulation.
  eapply returnsWith_bind with (mid := fun _ => True).
  { unfold resetState.
    eapply returnsWith_bind; [now apply readConfig_returns | intros _ _].
    eapply returnsWith_bind; [now apply readConfig_returns | intros _ _].
    eapply returnsWith_bind; [apply readConfig_returns, Conf; now left | intros _ _].
    now apply returnsWith_ret. }
  intros _ _.
  eapply returnsWith_bind; [apply performanceNow_returns | intros startTime _].
  eapply returnsWith_bind; [now apply readConfig_returns | intros classificationConfig _].
  eapply returnsWith_bind; [apply runAgent_returns | intros [classContent classMetrics] _].
  eapply returnsWith_bind; [exact summarize_Summary | intros [summaryText summaryMetrics] S].
  eapply returnsWith_bind
    with (mid := fun out =>
                   length (runEvaluations out)
                   = FrameworkConfig.iterations frameworkConfig /\
                   runFinalDecision out = aggregate (runEvaluations out) /\
                   Inv (runMetrics out)).
  { intros w.
    destruct (runDiscussionAndDecision_step host frameworkConfig
                (fullContextOf (proposal_info currentProposal) classContent
                   (summaryForContextOf host summaryText))
                configsForRun useGoogleSearch Inv Conf Inv_expert Inv_final
                (initialAnalysisMetrics classMetrics summaryMetrics) w)
      as (out & w' & E & Le & _ & _ & Agg & _ & _ & (_ & I & _));
      [apply initialAnalysisMetrics_ready | exact (Inv_start classMetrics _ S) |].
    exists out, w'. split; [exact E|]. auto. }
  intros out (Le & Agg & I).
  eapply returnsWith_bind; [apply performanceNow_returns | intros endTime _].
  eapply returnsWith_bind with (mid := fun _ => True).
  { unfold trackPerformance. apply returnsWith_tryCatch; [auto|].
    intros e. now apply returnsWith_ret. }
  intros tracking _. apply returnsWith_ret.
  eexists; exists summaryMetrics. split; [reflexivity|].
  cbn [contentSummary initialContext classification discussionOutcome frameworkMetrics].
  split; [exact S|]. split; [reflexivity|]. split; [exact Le|]. split; [exact Agg|].
  now apply Inv_duration.
Qed.

End Simulation.


Lemma demoConfigs_simulationConfigured : simulationConfigured demoConfigs.
Proof.
  split; [exact demoConfigs_configured|]. split; vm_compute; now eexists.
Qed.


(** ** The token totals and the breakdown *)

Lemma breakdownTotal_insert (count : TokenUsage -> nat)
    (breakdown : gmap string AgentMetrics) (id : string) (entry : AgentMetrics) :
  (breakdownTotal count (<[id := entry]> breakdown)
   + match breakdown !! id with
     | Some old => count (tokenUsage old)
     | None => 0
     end
   = breakdownTotal count breakdown + count (tokenUsage entry))%nat.
Proof.
  unfold breakdownTotal. destruct (breakdown !! id) as [old|] eqn:E.
  - rewrite <- insert_delete_eq.
    rewrite map_fold_insert_L; [| intros; lia | apply lookup_delete_eq].
    rewrite (map_fold_delete_L _ _ id old breakdown); [lia | intros; lia | exact E].
  - rewrite map_fold_insert_L; [lia | intros; lia | exact E].
Qed.

Lemma totals_after_insert (metrics : FrameworkMetrics) (id : string)
    (fallback agentMetrics : AgentMetrics) (usage : option GoogleSearchMetadata)
    (elapsed : Q) (summary : GoogleSearchSummary) :
  tokenUsage fallback = mkTokenUsage 0 0 ->
  totalsMatchBreakdown metrics ->
  totalsMatchBreakdown
    (mkFrameworkMetrics elapsed
       (totalInputTokens metrics + inputTokens (tokenUsage agentMetrics))
       (totalOutputTokens metrics + outputTokens (tokenUsage agentMetrics))
       (<[id := addUsage
                  match agentBreakdown metrics !! id with
                  | Some existing => existing
                  | None => fallback
                  end agentMetrics usage]>
          (agentBreakdown metrics))
       summary).
Proof.
  intros Zero [Tin Tout]. unfold totalsMatchBreakdown.
  cbn [totalInputTokens totalOutputTokens agentBreakdown].
  set (entry := match agentBreakdown metrics !! id with
                | Some existing => existing
                | None => fallback
                end).
  pose proof (breakdownTotal_insert inputTokens (agentBreakdown metrics) id
                (addUsage entry agentMetrics usage)) as Bin.
  pose proof (breakdownTotal_insert outputTokens (agentBreakdown metrics) id
                (addUsage entry agentMetrics usage)) as Bout.
  unfold addUsage in Bin, Bout. cbn [tokenUsage inputTokens outputTokens] in Bin, Bout.
  unfold entry in *. unfold addUsage.
  destruct (agentBreakdown metrics !! id) as [existing|];
    rewrite ?Zero in *; cbn [inputTokens outputTokens] in *; split; lia.
Qed.

Lemma totals_expert (metrics metrics' : FrameworkMetrics) (id : string)
    (agentMetrics : AgentMetrics) (w w' : World) :
  totalsMatchBreakdown metrics ->
  trackExpertMetrics metrics id agentMetrics w = (Returns metrics', w') ->
  totalsMatchBreakdown metrics'.
Proof.
  intros T. unfold trackExpertMetrics.
  destruct (googleSearchUsage agentMetrics) as [usage|].
  - destruct (googleSearchUsage _) as [current|]; [|discriminate].
    intros E. injection E as <- _. now apply totals_after_insert.
  - intros E. injection E as <- _. now apply totals_after_insert.
Qed.

Lemma totals_final (metrics : FrameworkMetrics) (evalMetrics : AgentMetrics) :
  totalsMatchBreakdown metrics ->
  totalsMatchBreakdown (trackFinalMetrics metrics evalMetrics).
Proof. intros T. unfold trackFinalMetrics. now apply totals_after_insert. Qed.

Lemma totals_start (classMetrics summaryMetrics : AgentMetrics) :
  totalsMatchBreakdown (initialAnalysisMetrics classMetrics summaryMetrics).
Proof.
  unfold totalsMatchBreakdown, initialAnalysisMetrics, emptyMetrics.
  cbn [totalInputTokens totalOutputTokens agentBreakdown].
  pose proof (fun count =>
                breakdownTotal_insert count
                  (<[classificationAgentId := classMetrics]> ∅)
                  summarizeAgentId summaryMetrics) as B2.
  pose proof (fun count =>
                breakdownTotal_insert count ∅ classificationAgentId classMetrics) as B1.
  rewrite lookup_insert_ne in B2 by discriminate.
  rewrite lookup_empty in B1, B2.
  pose proof (B1 inputTokens) as I1. pose proof (B2 inputTokens) as I2.
  pose proof (B1 outputTokens) as O1. pose proof (B2 outputTokens) as O2.
  unfold breakdownTotal in I1 at 2, O1 at 2. rewrite map_fold_empty in I1, O1.
  split; lia.
Qed.

(** X14: the token totals of the metrics are the sums of the token counts
    of the entries of the per-agent breakdown: a run keeps this true, and
    the metrics a simulation ends with satisfy it. *)
Theorem token_totals_match_breakdown (host : Host)
    (frameworkConfig : FrameworkConfig.t) (configs : gmap string AgentConfig.t)
    (useGoogleSearch : bool) (w : World) :
  (forall context metrics,
      participantsConfigured configs ->
      expertEntriesReady metrics ->
      totalsMatchBreakdown metrics ->
      exists out w',
        runDiscussionAndDecision host frameworkConfig context configs metrics
          useGoogleSearch w
        = (Returns out, w') /\
        totalsMatchBreakdown (runMetrics out)) /\
  (forall currentProposal,
      simulationConfigured configs ->
      exists outcome w',
        runSimulation host frameworkConfig (Some configs) useGoogleSearch
          currentProposal w
        = (Returns (Some outcome), w') /\
        totalInputTokens (frameworkMetrics outcome)
        = map_fold (fun _ entry total => (inputTokens (tokenUsage entry) + total)%nat)
            0%nat (agentBreakdown (frameworkMetrics outcome)) /\
        totalOutputTokens (frameworkMetrics outcome)
        = map_fold (fun _ entry total => (outputTokens (tokenUsage entry) + total)%nat)
            0%nat (agentBreakdown (frameworkMetrics outcome))).
Proof.
  split.
  - intros context metrics Conf Ready T.
    destruct (runDiscussionAndDecision_step host frameworkConfig context configs
                useGoogleSearch totalsMatchBreakdown Conf) with (metrics := metrics) (w := w)
      as (out & w' & E & _ & _ & _ & _ & _ & _ & (_ & T' & _)); auto.
    + intros m m' id am w0 w1 _ Tm _ Em. exact (totals_expert _ _ _ _ _ _ Tm Em).
    + intros m em Tm. now apply totals_final.
    + now exists out, w'.
  - intros currentProposal Conf.
    destruct (runSimulation_returns host frameworkConfig configs useGoogleSearch
                currentProposal totalsMatchBreakdown (fun _ => True) Conf) with (w := w)
      as (r & w' & E & outcome & _ & -> & _ & _ & _ & _ & T); auto.
    + intros m m' id am w0 w1 _ Tm _ Em. exact (totals_expert _ _ _ _ _ _ Tm Em).
    + intros m em Tm. now apply totals_final.
    + apply summarize_returns.
    + intros cm s _. apply totals_start.
    + exists outcome, w'. split; [exact E | exact T].
Qed.

Lemma token_totals_match_breakdown_witness :
  exists outcome w',
    runSimulation host150 (demoFramework 2) (Some demoConfigs) true demoProposal
      startOfRun
    = (Returns (Some outcome), w') /\
    totalInputTokens (frameworkMetrics outcome)
    = map_fold (fun _ entry total => (inputTokens (tokenUsage entry) + total)%nat)
        0%nat (agentBreakdown (frameworkMetrics outcome)).
Proof.
  destruct (proj2 (token_totals_match_breakdown host150 (demoFramework 2) demoConfigs
                     true startOfRun)
              demoProposal demoConfigs_simulationConfigured)
    as (outcome & w' & E & T & _).
  exists outcome, w'. split; [exact E | exact T].
Defined.

(** ** A page that cannot be read *)

Lemma experts_not_summarize (id : string) :
  In id expertAgentIds -> id <> summarizeAgentId.
Proof. intros [<-|[<-|[<-|[]]]]; discriminate. Qed.

Lemma trackExpertMetrics_other_entry (metrics metrics' : FrameworkMetrics)
    (id other : string) (agentMetrics : AgentMetrics) (w w' : World) :
  id <> other ->
  trackExpertMetrics metrics id agentMetrics w = (Returns metrics', w') ->
  agentBreakdown metrics' !! other = agentBreakdown metrics !! other.
Proof.
  intros Ne. unfold trackExpertMetrics.
  destruct (googleSearchUsage agentMetrics) as [usage|].
  - destruct (googleSearchUsage _) as [current|]; [|discriminate].
    intros E. injection E as <- _. cbn [agentBreakdown]. now apply lookup_insert_ne.
  - intros E. injection E as <- _. cbn [agentBreakdown]. now apply lookup_insert_ne.
Qed.

(** X15: when the proposal has a URL and its page cannot be read (the
    request fails, or the reader answers with a status that is not OK), a
    configured simulation still completes its N iterations; the summary is
    the error text with the reason, and the summarization agent ends in the
    breakdown with zero duration and zero tokens. *)
Theorem simulation_survives_unreadable_page (host : Host)
    (frameworkConfig : FrameworkConfig.t) (configs : gmap string AgentConfig.t)
    (useGoogleSearch : bool) (currentProposal : ProposalData) (reason : string)
    (w : World) :
  simulationConfigured configs ->
  trim (url currentProposal) <> EmptyString ->
  fetchFailure (fetch host ("https://r.jina.ai/" ++ url currentProposal)) = Some reason ->
  exists outcome w',
    runSimulation host frameworkConfig (Some configs) useGoogleSearch
      currentProposal w
    = (Returns (Some outcome), w') /\
    contentSummary outcome
    = "Error: Could not retrieve or summarize content from URL. " ++ reason /\
    agentBreakdown (frameworkMetrics outcome) !! summarizeAgentId = Some zeroMetrics /\
    length (runEvaluations (discussionOutcome outcome))
    = FrameworkConfig.iterations frameworkConfig.
Proof.
  intros Conf Url Fail.
  destruct (runSimulation_returns host frameworkConfig configs useGoogleSearch
              currentProposal
              (fun metrics => agentBreakdown metrics !! summarizeAgentId = Some zeroMetrics)
              (fun summary =>
                 summary
                 = ("Error: Could not retrieve or summarize content from URL. " ++ reason,
                    zeroMetrics))
              Conf) with (w := w)
    as (r & w' & E & outcome & sm & -> & S & _ & Le & _ & B).
  - intros m m' id am w0 w1 Hid Hm _ Em.
    rewrite (trackExpertMetrics_other_entry _ _ _ _ _ _ _
               (experts_not_summarize id Hid) Em).
    exact Hm.
  - intros m em Hm. unfold trackFinalMetrics. cbn [agentBreakdown].
    rewrite lookup_insert_ne by discriminate. exact Hm.
  - intros m elapsed Hm. exact Hm.
  - intros w0. unfold summarize.
    destruct (String.eqb_spec (trim (url currentProposal)) EmptyString) as [Eq|_];
      [contradiction|]. cbn [negb]. unfold tryCatch.
    destruct (fetch host _) as [ok status body|message].
    + destruct ok; [discriminate|]. injection Fail as <-.
      eexists; eexists. split; reflexivity.
    + injection Fail as <-. eexists; eexists. split; reflexivity.
  - intros cm summary ->. unfold initialAnalysisMetrics. cbn [agentBreakdown snd].
    apply lookup_insert_eq.
  - exists outcome, w'. split; [exact E|]. injection S as -> _. auto.
Qed.

Lemma simulation_survives_unreadable_page_witness :
  exists outcome w',
    runSimulation host150 (demoFramework 1) (Some demoConfigs) true
      (mkProposalData "Fund the grant programme." "2025-01-01" "https://example.org/p")
      startOfRun
    = (Returns (Some outcome), w') /\
    contentSummary outcome
    = "Error: Could not retrieve or summarize content from URL. Failed to fetch".
Proof.
  destruct (simulation_survives_unreadable_page host150 (demoFramework 1) demoConfigs
              true
              (mkProposalData "Fund the grant programme." "2025-01-01"
                 "https://example.org/p")
              "Failed to fetch" startOfRun demoConfigs_simulationConfigured)
    as (outcome & w' & E & S & _).
  - vm_compute. discriminate.
  - reflexivity.
  - exists outcome, w'. split; [exact E | exact S].
Defined.

(** ** When no scoring output can be parsed *)

Lemma numericScores_constant (values : list jsval) (c : Q) :
  Forall (fun v => v = JNum c) values ->
  numericScores values = Some (repeat c (length values)).
Proof.
  induction 1 as [|v values -> _ IH]; [reflexivity|].
  cbn [numericScores length repeat]. now rewrite IH.
Qed.

Lemma rle_zero (c : Q) : (0 <= c)%Q -> rle (RNum 0) c = true.
Proof.
  intros H. unfold rle. destruct (Rle_dec 0 (Q2R c)) as [_|N]; [reflexivity|].
  exfalso. apply N. apply Qle_Rle in H.
  replace (Q2R 0) with 0%R in H by (unfold Q2R; simpl; lra). exact H.
Qed.

(** The aggregate of records that all carry the score [c]. *)
Lemma aggregate_unanimous (records : list IterationRecord) (c : Q) :
  records <> [] ->
  Forall (fun record => feasibilityScore (evaluation record) = JNum c) records ->
  exists finalResult opinions,
    aggregate records = Aggregated finalResult opinions /\
    decision finalResult = decisionOf (Num c) /\
    isNum (medianScore finalResult) c /\
    isNum (mean (statistics finalResult)) c /\
    standardDeviation (statistics finalResult) = RNum 0 /\
    confidenceLevel (statistics finalResult) = "High".
Proof.
  intros NE All. unfold aggregate.
  rewrite (numericScores_constant _ c), length_map.
  2:{ apply Forall_map. exact All. }
  destruct (statistics_unanimous (repeat c (length records)) c)
    as (m & med & Hm & Em & Hmed & Emed & Hsd).
  { destruct records; [contradiction | discriminate]. }
  { apply List.Forall_forall. intros x Hx. apply repeat_spec in Hx. now subst. }
  eexists; eexists. split; [reflexivity|].
  cbn [decision medianScore statistics]. unfold statisticsOf.
  cbn [mean median standardDeviation confidenceLevel].
  rewrite Hm, Hmed, Hsd. cbn [isNum].
  split; [now apply decisionOf_wd|]. split; [exact Emed|]. split; [exact Em|].
  split; [reflexivity|].
  unfold confidenceLevelOf. rewrite rle_zero; [reflexivity | discriminate].
Qed.

Lemma all_failures_score_50 (host : Host) (evaluations : list IterationRecord)
    (outputs : list string) :
  length evaluations = length outputs ->
  map evaluation evaluations = recordsOf host outputs ->
  (forall content,
      In content outputs -> exists message, JSON_parse host content = SyntaxError message) ->
  Forall (fun record => feasibilityScore (evaluation record) = JNum 50) evaluations.
Proof.
  intros Len Rec AllFail. apply List.Forall_forall. intros record Hin.
  destruct (In_nth_error _ _ Hin) as [k Hr].
  assert (Hk : (k < length outputs)%nat).
  { rewrite <- Len. apply nth_error_Some. congruence. }
  destruct (nth_error outputs k) as [content|] eqn:Hc;
    [|apply nth_error_Some in Hk; contradiction].
  destruct (AllFail content (nth_error_In _ _ Hc)) as [message Hp].
  rewrite (record_of_output host _ _ k record content Rec Hr Hc).
  now rewrite (evaluationResultOf_syntax_error host (S k) content message Hp).
Qed.

(** X16: when no scoring output of a run can be parsed, the records all
    carry the placeholder score and the aggregate looks like a unanimous
    verdict: decision "Proceed with Caution", median and mean 50, standard
    deviation 0 and confidence "High". *)
Theorem unparsable_outputs_look_unanimous (host : Host)
    (frameworkConfig : FrameworkConfig.t) (context : string)
    (configsForRun : gmap string AgentConfig.t) (metrics : FrameworkMetrics)
    (googleSearchEnabled : bool) (w : World) :
  participantsConfigured configsForRun ->
  expertEntriesReady metrics ->
  (1 <= FrameworkConfig.iterations frameworkConfig)%nat ->
  exists out w',
    runDiscussionAndDecision host frameworkConfig context configsForRun metrics
      googleSearchEnabled w
    = (Returns out, w') /\
    ((forall content,
         In content (runScoringOutputs out) ->
         exists message, JSON_parse host content = SyntaxError message) ->
     exists finalResult opinions,
       runFinalDecision out = Aggregated finalResult opinions /\
       decision finalResult = "Proceed with Caution" /\
       isNum (medianScore finalResult) 50 /\
       isNum (mean (statistics finalResult)) 50 /\
       standardDeviation (statistics finalResult) = RNum 0 /\
       confidenceLevel (statistics finalResult) = "High").
Proof.
  intros Conf Ready Pos.
  destruct (runDiscussionAndDecision_returns host frameworkConfig context
              configsForRun googleSearchEnabled Conf metrics Ready w)
    as (out & w' & E & Le & Lo & Rec & Agg).
  exists out, w'. split; [exact E|].
  intros AllFail. rewrite Agg.
  destruct (aggregate_unanimous (runEvaluations out) 50)
    as (finalResult & opinions & A & D & rest).
  - intros Nil. rewrite Nil in Le. simpl in Le. lia.
  - apply (all_failures_score_50 host _ (runScoringOutputs out));
      [congruence | exact Rec | exact AllFail].
  - exists finalResult, opinions. split; [exact A|]. split; [|exact rest].
    rewrite D. reflexivity.
Qed.

Lemma unparsable_outputs_look_unanimous_witness :
  exists out w',
    runDiscussionAndDecision failingHost (demoFramework 3) "The proposal."
      demoConfigs emptyMetrics true startOfRun
    = (Returns out, w') /\
    ((forall content,
         In content (runScoringOutputs out) ->
         exists message, JSON_parse failingHost content = SyntaxError message) ->
     exists finalResult opinions,
       runFinalDecision out = Aggregated finalResult opinions /\
       decision finalResult = "Proceed with Caution" /\
       isNum (medianScore finalResult) 50 /\
       isNum (mean (statistics finalResult)) 50 /\
       standardDeviation (statistics finalResult) = RNum 0 /\
       confidenceLevel (statistics finalResult) = "High").
Proof.
  apply (unparsable_outputs_look_unanimous failingHost (demoFramework 3)
           "The proposal." demoConfigs emptyMetrics true startOfRun
           demoConfigs_configured emptyMetrics_ready).
  simpl. lia.
Defined.

(** ** The display name of a participant *)

Lemma split_nonempty (separator : ascii) (s : string) : split separator s <> [].
Proof.
  destruct s as [|c rest]; [discriminate|]. cbn [split].
  destruct (Ascii.eqb c separator); [discriminate|].
  destruct (split separator rest); discriminate.
Qed.

Lemma split_without (separator : ascii) (s : string) :
  without separator s = true -> split separator s = [s].
Proof.
  unfold without. induction s as [|c rest IH]; [reflexivity|].
  cbn [allChars split]. intros H. apply andb_prop in H as [Hc Hrest].
  apply negb_true_iff in Hc. rewrite Hc, (IH Hrest). reflexivity.
Qed.

Lemma split_segments (separator : ascii) (s : string) :
  Forall (fun segment => without separator segment = true) (split separator s).
Proof.
  unfold without. induction s as [|c rest IH]; [now repeat constructor|].
  cbn [split]. destruct (Ascii.eqb c separator) eqn:Hc.
  - constructor; [reflexivity | exact IH].
  - destruct (split separator rest) as [|first others].
    + constructor; [|constructor]. cbn [allChars]. now rewrite Hc.
    + inversion IH as [|? ? Hfirst Hothers]; subst.
      constructor; [|exact Hothers]. cbn [allChars]. now rewrite Hc, Hfirst.
Qed.

Lemma split_at_separator (separator : ascii) (a b : string) :
  without separator a = true ->
  split separator (a ++ String separator b) = a :: split separator b.
Proof.
  unfold without. induction a as [|c rest IH]; intros H.
  - rewrite append_empty. cbn [split]. now rewrite Ascii.eqb_refl.
  - cbn [allChars] in H. apply andb_prop in H as [Hc Hrest].
    apply negb_true_iff in Hc. rewrite append_cons. cbn [split].
    now rewrite Hc, (IH Hrest).
Qed.

Lemma allChars_dropWhile (p q : ascii -> bool) (s : string) :
  allChars p s = true -> allChars p (dropWhile q s) = true.
Proof.
  induction s as [|c rest IH]; [reflexivity|]. cbn [dropWhile].
  destruct (q c); [|auto]. cbn [allChars]. intros H.
  apply andb_prop in H as [_ H]. auto.
Qed.

Lemma allChars_trimEnd (p : ascii -> bool) (s : string) :
  allChars p s = true -> allChars p (trimEnd s) = true.
Proof.
  induction s as [|c rest IH]; [reflexivity|]. cbn [trimEnd allChars]. intros H.
  apply andb_prop in H as [Hc Hrest].
  destruct (isWhitespace c && String.eqb (trimEnd rest) EmptyString); [reflexivity|].
  cbn [allChars]. now rewrite Hc, IH.
Qed.

Lemma allChars_trim (p : ascii -> bool) (s : string) :
  allChars p s = true -> allChars p (trim s) = true.
Proof. intros H. apply allChars_trimEnd, allChars_dropWhile, H. Qed.

Lemma displayName_without_colon (name : string) :
  without ":"%char name = true -> displayName name = name.
Proof. intros H. unfold displayName. now rewrite (split_without _ _ H). Qed.

(** X17: taking the display name of a display name, as the PDF report does
    with the messages of the transcript, changes nothing; a name without a
    colon is its own display name; and a name with one colon and text after
    it is shown as that text, trimmed. *)
Theorem displayName_idempotent (name : string) :
  displayName (displayName name) = displayName name /\
  (without ":"%char name = true -> displayName name = name) /\
  (forall before after,
      without ":"%char before = true ->
      without ":"%char after = true ->
      trim after <> EmptyString ->
      displayName (before ++ ":" ++ after) = trim after).
Proof.
  split; [|split].
  - unfold displayName at 2 3.
    pose proof (split_segments ":"%char name) as Segments.
    destruct (split ":"%char name) as [|first [|second others]] eqn:E;
      try (unfold displayName; now rewrite E).
    destruct (String.eqb (trim second) EmptyString) eqn:Blank;
      [unfold displayName; now rewrite E, Blank|].
    apply displayName_without_colon.
    inversion Segments as [|? ? _ Rest]; subst.
    inversion Rest as [|? ? Second _]; subst.
    now apply allChars_trim.
  - apply displayName_without_colon.
  - intros before after Hb Ha Ht. unfold displayName.
    change (":" ++ after) with (String ":"%char after).
    rewrite (split_at_separator _ _ _ Hb), (split_without _ _ Ha).
    destruct (String.eqb_spec (trim after) EmptyString); [contradiction | reflexivity].
Qed.

Lemma displayName_idempotent_witness :
  displayName ("Expert 1" ++ ":" ++ " Dr. Anya Sharma (Finance)")
  = trim " Dr. Anya Sharma (Finance)".
Proof.
  apply (proj2 (proj2 (displayName_idempotent "Expert 1"))).
  - reflexivity.
  - reflexivity.
  - discriminate.
Defined.

(** ** Placeholders and dollar signs *)

Lemma expandReplacement_plain (replacement matched before after : string) :
  without "$"%char replacement = true ->
  expandReplacement replacement matched before after = replacement.
Proof.
  unfold without. induction replacement as [|c rest IH]; [reflexivity|].
  cbn [allChars]. intros H. apply andb_prop in H as [Hc Hrest].
  specialize (IH Hrest).
  destruct c as [[] [] [] [] [] [] [] []]; try discriminate Hc;
    cbn [expandReplacement]; now rewrite IH.
Qed.

Lemma prefix_append (p s : string) :
  String.prefix p s = true -> s = p ++ substringFrom (String.length p) s.
Proof.
  revert s. induction p as [|c p IH]; intros s H.
  - now rewrite append_empty.
  - destruct s as [|d s]; [discriminate|]. cbn [String.prefix] in H.
    destruct (ascii_dec c d) as [<-|]; [|discriminate].
    rewrite append_cons. cbn [String.length substringFrom]. f_equal. now apply IH.
Qed.

Lemma splitAtFirst_append (pattern s before after : string) :
  splitAtFirst pattern s = Some (before, after) ->
  s = before ++ pattern ++ after.
Proof.
  revert before after. induction s as [|c rest IH]; intros before after H.
  - cbn [splitAtFirst] in H.
    destruct (String.prefix pattern EmptyString) eqn:P; [|discriminate].
    injection H as <- <-. rewrite append_empty. now apply prefix_append.
  - cbn [splitAtFirst] in H.
    destruct (String.prefix pattern (String c rest)) eqn:P.
    + injection H as <- <-. rewrite append_empty. now apply prefix_append.
    + destruct (splitAtFirst pattern rest) as [[b a]|]; [|discriminate].
      injection H as <- <-. rewrite append_cons. f_equal. now apply IH.
Qed.

(** X18: a placeholder is replaced by a text as it is when the text has no
    dollar sign: the prompt keeps what stands before and after the first
    occurrence of the placeholder, with the text in between, and a prompt
    without the placeholder is unchanged.  A text with a dollar pattern is
    not inserted as it is: the pattern is expanded. *)
Theorem replace_inserts_text_without_dollar (pattern text s : string) :
  (without "$"%char text = true ->
   match splitAtFirst pattern s with
   | Some (before, after) =>
       s = before ++ pattern ++ after /\
       replace pattern text s = before ++ text ++ after
   | None => replace pattern text s = s
   end) /\
  replace "{expert_discussion_transcript}" "costs $& more"
    "Transcript: {expert_discussion_transcript}"
  = "Transcript: costs {expert_discussion_transcript} more".
Proof.
  split; [|reflexivity].
  intros H. unfold replace.
  destruct (splitAtFirst pattern s) as [[before after]|] eqn:E; [|reflexivity].
  split; [now apply splitAtFirst_append|].
  now rewrite expandReplacement_plain.
Qed.

Lemma replace_inserts_text_without_dollar_witness :
  replace "{proposal_info}" "Fund the grant." "Classify: {proposal_info}!"
  = "Classify: " ++ "Fund the grant." ++ "!".
Proof.
  exact (proj2 (proj1 (replace_inserts_text_without_dollar "{proposal_info}"
                         "Fund the grant." "Classify: {proposal_info}!")
                  eq_refl)).
Defined.

(** ** A better median never gives a worse decision *)

Lemma Math_round_monotone (x y : Q) : (x <= y)%Q -> (Math_round x <= Math_round y)%Z.
Proof. intros H. unfold Math_round. apply Qfloor_resp_le. Lqa.lra. Qed.

(** X19: on both paths the decision is monotone in the median: a higher
    median never gives a less favourable category, in the label computed by
    the aggregation and in the recommendation shown. *)
Theorem decisions_are_monotone (m1 m2 : Q) :
  (m1 <= m2)%Q ->
  (exists r1 r2,
      labelRank (decisionOf (Num m1)) = Some r1 /\
      labelRank (decisionOf (Num m2)) = Some r2 /\
      (r1 <= r2)%nat) /\
  (exists r1 r2,
      labelRank (renderRecommendation (Num m1)) = Some r1 /\
      labelRank (renderRecommendation (Num m2)) = Some r2 /\
      (r1 <= r2)%nat).
Proof.
  intros H. split.
  - unfold decisionOf, nge, nle.
    destruct (Qle_bool 70 m1) eqn:A1; destruct (Qle_bool 50 m1) eqn:B1;
      destruct (Qle_bool 70 m2) eqn:A2; destruct (Qle_bool 50 m2) eqn:B2;
      try (eexists; eexists; split; [reflexivity|]; split; [reflexivity|];
           cbn; lia);
      exfalso;
      repeat match goal with
             | E : Qle_bool _ _ = true |- _ => apply Qle_bool_iff in E
             | E : Qle_bool _ _ = false |- _ => apply Qle_bool_false in E
             end; Lqa.lra.
  - pose proof (Math_round_monotone m1 m2 H) as R.
    unfold renderRecommendation, renderedMedianScore.
    destruct (80 <? Math_round m1)%Z eqn:A1; destruct (50 <=? Math_round m1)%Z eqn:B1;
      destruct (30 <=? Math_round m1)%Z eqn:C1;
      destruct (80 <? Math_round m2)%Z eqn:A2; destruct (50 <=? Math_round m2)%Z eqn:B2;
      destruct (30 <=? Math_round m2)%Z eqn:C2;
      try (eexists; eexists; split; [reflexivity|]; split; [reflexivity|];
           cbn; lia);
      exfalso; lia.
Qed.

Lemma decisions_are_monotone_witness :
  exists r1 r2,
    labelRank (renderRecommendation (Num 49)) = Some r1 /\
    labelRank (renderRecommendation (Num (99 # 2))) = Some r2 /\
    (r1 <= r2)%nat.
Proof.
  apply (decisions_are_monotone 49 (99 # 2)). unfold Qle. simpl. lia.
Defined.

(** ** The search summary and the breakdown *)

Lemma list_sum_update (f g : string -> nat) (l : list string) (id : string) (extra : nat) :
  List.NoDup l -> In id l ->
  g id = (f id + extra)%nat ->
  (forall x, x <> id -> g x = f x) ->
  list_sum (map g l) = (list_sum (map f l) + extra)%nat.
Proof.
  intros ND Hin Hid Hother. induction ND as [|x l Hx ND IH]; [contradiction|].
  cbn [map list_sum fold_right]. fold (list_sum (map g l)) (list_sum (map f l)).
  destruct Hin as [->|Hin].
  - rewrite Hid.
    assert (Same : map g l = map f l).
    { apply map_ext_in. intros y Hy. apply Hother. intros ->. contradiction. }
    rewrite Same. lia.
  - rewrite (IH Hin), (Hother x); [lia|]. intros ->. contradiction.
Qed.

Lemma experts_NoDup : List.NoDup expertAgentIds.
Proof.
  repeat constructor; simpl; intuition discriminate.
Qed.

Lemma includes_In (items : list string) (x : string) :
  includes items x = true <-> In x items.
Proof.
  unfold includes. rewrite existsb_exists. split.
  - intros (y & Hy & E). apply String.eqb_eq in E. now subst.
  - intros H. exists x. split; [exact H | apply String.eqb_refl].
Qed.

Lemma lengthOrZero_orEmpty {A : Type} (l : option (list A)) :
  lengthOrZero l = length (orEmpty l).
Proof. now destruct l. Qed.

(** What one expert call does to the recorded usage and to the summary. *)
Lemma trackExpertMetrics_search (metrics metrics' : FrameworkMetrics) (id : string)
    (agentMetrics : AgentMetrics) (usage : GoogleSearchMetadata) (w w' : World) :
  googleSearchUsage agentMetrics = Some usage ->
  trackExpertMetrics metrics id agentMetrics w = (Returns metrics', w') ->
  exists current,
    used current = used (searchUsageOf metrics id) /\
    queriesCount current = queriesCount (searchUsageOf metrics id) /\
    sourcesCount current = sourcesCount (searchUsageOf metrics id) /\
    lengthOrZero (queries current) = lengthOrZero (queries (searchUsageOf metrics id)) /\
    lengthOrZero (sources current) = lengthOrZero (sources (searchUsageOf metrics id)) /\
    searchUsageOf metrics' id = mergeSearchUsage current usage /\
    (forall other, other <> id -> searchUsageOf metrics' other = searchUsageOf metrics other) /\
    googleSearchSummary metrics'
    = updateSearchSummary (googleSearchSummary metrics) id usage.
Proof.
  intros Hu. unfold trackExpertMetrics. rewrite Hu.
  destruct (googleSearchUsage
              match agentBreakdown metrics !! id with
              | Some existing => existing
              | None => freshExpertEntry
              end) as [current|] eqn:Hcur; [|discriminate].
  intros E. injection E as <- _. exists current.
  assert (Same : used current = used (searchUsageOf metrics id) /\
                 queriesCount current = queriesCount (searchUsageOf metrics id) /\
                 sourcesCount current = sourcesCount (searchUsageOf metrics id) /\
                 lengthOrZero (queries current)
                 = lengthOrZero (queries (searchUsageOf metrics id)) /\
                 lengthOrZero (sources current)
                 = lengthOrZero (sources (searchUsageOf metrics id))).
  { unfold searchUsageOf. destruct (agentBreakdown metrics !! id) as [existing|].
    - rewrite Hcur. repeat split.
    - injection Hcur as <-. repeat split. }
  destruct Same as (S1 & S2 & S3 & S4 & S5).
  repeat (split; [assumption|]).
  split; [|split].
  - unfold searchUsageOf. cbn [agentBreakdown]. now rewrite lookup_insert_eq.
  - intros other Ne. unfold searchUsageOf. cbn [agentBreakdown].
    now rewrite lookup_insert_ne by congruence.
  - reflexivity.
Qed.

Lemma summary_expert (metrics metrics' : FrameworkMetrics) (id : string)
    (agentMetrics : AgentMetrics) (w w' : World) :
  In id expertAgentIds ->
  searchSummaryMatches metrics ->
  metricsFromInvoker agentMetrics ->
  trackExpertMetrics metrics id agentMetrics w = (Returns metrics', w') ->
  searchSummaryMatches metrics'.
Proof.
  intros Hid (ND & Used & Q & S & C & L) (usage & Hu & (Off & UQ & US)) E.
  destruct (trackExpertMetrics_search _ _ _ _ usage _ _ Hu E)
    as (current & S1 & S2 & S3 & S4 & S5 & New & Other & Sum).
  destruct (L id Hid) as [LQ LS].
  assert (NewQ : queriesCount (searchUsageOf metrics' id)
                 = (queriesCount (searchUsageOf metrics id) + queriesCount usage)%nat).
  { rewrite New. cbn [mergeSearchUsage queriesCount]. lia. }
  assert (NewS : sourcesCount (searchUsageOf metrics' id)
                 = (sourcesCount (searchUsageOf metrics id) + sourcesCount usage)%nat).
  { rewrite New. cbn [mergeSearchUsage sourcesCount]. lia. }
  assert (NewU : used (searchUsageOf metrics' id)
                 = used (searchUsageOf metrics id) || used usage).
  { rewrite New. cbn [mergeSearchUsage used]. now rewrite S1. }
  assert (SumQ : list_sum (map (fun x => queriesCount (searchUsageOf metrics' x))
                             expertAgentIds)
                 = (list_sum (map (fun x => queriesCount (searchUsageOf metrics x))
                                expertAgentIds) + queriesCount usage)%nat).
  { apply (list_sum_update _ _ _ id); auto using experts_NoDup.
    intros x Ne. now rewrite Other. }
  assert (SumS : list_sum (map (fun x => sourcesCount (searchUsageOf metrics' x))
                             expertAgentIds)
                 = (list_sum (map (fun x => sourcesCount (searchUsageOf metrics x))
                                expertAgentIds) + sourcesCount usage)%nat).
  { apply (list_sum_update _ _ _ id); auto using experts_NoDup.
    intros x Ne. now rewrite Other. }
  assert (Lengths :
            forall x, In x expertAgentIds ->
                      queriesCount (searchUsageOf metrics' x)
                      = lengthOrZero (queries (searchUsageOf metrics' x)) /\
                      sourcesCount (searchUsageOf metrics' x)
                      = lengthOrZero (sources (searchUsageOf metrics' x))).
  { intros x Hx. destruct (decide (x = id)) as [->|Ne];
      [|rewrite (Other x Ne); now apply L].
    rewrite NewQ, NewS, New. cbn [mergeSearchUsage queries sources].
    split.
    - destruct (queries usage) as [qs|] eqn:Eq.
      + cbn [lengthOrZero] in UQ |- *.
        rewrite length_app, <- lengthOrZero_orEmpty. lia.
      + cbn [lengthOrZero] in UQ. lia.
    - destruct (sources usage) as [ss|] eqn:Es.
      + cbn [lengthOrZero] in US |- *.
        rewrite length_app, <- lengthOrZero_orEmpty. lia.
      + cbn [lengthOrZero] in US. lia. }
  unfold searchSummaryMatches. rewrite Sum. unfold updateSearchSummary.
  destruct (used usage) eqn:Eu.
  - cbn [agentsUsed totalQueries totalSources totalUsageCount].
    rewrite SumQ, SumS, Q, S.
    destruct (includes (agentsUsed (googleSearchSummary metrics)) id) eqn:Inc.
    + apply includes_In in Inc.
      split; [exact ND|]. split.
      { intros x. destruct (decide (x = id)) as [->|Ne].
        - rewrite NewU, orb_true_r. tauto.
        - rewrite (Other x Ne). apply Used. }
      split; [reflexivity|]. split; [reflexivity|]. split; [lia | exact Lengths].
    + assert (NotIn : ~ In id (agentsUsed (googleSearchSummary metrics))).
      { intros H. apply includes_In in H. congruence. }
      split.
      { apply List.NoDup_app; [exact ND | repeat constructor; simpl; tauto |].
        intros x Hx [<-|[]]. contradiction. }
      split.
      { intros x. rewrite in_app_iff. cbn [In].
        destruct (decide (x = id)) as [->|Ne].
        - rewrite NewU, orb_true_r. tauto.
        - rewrite (Other x Ne), <- Used. intuition congruence. }
      split; [reflexivity|]. split; [reflexivity|].
      split; [rewrite length_app; cbn [length]; lia | exact Lengths].
  - rewrite (Off eq_refl) in SumQ, SumS. cbn [queriesCount sourcesCount noSearch] in SumQ, SumS.
    rewrite Nat.add_0_r in SumQ, SumS. rewrite orb_false_r in NewU.
    split; [exact ND|]. split.
    { intros x. destruct (decide (x = id)) as [->|Ne].
      - rewrite NewU. apply Used.
      - rewrite (Other x Ne). apply Used. }
    split; [now rewrite SumQ|]. split; [now rewrite SumS|].
    split; [exact C | exact Lengths].
Qed.

Lemma searchUsageOf_other_entry (metrics metrics' : FrameworkMetrics) :
  (forall id, In id expertAgentIds ->
              agentBreakdown metrics' !! id = agentBreakdown metrics !! id) ->
  googleSearchSummary metrics' = googleSearchSummary metrics ->
  searchSummaryMatches metrics -> searchSummaryMatches metrics'.
Proof.
  intros Same Sum (ND & Used & Q & S & C & L).
  assert (U : forall id, In id expertAgentIds ->
                         searchUsageOf metrics' id = searchUsageOf metrics id).
  { intros id Hid. unfold searchUsageOf. now rewrite Same. }
  unfold searchSummaryMatches. rewrite Sum.
  split; [exact ND|]. split.
  { intros id. rewrite Used. split; intros [Hid Hu]; (split; [exact Hid|]);
      [rewrite U | rewrite <- U]; assumption. }
  split.
  { rewrite Q. f_equal. apply map_ext_in. intros id Hid. now rewrite U. }
  split.
  { rewrite S. f_equal. apply map_ext_in. intros id Hid. now rewrite U. }
  split; [exact C|]. intros id Hid. rewrite (U id Hid). now apply L.
Qed.

Lemma summary_final (metrics : FrameworkMetrics) (evalMetrics : AgentMetrics) :
  searchSummaryMatches metrics ->
  searchSummaryMatches (trackFinalMetrics metrics evalMetrics).
Proof.
  apply searchUsageOf_other_entry; [|reflexivity].
  intros id Hid. unfold trackFinalMetrics. cbn [agentBreakdown].
  apply lookup_insert_ne. intros <-. now apply finalAgent_not_expert.
Qed.

Lemma summary_without_experts (metrics : FrameworkMetrics) :
  (forall id, In id expertAgentIds -> agentBreakdown metrics !! id = None) ->
  googleSearchSummary metrics = mkGoogleSearchSummary 0 0 0 [] ->
  searchSummaryMatches metrics.
Proof.
  intros None Sum.
  assert (U : forall id, In id expertAgentIds -> searchUsageOf metrics id = noSearch).
  { intros id Hid. unfold searchUsageOf. now rewrite None. }
  unfold searchSummaryMatches. rewrite Sum.
  cbn [agentsUsed totalQueries totalSources totalUsageCount].
  split; [constructor|]. split.
  { intros id. split; [intros [] | intros [Hid Hu]].
    rewrite (U id Hid) in Hu. discriminate. }
  assert (Zero : forall f : GoogleSearchMetadata -> nat,
             f noSearch = 0%nat ->
             list_sum (map (fun id => f (searchUsageOf metrics id)) expertAgentIds)
             = 0%nat).
  { intros f Hf.
    rewrite (map_ext_in _ (fun _ => 0%nat)); [reflexivity|].
    intros id Hid. now rewrite (U id Hid). }
  split; [now rewrite Zero|]. split; [now rewrite Zero|]. split; [cbn [length]; lia|].
  intros id Hid. now rewrite (U id Hid).
Qed.

(** X20: the search summary agrees with the per-agent breakdown: the agents
    it lists are, without repetition, the experts whose entry is marked as
    having searched; its numbers of queries and sources are the sums over
    the three expert entries; and every expert entry counts exactly the
    queries and sources it lists.  A run keeps this true, and the metrics a
    configured simulation ends with satisfy it. *)
Theorem search_summary_matches_breakdown (host : Host)
    (frameworkConfig : FrameworkConfig.t) (configs : gmap string AgentConfig.t)
    (useGoogleSearch : bool) (w : World) :
  (forall context metrics,
      participantsConfigured configs ->
      expertEntriesReady metrics ->
      searchSummaryMatches metrics ->
      exists out w',
        runDiscussionAndDecision host frameworkConfig context configs metrics
          useGoogleSearch w
        = (Returns out, w') /\
        searchSummaryMatches (runMetrics out)) /\
  (forall currentProposal,
      simulationConfigured configs ->
      exists outcome w',
        runSimulation host frameworkConfig (Some configs) useGoogleSearch
          currentProposal w
        = (Returns (Some outcome), w') /\
        searchSummaryMatches (frameworkMetrics outcome)).
Proof.
  split.
  - intros context metrics Conf Ready T.
    destruct (runDiscussionAndDecision_step host frameworkConfig context configs
                useGoogleSearch searchSummaryMatches Conf) with (metrics := metrics) (w := w)
      as (out & w' & E & _ & _ & _ & _ & _ & _ & (_ & T' & _)); auto.
    + intros m m' id am w0 w1 Hid Tm Fm Em. exact (summary_expert _ _ _ _ _ _ Hid Tm Fm Em).
    + intros m em Tm. now apply summary_final.
    + now exists out, w'.
  - intros currentProposal Conf.
    destruct (runSimulation_returns host frameworkConfig configs useGoogleSearch
                currentProposal searchSummaryMatches (fun _ => True) Conf) with (w := w)
      as (r & w' & E & outcome & _ & -> & _ & _ & _ & _ & T); auto.
    + intros m m' id am w0 w1 Hid Tm Fm Em. exact (summary_expert _ _ _ _ _ _ Hid Tm Fm Em).
    + intros m em Tm. now apply summary_final.
    + apply summarize_returns.
    + intros cm s _. apply summary_without_experts; [|reflexivity].
      intros id Hid. unfold initialAnalysisMetrics, emptyMetrics. cbn [agentBreakdown].
      rewrite !lookup_insert_ne, lookup_empty; [reflexivity| |];
        intros <-; simpl in Hid; intuition discriminate.
    + exists outcome, w'. split; [exact E | exact T].
Qed.

Lemma search_summary_matches_breakdown_witness :
  exists outcome w',
    runSimulation host150 (demoFramework 2) (Some demoConfigs) true demoProposal
      startOfRun
    = (Returns (Some outcome), w') /\
    searchSummaryMatches (frameworkMetrics outcome).
Proof.
  exact (proj2 (search_summary_matches_breakdown host150 (demoFramework 2) demoConfigs
                  true startOfRun)
           demoProposal demoConfigs_simulationConfigured).
Defined.

(** ** Questions to the experts *)

Lemma logs_promiseAll {A B : Type} (good : Invocation -> Prop)
    (callback : A -> Async B) (items : list A) :
  (forall item, logs good (callback item)) -> logs good (promiseAll callback items).
Proof.
  intros Hc. induction items as [|item rest IH]; [apply logs_ret|].
  intros w H. cbn [promiseAll]. specialize (Hc item w H).
  destruct (callback item w) as [[b|e] w1]; cbn [snd] in *.
  - specialize (IH w1 Hc).
    destruct (promiseAll callback rest w1) as [[bs|e] w2]; exact IH.
  - exact (IH w1 Hc).
Qed.

(** One call of the invoker for a configured participant, with the prompt
    it falls back to when the one it is given is empty. *)
Lemma runAgent_call_any (host : Host) (frameworkConfig : FrameworkConfig.t)
    (configs : gmap string AgentConfig.t) (agentId : string) (config : AgentConfig.t)
    (dynamicPrompt : string) (useGoogleSearch : bool) (w : World) :
  configs !! agentId = Some config ->
  exists content agentMetrics prompt w',
    runAgent host agentId (Some configs) (Some dynamicPrompt) useGoogleSearch
      (FrameworkConfig.seed frameworkConfig)
      (FrameworkConfig.temperature frameworkConfig) w
    = (Returns (content, agentMetrics), w') /\
    prompt = (if String.eqb dynamicPrompt EmptyString
              then AgentConfig.prompt config else dynamicPrompt) /\
    requests w'
    = (requests w
       ++ sentBy host
            [mkInvocation agentId
               (requestOf frameworkConfig agentId config prompt useGoogleSearch)])%list /\
    clockReadings w' = S (S (clockReadings w)).
Proof.
  intros Hc.
  destruct (String.eqb_spec dynamicPrompt EmptyString) as [->|Ne].
  - destruct (decide (AgentConfig.prompt config = EmptyString)) as [Blank|Filled].
    + unfold runAgent. rewrite Hc. cbn [nonEmpty String.eqb].
      unfold runAgentQuery, sentBy, requestOf. rewrite Blank.
      destruct (includes forceZeroTempAgents agentId);
        (destruct (GEMINI_API_KEY host); cbn [negb];
         [ unfold bind, performanceNow, callGenerateContent;
           cbn [requests clockReadings];
           match goal with
           | |- context [generateContent ?h ?n ?r] => destruct (generateContent h n r)
           end;
           do 4 eexists; (split; [reflexivity|]); (split; [reflexivity|]);
           split; reflexivity
         | unfold bind, performanceNow, ret; cbn [requests clockReadings];
           do 4 eexists; split; [reflexivity|]; split; [reflexivity|];
           cbn [requests clockReadings]; now rewrite app_nil_r ]).
    + destruct (runAgent_call host frameworkConfig configs agentId config
                  (AgentConfig.prompt config) useGoogleSearch w Hc Filled)
        as (content & elapsed & usage & w' & E & L & C & _).
      eexists content, _, (AgentConfig.prompt config), w'.
      split; [|split; [reflexivity | split; [exact L | exact C]]].
      unfold runAgent in *. rewrite Hc in *. cbn [nonEmpty String.eqb].
      rewrite (nonEmpty_some _ Filled) in E. exact E.
  - destruct (runAgent_call host frameworkConfig configs agentId config
                dynamicPrompt useGoogleSearch w Hc Ne)
      as (content & elapsed & usage & w' & E & L & C & _).
    eexists content, _, dynamicPrompt, w'.
    split; [exact E | split; [reflexivity | split; [exact L | exact C]]].
Qed.

Lemma qaPromptOf_nonempty (context question : string) (agentConfig : AgentConfig.t) :
  truncatePromptIfNeeded (qaPromptOf context question agentConfig) MAX_CONTEXT_TOKENS
  <> EmptyString.
Proof.
  apply truncate_nonempty. intros E. apply (f_equal String.length) in E.
  unfold qaPromptOf in E. rewrite !length_append in E. simpl in E. lia.
Qed.

Lemma sameButInstruction_refl (config : AgentConfig.t) : sameButInstruction config config.
Proof. repeat split. Qed.

Lemma onlyInstructionsChanged_refl (configs : gmap string AgentConfig.t) :
  onlyInstructionsChanged configs configs.
Proof.
  intros key. destruct (configs !! key); [|exact I].
  split; [apply sameButInstruction_refl | reflexivity].
Qed.

(** An update of the instruction of an expert keeps the relation. *)
Lemma instructionsKept_update (configs : gmap string AgentConfig.t)
    (current : Instructions) (expertId : string) (newInstruction : jsval) :
  In expertId expertAgentIds ->
  instructionsKept configs current ->
  instructionsKept configs (applyUpdate current expertId newInstruction).
Proof.
  intros Hid Rel. unfold applyUpdate.
  destruct current as [current|]; [|exact I].
  destruct newInstruction as [| | | |instruction| |]; try exact I.
  destruct (current !! expertId) as [config|] eqn:Hc; [|exact I].
  intros key. destruct (decide (key = expertId)) as [->|Ne].
  - rewrite lookup_insert_eq. specialize (Rel expertId). rewrite Hc in Rel.
    destruct (configs !! expertId) as [original|]; [|contradiction].
    destruct Rel as [(R1 & R2 & R3 & R4 & R5 & R6 & R7 & R8 & R9) _].
    split; [|intros N; contradiction].
    unfold sameButInstruction, withInstruction. cbn. repeat split; assumption.
  - rewrite lookup_insert_ne by congruence. apply Rel.
Qed.

Section Questions.

Variable host : Host.
Variable frameworkConfig : FrameworkConfig.t.
Variable configs : gmap string AgentConfig.t.
Variable useGoogleSearch : bool.
Variable context question : string.
Hypothesis configured : qaConfigured configs.

Lemma askExpert_step (id : string) (w : World) :
  In id expertAgentIds ->
  exists r w',
    askExpert host frameworkConfig configs useGoogleSearch context question id w
    = (Returns r, w') /\
    responseId r = id /\
    (exists config, configs !! id = Some config /\ responseName r = AgentConfig.name config) /\
    requests w'
    = (requests w
       ++ sentBy host
            (questionCall frameworkConfig configs useGoogleSearch context question id))%list /\
    clockReadings w' = S (S (clockReadings w)).
Proof.
  intros Hid. destruct (proj1 configured id Hid) as [config Hc].
  destruct (runAgent_call host frameworkConfig configs id config
              (truncatePromptIfNeeded (qaPromptOf context question config)
                 MAX_CONTEXT_TOKENS)
              (useGoogleSearch && startsWith "expert_" id) w Hc
              (qaPromptOf_nonempty context question config))
    as (content & elapsed & usage & w' & E & L & C & _).
  exists (mkExpertResponse id (AgentConfig.name config) content), w'.
  split.
  { unfold askExpert, readConfig. rewrite Hc.
    rewrite (bind_returns _ _ w w config) by reflexivity.
    rewrite (bind_returns _ _ _ _ _ E). reflexivity. }
  split; [reflexivity|]. split; [now exists config|].
  unfold questionCall. rewrite Hc. split; [exact L | exact C].
Qed.

Lemma askExperts_step (ids : list string) :
  Forall (fun id => In id expertAgentIds) ids ->
  forall w,
    exists responses w',
      promiseAll
        (askExpert host frameworkConfig configs useGoogleSearch context question) ids w
      = (Returns responses, w') /\
      map responseId responses = ids /\
      Forall (fun r => exists config,
                  configs !! responseId r = Some config /\
                  responseName r = AgentConfig.name config) responses /\
      requests w'
      = (requests w
         ++ sentBy host
              (flat_map
                 (questionCall frameworkConfig configs useGoogleSearch context question)
                 ids))%list /\
      clockReadings w' = (clockReadings w + 2 * length ids)%nat.
Proof.
  induction 1 as [|id ids Hid _ IH]; intros w.
  - exists [], w. split; [reflexivity|]. split; [reflexivity|]. split; [constructor|].
    unfold sentBy. cbn [flat_map length].
    destruct (GEMINI_API_KEY host); rewrite app_nil_r; split; (reflexivity || lia).
  - destruct (askExpert_step id w Hid) as (r & w1 & E1 & Rid & Rname & L1 & C1).
    destruct (IH w1) as (rs & w2 & E2 & Ids & Names & L2 & C2).
    exists (r :: rs), w2. split.
    { cbn [promiseAll]. now rewrite E1, E2. }
    split; [cbn [map]; congruence|]. split.
    { constructor; [|exact Names]. destruct Rname as (config & Hc & Hn).
      exists config. now rewrite Rid. }
    split.
    { rewrite L2, L1. cbn [flat_map]. now rewrite sentBy_app, app_assoc. }
    rewrite C2, C1. cbn [length]. lia.
Qed.

(** One pass of the loop over the answers: the request for the update
    agent, at most one system message, and the configurations. *)
Lemma considerUpdate_step (messages : list ChatMessage) (current : Instructions)
    (r : ExpertResponse) (w : World) :
  In (responseId r) expertAgentIds ->
  instructionsKept configs current ->
  exists notes instructions w' inv,
    considerUpdate host frameworkConfig configs question (messages, current) r w
    = (Returns ((messages ++ map SystemNote notes)%list, instructions), w') /\
    (length notes <= 1)%nat /\
    (notes = [] -> instructions = current) /\
    instructionsKept configs instructions /\
    participant inv = updateAgentId /\
    Request.tools (request inv) = [] /\
    requests w' = (requests w ++ sentBy host [inv])%list /\
    clockReadings w' = S (S (clockReadings w)).
Proof.
  intros Hid Rel.
  destruct (proj2 configured) as [updateConfig Hu].
  destruct (proj1 configured _ Hid) as [expertConfig He].
  unfold considerUpdate, readConfig. rewrite Hu, He.
  rewrite (bind_returns _ _ w w updateConfig) by reflexivity.
  rewrite (bind_returns _ _ w w expertConfig) by reflexivity.
  match goal with
  | |- context [runAgent host updateAgentId (Some configs) (Some ?p) false _ _] =>
      destruct (runAgent_call_any host frameworkConfig configs updateAgentId
                  updateConfig p false w Hu)
        as (content & agentMetrics & prompt & w' & E & _ & L & C)
  end.
  rewrite (bind_returns _ _ _ _ _ E). cbv beta iota.
  set (inv := mkInvocation updateAgentId
                (requestOf frameworkConfig updateAgentId updateConfig prompt false)) in L.
  destruct (requestedInstruction host content) as [newInstruction|].
  - eexists [_], _, w', inv. split.
    { unfold ret. cbn [map]. reflexivity. }
    split; [cbn [length]; lia|]. split; [discriminate|].
    split; [now apply instructionsKept_update|].
    split; [reflexivity|]. split; [reflexivity|]. split; [exact L | exact C].
  - eexists [], _, w', inv. split.
    { unfold ret. cbn [map]. now rewrite app_nil_r. }
    split; [cbn [length]; lia|]. split; [reflexivity|].
    split; [exact Rel|].
    split; [reflexivity|]. split; [reflexivity|]. split; [exact L | exact C].
Qed.

Lemma considerUpdates_step (responses : list ExpertResponse) :
  Forall (fun r => In (responseId r) expertAgentIds) responses ->
  forall (messages : list ChatMessage) (current : Instructions) (w : World),
    instructionsKept configs current ->
    exists notes instructions w' invs,
      forEach (considerUpdate host frameworkConfig configs question) responses
        (messages, current) w
      = (Returns ((messages ++ map SystemNote notes)%list, instructions), w') /\
      (length notes <= length responses)%nat /\
      (notes = [] -> instructions = current) /\
      instructionsKept configs instructions /\
      map participant invs = repeat updateAgentId (length responses) /\
      Forall (fun inv => Request.tools (request inv) = []) invs /\
      requests w' = (requests w ++ sentBy host invs)%list /\
      clockReadings w' = (clockReadings w + 2 * length responses)%nat.
Proof.
  induction 1 as [|r responses Hr _ IH]; intros messages current w Rel.
  - exists [], current, w, []. cbn [map forEach length repeat].
    rewrite app_nil_r. split; [reflexivity|]. split; [lia|]. split; [reflexivity|].
    split; [exact Rel|]. split; [reflexivity|]. split; [constructor|].
    unfold sentBy. destruct (GEMINI_API_KEY host); rewrite app_nil_r; split;
      (reflexivity || lia).
  - destruct (considerUpdate_step messages current r w Hr Rel)
      as (notes1 & i1 & w1 & inv & E1 & N1 & K1 & R1 & P1 & T1 & L1 & C1).
    destruct (IH (messages ++ map SystemNote notes1)%list i1 w1 R1)
      as (notes2 & i2 & w2 & invs & E2 & N2 & K2 & R2 & P2 & T2 & L2 & C2).
    exists (notes1 ++ notes2)%list, i2, w2, (inv :: invs). split.
    { cbn [forEach]. rewrite (bind_returns _ _ _ _ _ E1), E2.
      now rewrite map_app, app_assoc. }
    split; [rewrite length_app; cbn [length]; lia|].
    split.
    { intros Nil. apply app_eq_nil in Nil as [-> ->]. now rewrite K2, K1. }
    split; [exact R2|]. split; [cbn [map length repeat]; congruence|].
    split; [now constructor|]. split.
    { rewrite L2, L1. change (inv :: invs) with ([inv] ++ invs)%list.
      now rewrite sentBy_app, app_assoc. }
    rewrite C2, C1. cbn [length]. lia.
Qed.

End Questions.

Lemma questionCalls_participants (frameworkConfig : FrameworkConfig.t)
    (configs : gmap string AgentConfig.t) (enabled : bool) (context question : string)
    (ids : list string) :
  Forall (fun id => is_Some (configs !! id)) ids ->
  map participant
    (flat_map (questionCall frameworkConfig configs enabled context question) ids)
  = ids.
Proof.
  induction 1 as [|id ids [config Hc] _ IH]; [reflexivity|].
  cbn [flat_map]. unfold questionCall at 1. rewrite Hc. cbn [app map participant].
  now rewrite IH.
Qed.

(** A question, from the guard to the last update. *)
Lemma handleAskQuestion_step (host : Host) (frameworkConfig : FrameworkConfig.t)
    (configs : gmap string AgentConfig.t) (proposal : ProposalData)
    (section1Outputs : list (option AgentOutput))
    (discussionMessages : list ChatMessage) (finalDecision : AgentOutput)
    (qaMessages : list ChatMessage) (useGoogleSearch : bool) (question : string)
    (w : World) :
  qaConfigured configs ->
  outputContent finalDecision <> EmptyString ->
  startsWith "Error:" (outputContent finalDecision) = false ->
  exists result w' answers notes sent,
    handleAskQuestion host frameworkConfig (Some configs) (Some proposal)
      section1Outputs discussionMessages (Some finalDecision) qaMessages
      useGoogleSearch question w
    = (Returns (Some result), w') /\
    qaMessagesAfter result
    = (qaMessages ++ [Said (mkUserChatMessage "user" "user" "You" question)]
       ++ map Said answers ++ map SystemNote notes)%list /\
    map agentId answers = expertAgentIds /\
    Forall (agentMessage configs) answers /\
    (length notes <= 3)%nat /\
    (notes = [] -> agentConfigsAfter result = AllText configs) /\
    instructionsKept configs (agentConfigsAfter result) /\
    map participant sent
    = (expertAgentIds ++ [updateAgentId; updateAgentId; updateAgentId])%list /\
    requests w' = (requests w ++ sentBy host sent)%list /\
    clockReadings w' = (clockReadings w + 12)%nat.
Proof.
  intros Conf Filled NoError.
  assert (Experts : Forall (fun id => In id expertAgentIds) expertAgentIds).
  { apply List.Forall_forall. auto. }
  set (context := buildContext host proposal section1Outputs discussionMessages
                    qaMessages finalDecision).
  destruct (askExperts_step host frameworkConfig configs useGoogleSearch context
              question Conf expertAgentIds Experts w)
    as (responses & w1 & E1 & Ids & Names & L1 & C1).
  assert (Known : Forall (fun r => In (responseId r) expertAgentIds) responses).
  { apply List.Forall_forall. intros r Hr. rewrite <- Ids at 1.
    apply in_map_iff. now exists r. }
  set (answers := map (fun r => mkUserChatMessage "agent" (responseId r)
                                  (displayName (responseName r)) (response r))
                      responses).
  destruct (considerUpdates_step host frameworkConfig configs question Conf responses
              Known
              ((qaMessages ++ [Said (mkUserChatMessage "user" "user" "You" question)])
               ++ map Said answers)%list
              (AllText configs) w1 (onlyInstructionsChanged_refl configs))
    as (notes & instructions & w2 & invs & E2 & N & K & R & P & T & L2 & C2).
  assert (Three : length responses = 3%nat).
  { rewrite <- (length_map responseId), Ids. reflexivity. }
  exists (mkQaResult
            (((qaMessages ++ [Said (mkUserChatMessage "user" "user" "You" question)])
              ++ map Said answers) ++ map SystemNote notes)%list
            instructions),
    w2, answers, notes,
    (flat_map (questionCall frameworkConfig configs useGoogleSearch context question)
       expertAgentIds ++ invs)%list.
  split.
  { unfold handleAskQuestion.
    destruct (String.eqb_spec (outputContent finalDecision) EmptyString) as [Eq|_];
      [contradiction|].
    rewrite NoError. cbn [orb]. fold context.
    rewrite (bind_returns _ _ _ _ _ E1).
    unfold answers in E2. rewrite map_map in E2.
    rewrite (bind_returns _ _ _ _ _ E2). unfold answers. rewrite map_map.
    reflexivity. }
  cbn [qaMessagesAfter agentConfigsAfter].
  split; [now rewrite <- !app_assoc|].
  split; [unfold answers; rewrite map_map; exact Ids|].
  split.
  { unfold answers. apply Forall_map. eapply List.Forall_impl; [|exact Names].
    intros r (config & Hc & Hn). split; [reflexivity|].
    exists config. cbn [agentId agentName]. now rewrite Hn. }
  split; [lia|]. split; [exact K|]. split; [exact R|].
  split.
  { rewrite map_app, P, Three, questionCalls_participants; [reflexivity|].
    apply List.Forall_forall. intros id Hid. now apply (proj1 Conf). }
  split; [rewrite L2, L1, sentBy_app; now rewrite app_assoc|].
  rewrite C2, C1, Three. cbn [length expertAgentIds]. lia.
Qed.

Lemma logs_handleAskQuestion (good : Invocation -> Prop) (host : Host)
    (frameworkConfig : FrameworkConfig.t) (configs : gmap string AgentConfig.t)
    (proposal : option ProposalData) (section1Outputs : list (option AgentOutput))
    (discussionMessages : list ChatMessage) (finalDecision : option AgentOutput)
    (qaMessages : list ChatMessage) (useGoogleSearch : bool) (question : string) :
  (forall agentId dynamicPrompt flag,
      flag = useGoogleSearch && isExpert agentId ->
      logs good
        (runAgent host agentId (Some configs) dynamicPrompt flag
           (FrameworkConfig.seed frameworkConfig)
           (FrameworkConfig.temperature frameworkConfig))) ->
  logs good
    (handleAskQuestion host frameworkConfig (Some configs) proposal section1Outputs
       discussionMessages finalDecision qaMessages useGoogleSearch question).
Proof.
  intros Call. unfold handleAskQuestion.
  destruct proposal as [proposalData|]; [|apply logs_ret].
  destruct finalDecision as [decision|]; [|apply logs_ret].
  destruct (_ || _); [apply logs_ret|].
  apply logs_bind.
  { apply logs_promiseAll. intros id. unfold askExpert.
    apply logs_bind; [apply logs_readConfig | intros agentConfig].
    apply logs_bind; [now apply Call | intros [responseMessage m]].
    apply logs_ret. }
  intros expertResponses.
  apply logs_bind; [|intros [messages instructions]; apply logs_ret].
  apply logs_forEach. intros [messages current] r. unfold considerUpdate.
  apply logs_bind; [apply logs_readConfig | intros updateAgentConfig].
  apply logs_bind; [apply logs_readConfig | intros expertConfig].
  apply logs_bind.
  { apply Call. symmetry. apply andb_false_r. }
  intros [updateResultStr m].
  destruct (requestedInstruction host updateResultStr); apply logs_ret.
Qed.

(** X21: when the experts and the update agent are configured and there is
    a final decision that is no error text, a question is answered: the
    function returns, and the panel gets, after the messages it had, the
    question of the user, one answer of each expert in the order expert_1,
    expert_2, expert_3 under its display name, and then at most three
    system messages, one for each instruction that is updated; without any
    such message the configurations are unchanged. *)
Theorem question_is_answered_by_each_expert (host : Host)
    (frameworkConfig : FrameworkConfig.t) (configs : gmap string AgentConfig.t)
    (proposal : ProposalData) (section1Outputs : list (option AgentOutput))
    (discussionMessages : list ChatMessage) (finalDecision : AgentOutput)
    (qaMessages : list ChatMessage) (useGoogleSearch : bool) (question : string)
    (w : World) :
  qaConfigured configs ->
  outputContent finalDecision <> EmptyString ->
  startsWith "Error:" (outputContent finalDecision) = false ->
  exists result w' answers notes,
    handleAskQuestion host frameworkConfig (Some configs) (Some proposal)
      section1Outputs discussionMessages (Some finalDecision) qaMessages
      useGoogleSearch question w
    = (Returns (Some result), w') /\
    qaMessagesAfter result
    = (qaMessages ++ [Said (mkUserChatMessage "user" "user" "You" question)]
       ++ map Said answers ++ map SystemNote notes)%list /\
    map agentId answers = ["expert_1"; "expert_2"; "expert_3"] /\
    Forall
      (fun m =>
         msgType m = "agent" /\
         exists config,
           configs !! agentId m = Some config /\
           agentName m = displayName (AgentConfig.name config))
      answers /\
    (length notes <= 3)%nat /\
    (notes = [] -> agentConfigsAfter result = AllText configs).
Proof.
  intros Conf Filled NoError.
  destruct (handleAskQuestion_step host frameworkConfig configs proposal
              section1Outputs discussionMessages finalDecision qaMessages
              useGoogleSearch question w Conf Filled NoError)
    as (result & w' & answers & notes & sent & E & M & A & F & N & K & _).
  exists result, w', answers, notes. auto 10.
Qed.

(** X22: a question changes nothing of the configurations but system
    instructions of experts: afterwards the configurations have the same
    keys, every entry that is not an expert's is the same, and an expert's
    entry differs at most in its system instruction (in particular not in
    its model or prompt). *)
Theorem questions_change_only_expert_instructions (host : Host)
    (frameworkConfig : FrameworkConfig.t) (configs : gmap string AgentConfig.t)
    (proposal : ProposalData) (section1Outputs : list (option AgentOutput))
    (discussionMessages : list ChatMessage) (finalDecision : AgentOutput)
    (qaMessages : list ChatMessage) (useGoogleSearch : bool) (question : string)
    (w : World) :
  qaConfigured configs ->
  outputContent finalDecision <> EmptyString ->
  startsWith "Error:" (outputContent finalDecision) = false ->
  exists result w',
    handleAskQuestion host frameworkConfig (Some configs) (Some proposal)
      section1Outputs discussionMessages (Some finalDecision) qaMessages
      useGoogleSearch question w
    = (Returns (Some result), w') /\
    forall configs',
      agentConfigsAfter result = AllText configs' ->
      forall key,
        match configs !! key, configs' !! key with
        | Some config, Some config' =>
            sameButInstruction config config' /\
            (~ In key expertAgentIds -> config' = config)
        | None, None => True
        | _, _ => False
        end.
Proof.
  intros Conf Filled NoError.
  destruct (handleAskQuestion_step host frameworkConfig configs proposal
              section1Outputs discussionMessages finalDecision qaMessages
              useGoogleSearch question w Conf Filled NoError)
    as (result & w' & answers & notes & sent & E & _ & _ & _ & _ & _ & R & _).
  exists result, w'. split; [exact E|].
  intros configs' Hc. rewrite Hc in R. exact R.
Qed.

(** X23: the requests of a question.  With the experts and the update
    agent configured, a question reads the clock twelve times and, when the
    API key is set, sends six requests: one for each expert in the order
    expert_1, expert_2, expert_3, then three for the update agent.  Whatever
    the configurations are, every request it logs follows the configuration
    of its participant and the settings of the run, and carries web search
    exactly when the toggle is on and the participant is an expert.  With no
    final decision, or an error text as final decision, nothing is done. *)
Theorem question_requests (host : Host) (frameworkConfig : FrameworkConfig.t)
    (configs : gmap string AgentConfig.t) (proposal : ProposalData)
    (section1Outputs : list (option AgentOutput))
    (discussionMessages : list ChatMessage) (finalDecision : AgentOutput)
    (qaMessages : list ChatMessage) (useGoogleSearch : bool) (question : string)
    (w : World) :
  (qaConfigured configs ->
   outputContent finalDecision <> EmptyString ->
   startsWith "Error:" (outputContent finalDecision) = false ->
   exists result w',
     handleAskQuestion host frameworkConfig (Some configs) (Some proposal)
       section1Outputs discussionMessages (Some finalDecision) qaMessages
       useGoogleSearch question w
     = (Returns (Some result), w') /\
     map participant (requests w')
     = (map participant (requests w)
        ++ if GEMINI_API_KEY host
           then ["expert_1"; "expert_2"; "expert_3";
                 updateAgentId; updateAgentId; updateAgentId]
           else [])%list /\
     clockReadings w' = (clockReadings w + 12)%nat) /\
  Forall
    (fun inv =>
       followsConfiguration frameworkConfig configs inv /\
       (searchAttached inv
        <-> useGoogleSearch = true /\ isExpert (participant inv) = true))
    (requests
       (snd (handleAskQuestion host frameworkConfig (Some configs) (Some proposal)
               section1Outputs discussionMessages (Some finalDecision) qaMessages
               useGoogleSearch question startOfRun))) /\
  (outputContent finalDecision = EmptyString
   \/ startsWith "Error:" (outputContent finalDecision) = true ->
   handleAskQuestion host frameworkConfig (Some configs) (Some proposal)
     section1Outputs discussionMessages (Some finalDecision) qaMessages
     useGoogleSearch question w
   = (Returns None, w) /\
   handleAskQuestion host frameworkConfig (Some configs) (Some proposal)
     section1Outputs discussionMessages None qaMessages useGoogleSearch question w
   = (Returns None, w)).
Proof.
  split; [|split].
  - intros Conf Filled NoError.
    destruct (handleAskQuestion_step host frameworkConfig configs proposal
                section1Outputs discussionMessages finalDecision qaMessages
                useGoogleSearch question w Conf Filled NoError)
      as (result & w' & answers & notes & sent & E & _ & _ & _ & _ & _ & _ & P & L & C).
    exists result, w'. split; [exact E|]. split; [|exact C].
    rewrite L, map_app. f_equal. unfold sentBy.
    destruct (GEMINI_API_KEY host); [exact P | reflexivity].
  - apply List.Forall_and.
    + apply logs_handleAskQuestion; [|constructor].
      intros agentId dynamicPrompt flag _.
      apply (policy_runAgent host frameworkConfig configs).
      intros _ id config prompt use Hc. now apply requestOf_followsConfiguration.
    + apply (logs_handleAskQuestion (searchPolicy useGoogleSearch)); [|constructor].
      intros agentId dynamicPrompt flag Hflag.
      apply logs_runAgent. intros req Ht.
      now apply (searchPolicy_of_call useGoogleSearch flag agentId).
  - intros Guard. split; [|reflexivity].
    unfold handleAskQuestion.
    destruct Guard as [-> | ->]; [reflexivity|]. now rewrite orb_true_r.
Qed.

Lemma qaConfigs_configured : qaConfigured qaConfigs.
Proof.
  split; [|vm_compute; now eexists].
  intros id [<-|[<-|[<-|[]]]]; vm_compute; now eexists.
Qed.

Lemma question_is_answered_by_each_expert_witness :
  exists result w' answers notes,
    handleAskQuestion host150 (demoFramework 1) (Some qaConfigs) (Some demoProposal)
      [] [] (Some demoDecision) [] false "Why?" startOfRun
    = (Returns (Some result), w') /\
    qaMessagesAfter result
    = ([] ++ [Said (mkUserChatMessage "user" "user" "You" "Why?")]
       ++ map Said answers ++ map SystemNote notes)%list /\
    map agentId answers = ["expert_1"; "expert_2"; "expert_3"].
Proof.
  destruct (question_is_answered_by_each_expert host150 (demoFramework 1) qaConfigs
              demoProposal [] [] demoDecision [] false "Why?" startOfRun
              qaConfigs_configured)
    as (result & w' & answers & notes & E & M & A & _).
  - discriminate.
  - reflexivity.
  - exists result, w', answers, notes. auto.
Defined.

Lemma questions_change_only_expert_instructions_witness :
  exists result w',
    handleAskQuestion host150 (demoFramework 1) (Some qaConfigs) (Some demoProposal)
      [] [] (Some demoDecision) [] false "Why?" startOfRun
    = (Returns (Some result), w') /\
    forall configs',
      agentConfigsAfter result = AllText configs' ->
      forall key,
        match qaConfigs !! key, configs' !! key with
        | Some config, Some config' =>
            sameButInstruction config config' /\
            (~ In key expertAgentIds -> config' = config)
        | None, None => True
        | _, _ => False
        end.
Proof.
  apply (questions_change_only_expert_instructions host150 (demoFramework 1) qaConfigs
           demoProposal [] [] demoDecision [] false "Why?" startOfRun
           qaConfigs_configured).
  - discriminate.
  - reflexivity.
Defined.

Lemma question_requests_witness :
  exists result w',
    handleAskQuestion host150 (demoFramework 1) (Some qaConfigs) (Some demoProposal)
      [] [] (Some demoDecision) [] false "Why?" startOfRun
    = (Returns (Some result), w') /\
    map participant (requests w')
    = ["expert_1"; "expert_2"; "expert_3"; updateAgentId; updateAgentId; updateAgentId] /\
    clockReadings w' = 12%nat.
Proof.
  apply (proj1 (question_requests host150 (demoFramework 1) qaConfigs
                  demoProposal [] [] demoDecision [] false "Why?" startOfRun)
           qaConfigs_configured).
  - discriminate.
  - reflexivity.
Defined.

(** ** The median in the panel, on the page and in the report *)

Lemma find_findIndexFrom {A B : Type} (f : A -> B) (p : B -> bool) (items : list A)
    (start : nat) :
  List.find (fun x => p (f x)) items
  = match findIndexFrom p (map f items) start with
    | Some i => nth_error items (i - start)
    | None => None
    end.
Proof.
  revert start. induction items as [|x rest IH]; intros start; [reflexivity|].
  cbn [List.find map findIndexFrom]. destruct (p (f x)).
  - now rewrite Nat.sub_diag.
  - rewrite (IH (S start)).
    destruct (findIndexFrom p (map f rest) (S start)) as [i|] eqn:E; [|reflexivity].
    assert (Hi : (S start <= i)%nat).
    { clear IH. revert E. generalize (S start). generalize (map f rest).
      induction l as [|y l IHl]; intros n; [discriminate|].
      cbn [findIndexFrom]. destruct (p y).
      - intros H. injection H as <-. lia.
      - intros H. apply IHl in H. lia. }
    replace (i - start)%nat with (S (i - S start)) by lia. reflexivity.
Qed.

(** X24: the three places that show the median agree.  The score shown on
    the page (the rounded median of the aggregate) is the rounded median of
    the summary panel, for every list of scores; and the median iteration
    that the PDF report singles out is the opinion that the panel shows as
    its representative assessment. *)
Theorem median_displays_agree {A : Type} (score : A -> Q) (expertOpinions : list A) :
  (exists panelMedian,
      calculateMedian (map score expertOpinions) = Num panelMedian /\
      Math_round panelMedian
      = renderedMedianScore (medianOf (map score expertOpinions))) /\
  medianIterationOf score expertOpinions
  = match medianIndexOf (map score expertOpinions) with
    | Some medianIndex => nth_error expertOpinions medianIndex
    | None => None
    end.
Proof.
  destruct expertOpinions as [|o rest] eqn:Shape.
  - split; [|reflexivity]. exists 0%Q. split; reflexivity.
  - rewrite <- Shape.
    assert (NE : map score expertOpinions <> []) by (subst; discriminate).
    destruct (medianOf_defined _ NE) as [med Hmed].
    split.
    + exists med. rewrite (calculateMedian_nonempty _ NE), Hmed. split; reflexivity.
    + unfold medianIterationOf, medianIndexOf.
      rewrite (calculateMedian_nonempty _ NE).
      assert (Pos : (0 <? length expertOpinions)%nat = true).
      { subst. reflexivity. }
      rewrite Pos. fold (medianOf (map score expertOpinions)). rewrite Hmed.
      destruct (Math_min _) as [least|]; [|reflexivity].
      unfold findIndex.
      rewrite (find_findIndexFrom score
                 (fun s => Qeq_bool (Qabs (s - med)) least) expertOpinions 0).
      destruct (findIndexFrom _ _ 0) as [i|]; [|reflexivity].
      now rewrite Nat.sub_0_r.
Qed.

(** X28: in binary64 too the median iteration that the PDF report singles
    out is the opinion that the summary panel shows as its representative
    assessment: both search the opinions for the first score whose computed
    distance to the computed median is the least. *)
Theorem median_iteration_is_the_representative {A : Type} (score : A -> float)
    (expertOpinions : list A) :
  Binary64.medianIterationOf score expertOpinions
  = match Binary64.medianIndexOf (map score expertOpinions) with
    | Some medianIndex => nth_error expertOpinions medianIndex
    | None => None
    end.
Proof.
  destruct expertOpinions as [|o rest] eqn:Shape; [reflexivity|].
  rewrite <- Shape.
  unfold Binary64.medianIterationOf, Binary64.medianIndexOf,
    Binary64.calculateMedian.
  rewrite length_map.
  assert (Pos : (0 <? length expertOpinions)%nat = true) by (subst; reflexivity).
  assert (NZ : (length expertOpinions =? 0)%nat = false) by (subst; reflexivity).
  rewrite Pos, NZ. cbv zeta.
  set (medianScore :=
         if Nat.even (length (Binary64.sortAscending (map score expertOpinions)))
         then _ else _).
  unfold findIndex.
  rewrite (find_findIndexFrom score
             (fun s => (PrimFloat.abs (s - medianScore)
                        =? Binary64.Math_min
                             (map (fun s => PrimFloat.abs (s - medianScore))
                                (map score expertOpinions)))%float)
             expertOpinions 0).
  destruct (findIndexFrom _ _ 0) as [i|]; [|reflexivity].
  now rewrite Nat.sub_0_r.
Qed.

(** ** The context budget of the requests *)

Lemma truncated_fits (prompt : string) :
  (countTokens (truncatePromptIfNeeded prompt MAX_CONTEXT_TOKENS)
   <= MAX_CONTEXT_TOKENS + countTokens truncationMarker)%nat.
Proof.
  destruct (Nat.le_gt_cases (countTokens prompt) MAX_CONTEXT_TOKENS) as [Le|Gt].
  - rewrite (truncate_under_budget _ _ Le). lia.
  - destruct (truncate_over_budget _ _ Gt) as (suffix & -> & L).
    pose proof (countTokens_spec (truncationMarker ++ suffix)) as B.
    rewrite length_append, truncationMarker_length in B.
    rewrite truncationMarker_tokens. lia.
Qed.

Lemma append_empty_inv (s t : string) :
  s ++ t = EmptyString -> s = EmptyString /\ t = EmptyString.
Proof.
  intros E. apply (f_equal String.length) in E. rewrite length_append in E.
  destruct s, t; simpl in E; try lia. now split.
Qed.

(** A prompt that a replacement empties was the placeholder alone. *)
Lemma replace_empty (pattern replacement s : string) :
  replace pattern replacement s = EmptyString -> s = EmptyString \/ s = pattern.
Proof.
  unfold replace. destruct (splitAtFirst pattern s) as [[before after]|] eqn:E;
    [|now left].
  intros H. apply append_empty_inv in H as [-> H].
  apply append_empty_inv in H as [_ ->].
  apply splitAtFirst_append in E. rewrite append_empty in E. right.
  rewrite E. clear. induction pattern as [|c p IH]; [reflexivity|].
  rewrite append_cons. now rewrite IH.
Qed.

(** The prompt the invoker uses when it is given the truncated prompt of a
    template with one placeholder. *)
Lemma placeholder_prompt_fits (pattern replacement : string) (config : AgentConfig.t) :
  (countTokens pattern <= 15)%nat ->
  (countTokens
     match nonEmpty
             (Some (truncatePromptIfNeeded
                      (replace pattern replacement (AgentConfig.prompt config))
                      MAX_CONTEXT_TOKENS)) with
     | Some p => p
     | None => AgentConfig.prompt config
     end
   <= MAX_CONTEXT_TOKENS + countTokens truncationMarker)%nat.
Proof.
  intros Small. unfold nonEmpty.
  destruct (String.eqb_spec
              (truncatePromptIfNeeded
                 (replace pattern replacement (AgentConfig.prompt config))
                 MAX_CONTEXT_TOKENS) EmptyString) as [Empty|_];
    [|apply truncated_fits].
  assert (Blank : replace pattern replacement (AgentConfig.prompt config) = EmptyString).
  { destruct (string_dec (replace pattern replacement (AgentConfig.prompt config))
                EmptyString) as [E|N]; [exact E|].
    now apply (truncate_nonempty _ MAX_CONTEXT_TOKENS) in N. }
  rewrite truncationMarker_tokens.
  destruct (replace_empty _ _ _ Blank) as [-> | ->]; [cbn; lia | lia].
Qed.

Section Budget.

Variable host : Host.
Variable frameworkConfig : FrameworkConfig.t.
Variable configsForRun : gmap string AgentConfig.t.

(** The invoker logs a request that fits when the prompt it uses fits. *)
Lemma budget_runAgent (agentId : string) (dynamicPrompt : option string)
    (useGoogleSearch : bool) :
  (forall config,
      configsForRun !! agentId = Some config ->
      (countTokens
         match nonEmpty dynamicPrompt with
         | Some p => p
         | None => AgentConfig.prompt config
         end
       <= MAX_CONTEXT_TOKENS + countTokens truncationMarker)%nat) ->
  logs withinBudget
    (runAgent host agentId (Some configsForRun) dynamicPrompt useGoogleSearch
       (FrameworkConfig.seed frameworkConfig)
       (FrameworkConfig.temperature frameworkConfig)).
Proof.
  intros Fits. unfold runAgent.
  destruct (configsForRun !! agentId) as [config|] eqn:Hc; [|apply logs_ret].
  specialize (Fits config eq_refl).
  apply logs_bind; [apply logs_performanceNow | intros startTime].
  apply logs_bind; [|intros [result metadata]; repeat logs_step].
  unfold runAgentQuery.
  destruct (GEMINI_API_KEY host); cbn [negb]; [|apply logs_ret].
  apply logs_bind; [|intros [response|]; apply logs_ret].
  apply logs_callGenerateContent. exact Fits.
Qed.

Lemma budget_nonempty_prompt (agentId prompt : string) (useGoogleSearch : bool) :
  prompt <> EmptyString ->
  logs withinBudget
    (runAgent host agentId (Some configsForRun)
       (Some (truncatePromptIfNeeded prompt MAX_CONTEXT_TOKENS)) useGoogleSearch
       (FrameworkConfig.seed frameworkConfig)
       (FrameworkConfig.temperature frameworkConfig)).
Proof.
  intros NE. apply budget_runAgent. intros config _.
  rewrite (nonEmpty_some _ (truncate_nonempty _ MAX_CONTEXT_TOKENS NE)).
  apply truncated_fits.
Qed.

Lemma logs_bind_readConfig {B : Type} (good : Invocation -> Prop)
    (id property : string) (k : AgentConfig.t -> Async B) :
  (forall config, configsForRun !! id = Some config -> logs good (k config)) ->
  logs good (bind (readConfig configsForRun id property) k).
Proof.
  intros H w Hw. unfold bind, readConfig.
  destruct (configsForRun !! id) as [config|] eqn:E; cbn.
  - now apply H.
  - exact Hw.
Qed.

(** A call whose prompt is the template of the participant with one
    placeholder filled in. *)
Lemma budget_template_prompt (agentId pattern replacement : string)
    (config : AgentConfig.t) :
  configsForRun !! agentId = Some config ->
  (countTokens pattern <= 15)%nat ->
  logs withinBudget
    (runAgent host agentId (Some configsForRun)
       (Some (truncatePromptIfNeeded
                (replace pattern replacement (AgentConfig.prompt config))
                MAX_CONTEXT_TOKENS))
       false (FrameworkConfig.seed frameworkConfig)
       (FrameworkConfig.temperature frameworkConfig)).
Proof.
  intros Hc Small. apply budget_runAgent. intros found Hf.
  assert (found = config) as -> by congruence.
  now apply placeholder_prompt_fits.
Qed.

Lemma budget_runDiscussionAndDecision (context : string) (metrics : FrameworkMetrics)
    (enabled : bool) :
  logs withinBudget
    (runDiscussionAndDecision host frameworkConfig context configsForRun metrics enabled).
Proof.
  unfold runDiscussionAndDecision.
  apply logs_bind; [apply logs_readConfig | intros _].
  apply logs_bind; [|intros final; apply logs_ret].
  apply logs_forEach. intros state i. unfold completeIteration.
  apply logs_bind; [apply logs_readConfig | intros _].
  apply logs_bind; [|intros [output metrics']; apply logs_ret].
  unfold runSingleIteration, expertDiscussion.
  apply logs_bind.
  { apply logs_forEach. intros s turn.
    apply logs_forEach. intros [history m] id. unfold expertSpeaks.
    apply logs_bind; [apply logs_readConfig | intros agentConfig].
    apply logs_bind; [|intros [content agentMetrics]].
    { apply budget_nonempty_prompt. discriminate. }
    apply logs_bind; [apply logs_trackExpertMetrics | intros metrics'].
    apply logs_ret. }
  intros [history metrics1].
  apply logs_bind; [apply logs_readConfig | intros finalAgentConfig].
  apply logs_bind; [|intros [content evalMetrics]; apply logs_ret].
  apply budget_nonempty_prompt, append_nonempty_r. discriminate.
Qed.

Lemma budget_summarize (currentProposal : ProposalData) :
  logs withinBudget (summarize host frameworkConfig configsForRun currentProposal).
Proof.
  assert (S : forall content,
             logs withinBudget
               (bind (readConfig configsForRun summarizeAgentId "prompt")
                  (fun summarizeConfig =>
                     runAgent host summarizeAgentId (Some configsForRun)
                       (Some (truncatePromptIfNeeded
                                (replace "{url_content}" content
                                   (AgentConfig.prompt summarizeConfig))
                                MAX_CONTEXT_TOKENS))
                       false (FrameworkConfig.seed frameworkConfig)
                       (FrameworkConfig.temperature frameworkConfig)))).
  { intros content. apply logs_bind_readConfig. intros config Hc.
    apply budget_template_prompt; [exact Hc | cbn; lia]. }
  unfold summarize.
  destruct (negb _); apply logs_tryCatch; try (intros e; apply logs_ret).
  - destruct (fetch host _) as [ok status body|message]; [|apply logs_throw].
    destruct ok; [apply S | apply logs_throw].
  - apply S.
Qed.

Lemma budget_runSimulation (useGoogleSearch : bool) (currentProposal : ProposalData) :
  logs withinBudget
    (runSimulation host frameworkConfig (Some configsForRun) useGoogleSearch
       currentProposal).
Proof.
  unfold runSimulation.
  apply logs_bind.
  { unfold resetState. repeat logs_step. }
  intros _.
  apply logs_bind; [apply logs_performanceNow | intros startTime].
  apply logs_bind_readConfig. intros classificationConfig Hc.
  apply logs_bind; [|intros [classContent classMetrics]].
  { apply budget_template_prompt; [exact Hc | cbn; lia]. }
  apply logs_bind; [apply budget_summarize | intros [summaryText summaryMetrics]].
  apply logs_bind; [apply budget_runDiscussionAndDecision | intros outcome].
  apply logs_bind; [apply logs_performanceNow | intros endTime].
  apply logs_bind; [|intros tracking; apply logs_ret].
  unfold trackPerformance.
  apply logs_tryCatch; [|intros e; apply logs_ret].
  apply logs_bind_readConfig. intros trackerConfig Ht.
  apply logs_bind; [|intros [content m]; apply logs_ret].
  apply budget_template_prompt; [exact Ht | cbn; lia].
Qed.

End Budget.

(** X25: every request that a simulation or a restarted discussion logs
    carries a prompt of at most 12000 + 15 estimated tokens, the budget and
    the marker of a truncation, whatever the configurations, the proposal
    and the answers of the service are. *)
Theorem requests_fit_the_budget (host : Host) (frameworkConfig : FrameworkConfig.t)
    (configs : gmap string AgentConfig.t) (useGoogleSearch : bool) :
  (forall currentProposal,
      Forall
        (fun inv =>
           (countTokens (Request.contents (request inv))
            <= MAX_CONTEXT_TOKENS + 15)%nat)
        (requests
           (snd (runSimulation host frameworkConfig (Some configs) useGoogleSearch
                   currentProposal startOfRun)))) /\
  (forall initialContext,
      Forall
        (fun inv =>
           (countTokens (Request.contents (request inv))
            <= MAX_CONTEXT_TOKENS + 15)%nat)
        (requests
           (snd (handleRestartDiscussion host frameworkConfig initialContext
                   (Some configs) useGoogleSearch startOfRun)))).
Proof.
  split.
  - intros currentProposal.
    exact (budget_runSimulation host frameworkConfig configs useGoogleSearch
             currentProposal startOfRun (List.Forall_nil _)).
  - intros initialContext.
    assert (L : logs withinBudget
                  (handleRestartDiscussion host frameworkConfig initialContext
                     (Some configs) useGoogleSearch)).
    { unfold handleRestartDiscussion.
      destruct (String.eqb initialContext EmptyString); [apply logs_ret|].
      apply logs_bind; [apply budget_runDiscussionAndDecision | intros outcome].
      apply logs_ret. }
    exact (L startOfRun (List.Forall_nil _)).
Qed.

(** ** The calls of [fetch] *)



(** ** The context budget of a question *)

Lemma replace_length (pattern replacement s : string) :
  (String.length s
   <= String.length (replace pattern replacement s) + String.length pattern)%nat.
Proof.
  unfold replace. destruct (splitAtFirst pattern s) as [[before after]|] eqn:E; [|lia].
  apply splitAtFirst_append in E. rewrite E at 1. rewrite !length_append. lia.
Qed.

Lemma qaPromptOf_filled (context question : string) (agentConfig : AgentConfig.t) :
  qaPromptOf context question agentConfig <> EmptyString.
Proof.
  intros E. apply (f_equal String.length) in E.
  unfold qaPromptOf in E. rewrite !length_append in E. simpl in E. lia.
Qed.

Lemma budget_handleAskQuestion (host : Host) (frameworkConfig : FrameworkConfig.t)
    (configs : gmap string AgentConfig.t) (proposal : option ProposalData)
    (section1Outputs : list (option AgentOutput))
    (discussionMessages : list ChatMessage) (finalDecision : option AgentOutput)
    (qaMessages : list ChatMessage) (useGoogleSearch : bool) (question : string) :
  logs withinBudget
    (handleAskQuestion host frameworkConfig (Some configs) proposal section1Outputs
       discussionMessages finalDecision qaMessages useGoogleSearch question).
Proof.
  unfold handleAskQuestion.
  destruct proposal as [proposalData|]; [|apply logs_ret].
  destruct finalDecision as [decision|]; [|apply logs_ret].
  destruct (_ || _); [apply logs_ret|].
  apply logs_bind.
  { apply logs_promiseAll. intros id. unfold askExpert.
    apply logs_bind; [apply logs_readConfig | intros agentConfig].
    apply logs_bind; [|intros [responseMessage m]; apply logs_ret].
    apply budget_nonempty_prompt, qaPromptOf_filled. }
  intros expertResponses.
  apply logs_bind; [|intros [messages instructions]; apply logs_ret].
  apply logs_forEach. intros [messages current] r. unfold considerUpdate.
  apply logs_bind_readConfig. intros updateAgentConfig Hu.
  apply logs_bind; [apply logs_readConfig | intros expertConfig].
  apply logs_bind.
  2:{ intros [updateResultStr m].
      destruct (requestedInstruction host updateResultStr); apply logs_ret. }
  apply budget_runAgent. intros found Hf.
  assert (found = updateAgentConfig) as -> by congruence.
  unfold nonEmpty.
  match goal with
  | |- context [String.eqb ?p EmptyString] =>
      destruct (String.eqb_spec p EmptyString) as [Empty|_]; [|apply truncated_fits]
  end.
  match type of Empty with
  | truncatePromptIfNeeded ?chain _ = _ =>
      assert (Blank : chain = EmptyString)
  end.
  { match goal with
    | |- ?chain = _ =>
        destruct (string_dec chain EmptyString) as [E|N]; [exact E|];
        now apply (truncate_nonempty _ MAX_CONTEXT_TOKENS) in N
    end. }
  match type of Blank with
  | replace ?p3 ?r3 (replace ?p2 ?r2 (replace ?p1 ?r1 ?s)) = _ =>
      pose proof (replace_length p1 r1 s) as L1;
      pose proof (replace_length p2 r2 (replace p1 r1 s)) as L2;
      pose proof (replace_length p3 r3 (replace p2 r2 (replace p1 r1 s))) as L3
  end.
  rewrite Blank in L3. cbn [String.length] in L1, L2, L3.
  pose proof (countTokens_spec (AgentConfig.prompt updateAgentConfig)) as B.
  rewrite truncationMarker_tokens. lia.
Qed.

(** X27: every request that a question to the experts logs carries a
    prompt of at most 12000 + 15 estimated tokens, whatever the
    configurations, the question and the answers are. *)
Theorem question_requests_fit_the_budget (host : Host)
    (frameworkConfig : FrameworkConfig.t) (configs : gmap string AgentConfig.t)
    (proposal : option ProposalData) (section1Outputs : list (option AgentOutput))
    (discussionMessages : list ChatMessage) (finalDecision : option AgentOutput)
    (qaMessages : list ChatMessage) (useGoogleSearch : bool) (question : string) :
  Forall
    (fun inv =>
       (countTokens (Request.contents (request inv)) <= MAX_CONTEXT_TOKENS + 15)%nat)
    (requests
       (snd (handleAskQuestion host frameworkConfig (Some configs) proposal
               section1Outputs discussionMessages finalDecision qaMessages
               useGoogleSearch question startOfRun))).
Proof.
  exact (budget_handleAskQuestion host frameworkConfig configs proposal
           section1Outputs discussionMessages finalDecision qaMessages
           useGoogleSearch question startOfRun (List.Forall_nil _)).
Qed.

(** ** The binary64 statistics on examples *)

(** X3: rounding takes the computed statistics out of the range of the
    scores.  On three scores of 0.1 the computed mean is above 0.1 and the
    computed standard deviation is above 0, where the exact mean is the
    score and the exact standard deviation is 0; the label is High all the
    same. *)
Theorem statistics_leave_the_range_by_rounding :
  Binary64.meanOf tenths = 0.10000000000000002%float /\
  (0.1 <? Binary64.meanOf tenths)%float = true /\
  Binary64.standardDeviationOf tenths = 1.3877787807814457e-17%float /\
  (0 <? Binary64.standardDeviationOf tenths)%float = true /\
  Binary64.medianOf tenths = 0.1%float /\
  Binary64.confidenceLevelOf (Binary64.standardDeviationOf tenths) = "High" /\
  (exists m : Q,
      meanOf [1 # 10; 1 # 10; 1 # 10]%Q = Num m /\ (m == 1 # 10)%Q) /\
  standardDeviationOf [1 # 10; 1 # 10; 1 # 10]%Q = RNum 0.
Proof.
  repeat (split; [vm_compute; reflexivity|]).
  destruct (statistics_unanimous [1 # 10; 1 # 10; 1 # 10]%Q (1 # 10))
    as (m & _ & Hm & Em & _ & _ & Hsd).
  - discriminate.
  - repeat constructor.
  - split; [now exists m | exact Hsd].
Qed.

(** X29: where the arithmetic of the code is exact, its binary64 statistics
    are the exact ones.  On the scores of property P4 the code computes
    mean 72, median 75, a standard deviation between 17.07 and 17.08 and
    the label Low; on [n] scores of 50, for every [n] from 1 to 1000, it
    computes mean 50, median 50, standard deviation 0 and the label High. *)
Theorem binary64_statistics_of_the_examples :
  Binary64.meanOf scoresP4InBinary64 = 72%float /\
  Binary64.medianOf scoresP4InBinary64 = 75%float /\
  (17.07 <? Binary64.standardDeviationOf scoresP4InBinary64)%float = true /\
  (Binary64.standardDeviationOf scoresP4InBinary64 <? 17.08)%float = true /\
  Binary64.confidenceLevelOf (Binary64.standardDeviationOf scoresP4InBinary64)
  = "Low" /\
  forall n : nat,
    (1 <= n <= 1000)%nat ->
    (Binary64.meanOf (repeat 50%float n) =? 50)%float = true /\
    (Binary64.medianOf (repeat 50%float n) =? 50)%float = true /\
    (Binary64.standardDeviationOf (repeat 50%float n) =? 0)%float = true /\
    Binary64.confidenceLevelOf (Binary64.standardDeviationOf (repeat 50%float n))
    = "High".
Proof.
  repeat (split; [vm_compute; reflexivity|]).
  assert (All : forallb unanimousInBinary64 (seq 1 1000) = true)
    by (vm_compute; reflexivity).
  intros n Hn.
  rewrite forallb_forall in All.
  assert (In n (seq 1 1000)) as Hin by (apply in_seq; lia).
  specialize (All n Hin). unfold unanimousInBinary64 in All. cbv zeta in All.
  apply andb_true_iff in All as [All H4].
  apply andb_true_iff in All as [All H3].
  apply andb_true_iff in All as [H1 H2].
  apply String.eqb_eq in H4. auto.
Qed.

Lemma binary64_statistics_of_the_examples_witness :
  (1 <= 3 <= 1000)%nat /\
  (Binary64.meanOf (repeat 50%float 3) =? 50)%float = true /\
  Binary64.confidenceLevelOf (Binary64.standardDeviationOf (repeat 50%float 3))
  = "High".
Proof.
  assert (H : (1 <= 3 <= 1000)%nat) by lia.
  split; [exact H|].
  destruct (proj2 (proj2 (proj2 (proj2 (proj2 binary64_statistics_of_the_examples))))
              3%nat H) as (M & _ & _ & L).
  split; [exact M | exact L].
Defined.
